(** * Collection domain objects and feature-flag evaluation

    A shallow embedding of [core/domain/collection_domain.py] and
    [core/domain/platform_feature_services.py].

    Python values are dynamically typed; the fields that the code inspects
    with [isinstance] are kept as values of the universe [pyval].  Methods
    that mutate [self] or a dict argument are functions from the object
    state before the call to the state after it, paired with the outcome
    (a returned value or a raised exception). *)

From Stdlib Require Import ZArith List String Ascii Bool Lia.
From Stdlib Require Import DecimalString.
From stdpp Require Import gmap strings list fin_maps.
From Equations Require Import Equations.

Set Warnings "-register-all,-clear-no-such-hyp".
Open Scope string_scope.
Open Scope Z_scope.

(** ** Python values *)

(** The values a YAML or JSON document yields: null, booleans, integers,
    strings, lists and string-keyed dicts.  A dict is an association list in
    insertion order, so that [list(d.keys())] is the list of first
    components. *)
Inductive pyval : Type :=
| PNone
| PBool (b : bool)
| PInt (z : Z)
| PStr (s : string)
| PList (l : list pyval)
| PDict (d : list (string * pyval)).

Abbreviation pydict := (list (string * pyval)).

(** Exceptions, by class.  The string is the message template of the raise
    site (before [%] formatting), the missing key, or the attribute name. *)
Inductive exn : Type :=
| InvalidInputException (msg : string)
| PyException (msg : string)
| ValidationError (msg : string)
| ValueError (msg : string)
| FeatureFlagNotFoundException (names : list string)
| KeyError (key : string)
| AttributeError (name : string)
| IndexError
| TypeError.

Inductive result (A : Type) : Type :=
| Ok (a : A)
| Raise (e : exn).
Arguments Ok {A} a.
Arguments Raise {A} e.

#[global] Instance result_ret : MRet result := fun A a => Ok a.
#[global] Instance result_bind : MBind result :=
  fun A B f m => match m with Ok a => f a | Raise e => Raise e end.

Definition is_ok {A} (r : result A) : bool :=
  match r with Ok _ => true | Raise _ => false end.

(** ** Dict operations on association lists *)

Section Dict.
Context {V : Type}.

(** [d.get(k)] *)
Fixpoint dict_get (k : string) (d : list (string * V)) : option V :=
  match d with
  | [] => None
  | (k', v) :: d' => if String.eqb k k' then Some v else dict_get k d'
  end.

(** [d[k] = v]: an existing key keeps its position, a new key goes last. *)
Fixpoint dict_set (k : string) (v : V) (d : list (string * V))
  : list (string * V) :=
  match d with
  | [] => [(k, v)]
  | (k', v') :: d' =>
      if String.eqb k k' then (k', v) :: d' else (k', v') :: dict_set k v d'
  end.

(** [del d[k]] on a dict that has the key. *)
Fixpoint dict_remove (k : string) (d : list (string * V))
  : list (string * V) :=
  match d with
  | [] => []
  | (k', v') :: d' =>
      if String.eqb k k' then d' else (k', v') :: dict_remove k d'
  end.

(** [k in d] *)
Definition dict_mem (k : string) (d : list (string * V)) : bool :=
  match dict_get k d with Some _ => true | None => false end.

(** [list(d.keys())] *)
Definition dict_keys (d : list (string * V)) : list string := map fst d.

(** [d[k]], raising [KeyError] on a missing key. *)
Definition dict_getitem (k : string) (d : list (string * V)) : result V :=
  match dict_get k d with Some v => Ok v | None => Raise (KeyError k) end.

(** [del d[k]], raising [KeyError] on a missing key. *)
Definition dict_delitem (k : string) (d : list (string * V))
  : result (list (string * V)) :=
  if dict_mem k d then Ok (dict_remove k d) else Raise (KeyError k).
End Dict.

(** ** Python operators on values *)

(** [v[k]] for a string subscript. *)
Definition getitem (v : pyval) (k : string) : result pyval :=
match v with
| PDict d => dict_getitem k d
| _ => Raise TypeError
end.

(** Iteration: a list yields its items, a dict its keys, a string its
  characters; nothing else is iterable. *)
Definition py_iter (v : pyval) : result (list pyval) :=
match v with
| PList l => Ok l
| PDict d => Ok (map (fun kv => PStr (fst kv)) d)
| PStr s => Ok (map (fun c => PStr (String c EmptyString)) (list_ascii_of_string s))
| _ => Raise TypeError
end.

(** [a == b].  Booleans are the integers 0 and 1; dicts compare regardless
  of key order. *)
Fixpoint py_eqb (a b : pyval) {struct a} : bool :=
match a, b with
| PNone, PNone => true
| PBool x, PBool y => Bool.eqb x y
| PInt x, PInt y => Z.eqb x y
| PBool x, PInt y => Z.eqb (Z.b2z x) y
| PInt x, PBool y => Z.eqb x (Z.b2z y)
| PStr x, PStr y => String.eqb x y
| PList x, PList y =>
    (fix go (x y : list pyval) {struct x} : bool :=
       match x, y with
       | [], [] => true
       | a' :: x', b' :: y' => py_eqb a' b' && go x' y'
       | _, _ => false
       end) x y
| PDict x, PDict y =>
    Nat.eqb (length x) (length y) &&
    (fix go (x : list (string * pyval)) {struct x} : bool :=
       match x with
       | [] => true
       | (k, v) :: x' =>
           match dict_get k y with
           | Some w => py_eqb v w && go x'
           | None => false
           end
       end) x
| _, _ => false
end.

(** [x in l] for a list [l]. *)
Definition py_in (x : pyval) (l : list pyval) : bool := existsb (py_eqb x) l.

Definition hashable (v : pyval) : bool :=
match v with
| PList _ | PDict _ => false
| _ => true
end.

(** [set(l)] as the list of distinct items in first-occurrence order;
  [TypeError] on an unhashable item. *)
Fixpoint set_add_all (l acc : list pyval) : result (list pyval) :=
match l with
| [] => Ok acc
| x :: l' =>
    if hashable x
    then set_add_all l' (if py_in x acc then acc else acc ++ [x])
    else Raise TypeError
end.

Definition py_set (l : list pyval) : result (list pyval) := set_add_all l [].

(** Truth value of [isinstance(v, basestring)], [isinstance(v, int)] (a bool
  is an int) and [isinstance(v, list)]. *)
Definition is_basestring (v : pyval) : bool :=
match v with PStr _ => true | _ => false end.
Definition is_int (v : pyval) : bool :=
match v with PInt _ | PBool _ => true | _ => false end.
Definition is_list (v : pyval) : bool :=
match v with PList _ => true | _ => false end.

(** Truth value of an object in a condition. *)
Definition truthy (v : pyval) : bool :=
match v with
| PNone => false
| PBool b => b
| PInt z => negb (Z.eqb z 0)
| PStr s => negb (String.eqb s "")
| PList l => match l with [] => false | _ => true end
| PDict d => match d with [] => false | _ => true end
end.

(** ** Constants of modules outside this file *)

(** Modelled from the spec: [feconf.py] is absent.  The test suite fixes
  the value: conversion methods must exist for versions 1 to CURRENT-1 and
  must not exist for CURRENT, and the latest YAML fixture is version 6. *)
Definition CURRENT_COLLECTION_SCHEMA_VERSION : Z := 6.

(** [str(z)] and [unicode(z)] of an integer. *)
Definition str_of_Z (z : Z) : string := NilZero.string_of_int (Z.to_int z).

(** The integer a number stands for in arithmetic and comparisons. *)
Definition num_of (v : pyval) : option Z :=
  match v with
  | PInt z => Some z
  | PBool b => Some (Z.b2z b)
  | _ => None
  end.

(** [a < b] in Python 2, where values of different kinds are ordered
    [None], then numbers, then strings. *)
Definition py_rank (v : pyval) : nat :=
  match v with
  | PNone => 0
  | PBool _ | PInt _ => 1
  | PStr _ => 2
  | _ => 3
  end.

Definition py_ltb (a b : pyval) : bool :=
  match num_of a, num_of b with
  | Some x, Some y => Z.ltb x y
  | _, _ =>
      match a, b with
      | PStr x, PStr y => String.ltb x y
      | _, _ => Nat.ltb (py_rank a) (py_rank b)
      end
  end.

(** [sorted(l)] by insertion. *)
Fixpoint sorted_insert (x : pyval) (l : list pyval) : list pyval :=
  match l with
  | [] => [x]
  | y :: l' => if py_ltb x y then x :: y :: l' else y :: sorted_insert x l'
  end.

Definition py_sorted (l : list pyval) : list pyval :=
  fold_left (fun acc x => sorted_insert x acc) l [].

(** An object mutated in place: its state after the call, and the exception
    the call raised, if any. *)
Abbreviation inplace S := (S * option exn)%type.

(** ** Modules outside this file *)

(** [utils]: the YAML reader, the two name validators and the two datetime
    converters.  [require_valid_name] either returns ([None]) or raises
    [utils.ValidationError] with a message. *)
Class UtilsModule (datetime : Type) := {
  dict_from_yaml : string -> result pydict;
  require_valid_name : string -> string -> bool -> option string;
  is_valid_language_code : string -> bool;
  convert_naive_datetime_to_string : datetime -> string;
  convert_string_to_naive_datetime_object : string -> result datetime
}.

(** [json.dumps(...).encode('utf-8')] and [json.loads(s.decode('utf-8'))]. *)
Class JsonModule := {
  json_dumps : pyval -> string;
  json_loads : string -> result pyval
}.

(** [constants]: the default language code, a matcher for [TAG_REGEX] and
    the ids of the system users. *)
Class ConstantsModule := {
  DEFAULT_LANGUAGE_CODE : string;
  TAG_REGEX_match : string -> bool;
  SYSTEM_USER_IDS : list string
}.

(** ** CollectionNode *)

Record CollectionNode : Type := mkCollectionNode {
  exploration_id : pyval
}.

Module CollectionNodeM.

Definition to_dict (n : CollectionNode) : pyval :=
  PDict [("exploration_id", exploration_id n)].

Definition from_dict (node_dict : pyval) : result CollectionNode :=
  e ← getitem node_dict "exploration_id"; mret (mkCollectionNode e).

Definition validate (n : CollectionNode) : result unit :=
  if is_basestring (exploration_id n) then Ok tt
  else Raise (ValidationError
                "Expected exploration ID to be a string, received %s").

Definition create_default_node (e : pyval) : CollectionNode :=
  mkCollectionNode e.

End CollectionNodeM.

(** ** Collection *)

(** [nodes] is kept as a list of nodes; the other attributes are dynamically
    typed.  [created_on] and [last_updated] are a datetime or [None]. *)
Record Collection {datetime : Type} : Type := mkCollection {
  c_id : pyval;
  title : pyval;
  category : pyval;
  objective : pyval;
  language_code : pyval;
  tags : pyval;
  schema_version : pyval;
  nodes : list CollectionNode;
  version : pyval;
  created_on : option datetime;
  last_updated : option datetime
}.
Arguments Collection datetime : clear implicits.
Arguments mkCollection {datetime}.

(** [mapM] over a list, left to right. *)
Fixpoint map_result {A B} (f : A -> result B) (l : list A) : result (list B) :=
  match l with
  | [] => Ok []
  | x :: l' => y ← f x; ys ← map_result f l'; mret (y :: ys)
  end.

Section CollectionSerialization.
Context {datetime : Type} `{!UtilsModule datetime} `{!JsonModule}.

Definition to_dict (c : Collection datetime) : pydict :=
  [ ("id", c_id c);
    ("title", title c);
    ("category", category c);
    ("objective", objective c);
    ("language_code", language_code c);
    ("tags", tags c);
    ("schema_version", schema_version c);
    ("nodes", PList (map CollectionNodeM.to_dict (nodes c))) ].

Definition from_dict (collection_dict : pyval) (collection_version : pyval)
  (collection_created_on collection_last_updated : option datetime)
  : result (Collection datetime) :=
  i ← getitem collection_dict "id";
  t ← getitem collection_dict "title";
  cat ← getitem collection_dict "category";
  o ← getitem collection_dict "objective";
  lc ← getitem collection_dict "language_code";
  tg ← getitem collection_dict "tags";
  sv ← getitem collection_dict "schema_version";
  nds ← getitem collection_dict "nodes";
  node_dicts ← py_iter nds;
  ns ← map_result CollectionNodeM.from_dict node_dicts;
  mret (mkCollection i t cat o lc tg sv ns collection_version
          collection_created_on collection_last_updated).

(** The datetime stored under [key], or [None] when the key is absent. *)
Definition read_datetime (key : string) (d : pydict)
  : result (option datetime) :=
  match dict_get key d with
  | None => Ok None
  | Some (PStr s) =>
      dt ← convert_string_to_naive_datetime_object s; mret (Some dt)
  | Some _ => Raise TypeError
  end.

(** [deserialize]: a decoded value that is not a dict fails with [TypeError]
    at the first subscript, whatever [in] answered. *)
Definition deserialize (json_string : string) : result (Collection datetime) :=
  collection_dict ← json_loads json_string;
  match collection_dict with
  | PDict d =>
      co ← read_datetime "created_on" d;
      lu ← read_datetime "last_updated" d;
      v ← dict_getitem "version" d;
      from_dict (PDict d) v co lu
  | _ => Raise TypeError
  end.

(** The dict [serialize] hands to [json.dumps]. *)
Definition serialize_dict (c : Collection datetime) : pydict :=
  let d0 := to_dict c in
  let d1 := dict_set "version" (version c) d0 in
  let d2 := match created_on c with
            | Some dt =>
                dict_set "created_on"
                         (PStr (convert_naive_datetime_to_string dt)) d1
            | None => d1
            end in
  match last_updated c with
  | Some dt =>
      dict_set "last_updated" (PStr (convert_naive_datetime_to_string dt)) d2
  | None => d2
  end.

Definition serialize (c : Collection datetime) : string :=
  json_dumps (PDict (serialize_dict c)).

End CollectionSerialization.

(** ** Schema migrations *)

Definition _SKILL_ID_PREFIX : string := "skill".

(** *** Conversions of the collection contents (in place) *)

Definition _convert_collection_contents_v1_dict_to_v2_dict
  (collection_contents : pyval) : inplace pyval :=
  (collection_contents, None).

Definition _convert_collection_contents_v2_dict_to_v3_dict
  (collection_contents : pyval) : inplace pyval :=
  (collection_contents, None).

(** [skill_names.update(node[key])] *)
Definition update_skill_names (node : pyval) (key : string)
  (skill_names : list pyval) : result (list pyval) :=
  skills ← getitem node key;
  items ← py_iter skills;
  set_add_all items skill_names.

(** The first loop of the v3 to v4 conversion. *)
Fixpoint collect_skill_names (node_list : list pyval) (skill_names : list pyval)
  : result (list pyval) :=
  match node_list with
  | [] => Ok skill_names
  | node :: rest =>
      s1 ← update_skill_names node "acquired_skills" skill_names;
      s2 ← update_skill_names node "prerequisite_skills" s1;
      collect_skill_names rest s2
  end.

(** [{name: _SKILL_ID_PREFIX + unicode(index) for index, name in
    enumerate(names)}], counting from [index]. *)
Fixpoint enumerate_skill_ids (index : nat) (names : list pyval)
  : list (pyval * string) :=
  match names with
  | [] => []
  | name :: rest =>
      (name, _SKILL_ID_PREFIX ++ str_of_Z (Z.of_nat index))
        :: enumerate_skill_ids (S index) rest
  end.

(** [skill_names_to_ids[name]]; every name looked up was inserted by the
    first loop, so the error branch is never taken. *)
Fixpoint skill_id_of (name : pyval) (skill_names_to_ids : list (pyval * string))
  : result pyval :=
  match skill_names_to_ids with
  | [] => Raise (KeyError "skill name")
  | (n, i) :: rest =>
      if py_eqb name n then Ok (PStr i) else skill_id_of name rest
  end.

Definition skill_ids_of (node : pyval) (key : string)
  (skill_names_to_ids : list (pyval * string)) : result pyval :=
  skills ← getitem node key;
  names ← py_iter skills;
  ids ← map_result (fun n => skill_id_of n skill_names_to_ids) names;
  mret (PList ids).

Definition convert_node_v3_to_v4 (skill_names_to_ids : list (pyval * string))
  (node : pyval) : result pyval :=
  e ← getitem node "exploration_id";
  p ← skill_ids_of node "prerequisite_skills" skill_names_to_ids;
  a ← skill_ids_of node "acquired_skills" skill_names_to_ids;
  mret (PDict [ ("exploration_id", e);
                ("prerequisite_skill_ids", p);
                ("acquired_skill_ids", a) ]).

(** The [skills] dict.  Its pairs are listed by skill id; the program fixes
    no order of these keys. *)
Definition skills_dict (skill_names_to_ids : list (pyval * string)) : pyval :=
  PDict (map (fun ni => (snd ni,
                         PDict [("name", fst ni); ("question_ids", PList [])]))
             skill_names_to_ids).

(** Everything that can fail happens before the first assignment. *)
Definition contents_v3_to_v4 (d : pydict) : result pydict :=
  nodes_value ← dict_getitem "nodes" d;
  node_list ← py_iter nodes_value;
  skill_names ← collect_skill_names node_list [];
  let skill_names_to_ids := enumerate_skill_ids 0 (py_sorted skill_names) in
  new_nodes ← map_result (convert_node_v3_to_v4 skill_names_to_ids) node_list;
  let d1 := dict_set "nodes" (PList new_nodes) d in
  let d2 := dict_set "skills" (skills_dict skill_names_to_ids) d1 in
  mret (dict_set "next_skill_id"
                 (PInt (Z.of_nat (length skill_names))) d2).

Definition _convert_collection_contents_v3_dict_to_v4_dict
  (collection_contents : pyval) : inplace pyval :=
  match collection_contents with
  | PDict d =>
      match contents_v3_to_v4 d with
      | Ok d' => (PDict d', None)
      | Raise e => (collection_contents, Some e)
      end
  | _ => (collection_contents, Some TypeError)
  end.

Definition _convert_collection_contents_v4_dict_to_v5_dict
  (collection_contents : pyval) : inplace pyval :=
  match collection_contents with
  | PDict d =>
      match dict_getitem "next_skill_id" d with
      | Ok n =>
          let d1 := dict_set "next_skill_index" n d in
          (PDict (dict_remove "next_skill_id" d1), None)
      | Raise e => (collection_contents, Some e)
      end
  | _ => (collection_contents, Some TypeError)
  end.

(** The loop of the v5 to v6 conversion.  The nodes visited before a failure
    stay modified. *)
Fixpoint delete_node_skill_ids (node_list : list pyval) : inplace (list pyval) :=
  match node_list with
  | [] => ([], None)
  | PDict nd :: rest =>
      match dict_delitem "prerequisite_skill_ids" nd with
      | Raise e => (PDict nd :: rest, Some e)
      | Ok nd1 =>
          match dict_delitem "acquired_skill_ids" nd1 with
          | Raise e => (PDict nd1 :: rest, Some e)
          | Ok nd2 =>
              let (rest', r) := delete_node_skill_ids rest in
              (PDict nd2 :: rest', r)
          end
      end
  | node :: rest => (node :: rest, Some TypeError)
  end.

Definition _convert_collection_contents_v5_dict_to_v6_dict
  (collection_contents : pyval) : inplace pyval :=
  match collection_contents with
  | PDict d =>
      match dict_getitem "nodes" d with
      | Raise e => (collection_contents, Some e)
      | Ok (PList node_list) =>
          let (node_list', r) := delete_node_skill_ids node_list in
          (PDict (dict_set "nodes" (PList node_list') d), r)
      | Ok nodes_value =>
          (* iterating a dict or a string yields strings, which do not
             support item deletion *)
          match py_iter nodes_value with
          | Ok [] => (collection_contents, None)
          | Ok (_ :: _) => (collection_contents, Some TypeError)
          | Raise e => (collection_contents, Some e)
          end
      end
  | _ => (collection_contents, Some TypeError)
  end.

(** *** Conversions of a collection dict read from YAML *)

(** Calls an in-place conversion on a dict and hands back the dict. *)
Definition call_on_dict (f : pyval -> inplace pyval) (d : pydict)
  : result pydict :=
  match f (PDict d) with
  | (_, Some e) => Raise e
  | (PDict d', None) => Ok d'
  | (_, None) => Raise TypeError
  end.

Section Migration.
Context {datetime : Type} `{!UtilsModule datetime} `{!ConstantsModule}.

Definition _convert_v1_dict_to_v2_dict (collection_dict : pydict)
  : result pydict :=
  let d1 := dict_set "schema_version" (PInt 2) collection_dict in
  let d2 := dict_set "language_code" (PStr DEFAULT_LANGUAGE_CODE) d1 in
  Ok (dict_set "tags" (PList []) d2).

Definition _convert_v2_dict_to_v3_dict (collection_dict : pydict)
  : result pydict :=
  Ok (dict_set "schema_version" (PInt 3) collection_dict).

Definition _convert_v3_dict_to_v4_dict (collection_dict : pydict)
  : result pydict :=
  new_collection_dict ←
    call_on_dict _convert_collection_contents_v3_dict_to_v4_dict
                 collection_dict;
  skills ← dict_getitem "skills" new_collection_dict;
  let d1 := dict_set "skills" skills new_collection_dict in
  next_skill_id ← dict_getitem "next_skill_id" d1;
  let d2 := dict_set "next_skill_id" next_skill_id d1 in
  Ok (dict_set "schema_version" (PInt 4) d2).

Definition _convert_v4_dict_to_v5_dict (collection_dict : pydict)
  : result pydict :=
  d1 ← call_on_dict _convert_collection_contents_v4_dict_to_v5_dict
                    collection_dict;
  Ok (dict_set "schema_version" (PInt 5) d1).

Definition _convert_v5_dict_to_v6_dict (collection_dict : pydict)
  : result pydict :=
  d1 ← dict_delitem "skills" collection_dict;
  d2 ← dict_delitem "next_skill_index" d1;
  Ok (dict_set "schema_version" (PInt 6) d2).

Definition convert_dict_name (v : Z) : string :=
  "_convert_v" ++ str_of_Z v ++ "_dict_to_v" ++ str_of_Z (v + 1) ++ "_dict".

(** [getattr(cls, '_convert_v%s_dict_to_v%s_dict' % (v, v + 1))] *)
Definition getattr_convert_dict (v : Z) : result (pydict -> result pydict) :=
  if v =? 1 then Ok _convert_v1_dict_to_v2_dict
  else if v =? 2 then Ok _convert_v2_dict_to_v3_dict
  else if v =? 3 then Ok _convert_v3_dict_to_v4_dict
  else if v =? 4 then Ok _convert_v4_dict_to_v5_dict
  else if v =? 5 then Ok _convert_v5_dict_to_v6_dict
  else Raise (AttributeError (convert_dict_name v)).

(** The [while] loop of [_migrate_to_latest_yaml_version]. *)
Equations migrate_loop (collection_schema_version : Z)
  (collection_dict : pydict) : result pydict
  by wf (Z.to_nat (CURRENT_COLLECTION_SCHEMA_VERSION
                   - collection_schema_version)) lt :=
  migrate_loop v d
    with Z_lt_dec v CURRENT_COLLECTION_SCHEMA_VERSION := {
    | right _ => Ok d
    | left _ with getattr_convert_dict v := {
        | Raise e => Raise e
        | Ok conversion_fn with conversion_fn d := {
            | Raise e => Raise e
            | Ok d' => migrate_loop (v + 1) d' } } }.
Next Obligation. lia. Qed.

(** [1 <= v <= CURRENT] on a value.  In Python 2 a string or a list is
    greater than every number and a dict smaller, so only numbers can be in
    range. *)
Definition version_in_range (v : pyval) : bool :=
  match num_of v with
  | Some z => (1 <=? z) && (z <=? CURRENT_COLLECTION_SCHEMA_VERSION)
  | None => false
  end.

Definition _migrate_to_latest_yaml_version (yaml_content : string)
  : result pydict :=
  match dict_from_yaml yaml_content with
  | Raise (InvalidInputException e) =>
      Raise (InvalidInputException
               ("Please ensure that you are uploading a YAML text file, not "
                ++ "a zip file. The YAML parser returned the following error: "
                ++ e))
  | Raise e => Raise e
  | Ok collection_dict =>
      match dict_get "schema_version" collection_dict with
      | None | Some PNone =>
          Raise (InvalidInputException
                   "Invalid YAML file: no schema version specified.")
      | Some collection_schema_version =>
          if negb (version_in_range collection_schema_version)
          then Raise (PyException
                 "Sorry, we can only process v1 to v6 collection YAML files at present.")
          else
            match collection_schema_version with
            | PInt v => migrate_loop v collection_dict
            | _ =>
                (* [True]: the only other value in range; no method is
                   named after it *)
                Raise (AttributeError "_convert_vTrue_dict_to_v2_dict")
            end
      end
  end.

(** *** One step of the migration of stored collection contents *)

Definition convert_contents_name (v : Z) : string :=
  "_convert_collection_contents_v" ++ str_of_Z v ++ "_dict_to_v"
    ++ str_of_Z (v + 1) ++ "_dict".

Definition getattr_convert_contents (v : Z)
  : result (pyval -> inplace pyval) :=
  if v =? 1 then Ok _convert_collection_contents_v1_dict_to_v2_dict
  else if v =? 2 then Ok _convert_collection_contents_v2_dict_to_v3_dict
  else if v =? 3 then Ok _convert_collection_contents_v3_dict_to_v4_dict
  else if v =? 4 then Ok _convert_collection_contents_v4_dict_to_v5_dict
  else if v =? 5 then Ok _convert_collection_contents_v5_dict_to_v6_dict
  else Raise (AttributeError (convert_contents_name v)).

(** [versioned_collection_contents] is modified in place: the first
    component is its state when the call returns or raises. *)
Definition update_collection_contents_from_model
  (versioned_collection_contents : pydict) (current_version : Z)
  : inplace pydict :=
  let vcc := versioned_collection_contents in
  match dict_getitem "schema_version" vcc with
  | Raise e => (vcc, Some e)
  | Ok sv =>
      match num_of sv with
      | None => (vcc, Some TypeError)
      | Some z =>
          if z + 1 >? CURRENT_COLLECTION_SCHEMA_VERSION
          then (vcc, Some (PyException
                  "Collection is version %d but current collection schema version is %d"))
          else
            let vcc1 := dict_set "schema_version"
                                 (PInt (current_version + 1)) vcc in
            match getattr_convert_contents current_version with
            | Raise e => (vcc1, Some e)
            | Ok conversion_fn =>
                match dict_getitem "collection_contents" vcc1 with
                | Raise e => (vcc1, Some e)
                | Ok contents =>
                    match conversion_fn contents with
                    | (contents', Some e) =>
                        (dict_set "collection_contents" contents' vcc1, Some e)
                    | (contents', None) =>
                        (dict_set "collection_contents" contents' vcc1, None)
                    end
                end
            end
      end
  end.

End Migration.

(** ** Collection: node list and validation *)

(** A Python list index: negative indices count from the end. *)
Definition py_index (len : nat) (i : Z) : option nat :=
  if (0 <=? i) && (i <? Z.of_nat len) then Some (Z.to_nat i)
  else if (- Z.of_nat len <=? i) && (i <? 0)
       then Some (Z.to_nat (Z.of_nat len + i))
       else None.

(** [l[i]], raising [IndexError] out of range. *)
Definition list_getitem {A} (l : list A) (i : Z) : result A :=
  match py_index (length l) i with
  | Some n => match l !! n with Some x => Ok x | None => Raise IndexError end
  | None => Raise IndexError
  end.

(** [l[i] = x], raising [IndexError] out of range. *)
Definition list_setitem {A} (l : list A) (i : Z) (x : A) : result (list A) :=
  match py_index (length l) i with
  | Some n => Ok (<[n := x]> l)
  | None => Raise IndexError
  end.

Definition raise_if (cond : bool) (e : exn) : result unit :=
  if cond then Raise e else Ok tt.

Definition is_ascii_lowercase (c : ascii) : bool :=
  let n := nat_of_ascii c in (97 <=? n)%nat && (n <=? 122)%nat.

(** The characters [\s] matches. *)
Definition is_whitespace (c : ascii) : bool :=
  let n := nat_of_ascii c in
  (n =? 32)%nat || ((9 <=? n)%nat && (n <=? 13)%nat).

(** [re.search(r'\s\s+', s)] finds a match. *)
Fixpoint has_adjacent_whitespace (s : string) : bool :=
  match s with
  | String a ((String b _) as s') =>
      (is_whitespace a && is_whitespace b) || has_adjacent_whitespace s'
  | _ => false
  end.

Fixpoint last_char (c : ascii) (s : string) : ascii :=
  match s with
  | EmptyString => c
  | String c' s' => last_char c' s'
  end.

(** [tag[0] in string.ascii_lowercase and tag[-1] in string.ascii_lowercase]
    for a tag that is not empty. *)
Definition starts_and_ends_lowercase (tag : string) : bool :=
  match tag with
  | EmptyString => false
  | String c s => is_ascii_lowercase c && is_ascii_lowercase (last_char c s)
  end.

Section CollectionMethods.
Context {datetime : Type} `{!UtilsModule datetime} `{!ConstantsModule}.

(** The [exploration_ids] property. *)
Definition exploration_ids (c : Collection datetime) : list pyval :=
  map exploration_id (nodes c).

(** The [for] loop of [get_next_exploration_id]. *)
Fixpoint first_not_in (exp_ids completed_exp_ids : list pyval)
  : option pyval :=
  match exp_ids with
  | [] => None
  | exp_id :: rest =>
      if negb (py_in exp_id completed_exp_ids) then Some exp_id
      else first_not_in rest completed_exp_ids
  end.

Definition get_next_exploration_id (c : Collection datetime)
  (completed_exp_ids : list pyval) : option pyval :=
  first_not_in (exploration_ids c) completed_exp_ids.

Definition set_nodes (c : Collection datetime) (ns : list CollectionNode)
  : Collection datetime :=
  mkCollection (c_id c) (title c) (category c) (objective c)
               (language_code c) (tags c) (schema_version c) ns
               (version c) (created_on c) (last_updated c).

(** [swap_nodes] mutates [self.nodes]; the first component is the
    collection when the call returns or raises. *)
Definition swap_nodes (c : Collection datetime) (first_index second_index : Z)
  : inplace (Collection datetime) :=
  if first_index =? second_index
  then (c, Some (ValueError "Both indices point to the same collection node."))
  else
    match list_getitem (nodes c) first_index with
    | Raise e => (c, Some e)
    | Ok temp =>
        match list_getitem (nodes c) second_index with
        | Raise e => (c, Some e)
        | Ok second =>
            match list_setitem (nodes c) first_index second with
            | Raise e => (c, Some e)
            | Ok nodes1 =>
                match list_setitem nodes1 second_index temp with
                | Raise e => (set_nodes c nodes1, Some e)
                | Ok nodes2 => (set_nodes c nodes2, None)
                end
            end
        end
    end.

Definition validate_tag (tag : pyval) : result unit :=
  match tag with
  | PStr s =>
      _ ← raise_if (negb (truthy tag))
            (ValidationError "Tags should be non-empty.");
      _ ← raise_if (negb (TAG_REGEX_match s))
            (ValidationError
               "Tags should only contain lowercase letters and spaces, received '%s'");
      _ ← raise_if (negb (starts_and_ends_lowercase s))
            (ValidationError
               "Tags should not start or end with whitespace, received  '%s'");
      raise_if (has_adjacent_whitespace s)
        (ValidationError
           "Adjacent whitespace in tags should be collapsed, received '%s'")
  | _ => Raise (ValidationError "Expected each tag to be a string, received '%s'")
  end.

Fixpoint for_each {A} (f : A -> result unit) (l : list A) : result unit :=
  match l with
  | [] => Ok tt
  | x :: rest => _ ← f x; for_each f rest
  end.

(** [isinstance(v, basestring)] followed by [utils.require_valid_name]. *)
Definition validate_name (v : pyval) (type_error : string) (name_type : string)
  : result unit :=
  match v with
  | PStr s =>
      match require_valid_name s name_type true with
      | Some msg => Raise (ValidationError msg)
      | None => Ok tt
      end
  | _ => Raise (ValidationError type_error)
  end.

Definition validate_language_code (v : pyval) : result unit :=
  match v with
  | PStr s =>
      _ ← raise_if (negb (truthy v))
            (ValidationError
               "A language must be specified (in the 'Settings' tab).");
      raise_if (negb (is_valid_language_code s))
        (ValidationError "Invalid language code: %s")
  | _ => Raise (ValidationError
                  "Expected language code to be a string, received %s")
  end.

Definition validate_tags (v : pyval) : result unit :=
  match v with
  | PList l =>
      distinct ← py_set l;
      _ ← raise_if (length distinct <? length l)%nat
            (ValidationError "Expected tags to be unique, but found duplicates");
      for_each validate_tag l
  | _ => Raise (ValidationError "Expected tags to be a list, received %s")
  end.

Definition validate (c : Collection datetime) (strict : bool) : result unit :=
  _ ← validate_name (title c)
        "Expected title to be a string, received %s" "the collection title";
  _ ← validate_name (category c)
        "Expected category to be a string, received %s"
        "the collection category";
  _ ← raise_if (negb (is_basestring (objective c)))
        (ValidationError "Expected objective to be a string, received %s");
  _ ← validate_language_code (language_code c);
  _ ← validate_tags (tags c);
  _ ← raise_if (negb (is_int (schema_version c)))
        (ValidationError
           "Expected schema version to be an integer, received %s");
  _ ← raise_if
        (negb (py_eqb (schema_version c)
                      (PInt CURRENT_COLLECTION_SCHEMA_VERSION)))
        (ValidationError "Expected schema version to be %s, received %s");
  (* [self.nodes] is a list by its type here *)
  let all_exp_ids := exploration_ids c in
  distinct ← py_set all_exp_ids;
  _ ← raise_if (negb (length distinct =? length all_exp_ids)%nat)
        (ValidationError
           "There are explorations referenced in the collection more than once.");
  _ ← for_each CollectionNodeM.validate (nodes c);
  if strict then
    _ ← raise_if (negb (truthy (title c)))
          (ValidationError "A title must be specified for the collection.");
    _ ← raise_if (negb (truthy (objective c)))
          (ValidationError
             "An objective must be specified for the collection.");
    _ ← raise_if (negb (truthy (category c)))
          (ValidationError "A category must be specified for the collection.");
    raise_if (match nodes c with [] => true | _ => false end)
      (ValidationError
         "Expected to have at least 1 exploration in the collection.")
  else Ok tt.

End CollectionMethods.

(** ** CollectionSummary *)

Module CollectionSummaryM.

(** The attributes have the types their docstring gives them. *)
Record CollectionSummary {datetime : Type} : Type := mkCollectionSummary {
  id : string;
  title : string;
  category : string;
  objective : string;
  language_code : string;
  tags : list string;
  status : string;
  community_owned : bool;
  owner_ids : list string;
  editor_ids : list string;
  viewer_ids : list string;
  contributor_ids : list string;
  contributors_summary : list (string * Z);
  version : Z;
  node_count : Z;
  collection_model_created_on : datetime;
  collection_model_last_updated : datetime
}.
Arguments CollectionSummary datetime : clear implicits.
Arguments mkCollectionSummary {datetime}.

(** [x in l] for a list of strings. *)
Definition str_in (x : string) (l : list string) : bool :=
  existsb (String.eqb x) l.

Section Methods.
Context {datetime : Type} `{!ConstantsModule}.

(** [user_id] is a string or [None]. *)
Definition is_editable_by (s : CollectionSummary datetime)
  (user_id : option string) : bool :=
  match user_id with
  | None => false
  | Some u =>
      str_in u (editor_ids s) || str_in u (owner_ids s) || community_owned s
  end.

Definition set_contributors (s : CollectionSummary datetime)
  (summary : list (string * Z)) (ids : list string)
  : CollectionSummary datetime :=
  mkCollectionSummary (id s) (title s) (category s) (objective s)
    (language_code s) (tags s) (status s) (community_owned s) (owner_ids s)
    (editor_ids s) (viewer_ids s) ids summary (version s) (node_count s)
    (collection_model_created_on s) (collection_model_last_updated s).

(** [d.get(k, 0)] *)
Definition get_or_zero (k : string) (d : list (string * Z)) : Z :=
  match dict_get k d with Some n => n | None => 0 end.

Definition add_contribution_by_user (s : CollectionSummary datetime)
  (contributor_id : string) : CollectionSummary datetime :=
  let summary :=
    if negb (str_in contributor_id SYSTEM_USER_IDS)
    then dict_set contributor_id
                  (get_or_zero contributor_id (contributors_summary s) + 1)
                  (contributors_summary s)
    else contributors_summary s in
  set_contributors s summary (dict_keys summary).

End Methods.
End CollectionSummaryM.

(** ** Feature flags *)

Module PlatformFeatureServices.

(** [platform_feature_list] and [platform_parameter_registry]: the names of
    the features of each stage, the registry lookup and the evaluation of a
    parameter in a context. *)
Class PlatformModules (param context : Type) := {
  DEV_FEATURES_LIST : list string;
  TEST_FEATURES_LIST : list string;
  PROD_FEATURES_LIST : list string;
  get_platform_parameter : string -> result param;
  evaluate : param -> context -> bool
}.

Section Evaluation.
Context {param context : Type} `{!PlatformModules param context}.

Definition ALL_FEATURES_LIST : list string :=
  DEV_FEATURES_LIST ++ TEST_FEATURES_LIST ++ PROD_FEATURES_LIST.

Definition ALL_FEATURES_NAMES_SET : gset string :=
  list_to_set ALL_FEATURES_LIST.

(** The [for] loop filling [result_dict]. *)
Fixpoint evaluate_each (feature_names : list string) (ctx : context)
  (result_dict : gmap string bool) : result (gmap string bool) :=
  match feature_names with
  | [] => Ok result_dict
  | feature_name :: rest =>
      p ← get_platform_parameter feature_name;
      evaluate_each rest ctx (<[feature_name := evaluate p ctx]> result_dict)
  end.

Definition _evaluate_feature_flag_values_for_context
  (feature_names_set : gset string) (ctx : context)
  : result (gmap string bool) :=
  let unknown_feature_names :=
    elements (feature_names_set ∖ ALL_FEATURES_NAMES_SET) in
  if (0 <? length unknown_feature_names)%nat
  then Raise (FeatureFlagNotFoundException unknown_feature_names)
  else evaluate_each (elements feature_names_set) ctx ∅.

End Evaluation.
End PlatformFeatureServices.

(** ** The migration chain, as the specification words it *)

(** The versions [v], [v+1], ..., [CURRENT-1], ascending. *)
Definition versions_to_convert (v : Z) : list Z :=
  map (fun i => v + Z.of_nat i)
      (seq 0 (Z.to_nat (CURRENT_COLLECTION_SCHEMA_VERSION - v))).

Section MigrationChain.
Context `{!ConstantsModule}.

(** Applies the conversion function of each listed version once, in list
    order, each to the dict the previous one returned; the first exception
    ends the chain. *)
Fixpoint apply_conversions (versions : list Z) (d : pydict) : result pydict :=
  match versions with
  | [] => Ok d
  | k :: rest =>
      conversion_fn ← getattr_convert_dict k;
      d' ← conversion_fn d;
      apply_conversions rest d'
  end.

End MigrationChain.

(** A node of a collection of version 1 to 3: a dict with an exploration id
    and two lists of skill names. *)
Definition is_skill_node (node : pyval) : bool :=
  match node with
  | PDict nd =>
      match dict_get "acquired_skills" nd,
            dict_get "prerequisite_skills" nd with
      | Some (PList a), Some (PList p) =>
          forallb hashable a && forallb hashable p
          && dict_mem "exploration_id" nd
      | _, _ => false
      end
  | _ => false
  end.

(** The keys the conversions from version [v] on read: the skill nodes up to
    version 3, the skill table and its counter at versions 4 and 5. *)
Definition has_keys_of_version (v : Z) (d : pydict) : bool :=
  if v <=? 3 then
    match dict_get "nodes" d with
    | Some (PList node_list) => forallb is_skill_node node_list
    | _ => false
    end
  else if v =? 4 then dict_mem "skills" d && dict_mem "next_skill_id" d
  else if v =? 5 then dict_mem "skills" d && dict_mem "next_skill_index" d
  else true.

(** The exceptions of a failed subscript, iteration or attribute lookup. *)
Definition is_lookup_error (e : exn) : bool :=
  match e with
  | KeyError _ | TypeError | AttributeError _ => true
  | _ => false
  end.

(** The skill names of a node are all among [names]. *)
Definition skills_known (names : list pyval) (node : pyval) : Prop :=
  forall nd a p,
    node = PDict nd ->
    dict_get "acquired_skills" nd = Some (PList a) ->
    dict_get "prerequisite_skills" nd = Some (PList p) ->
    forall x, In x a \/ In x p -> py_in x names = true.

(** ** Well-typed and valid collections *)

Section ValidCollections.
Context {datetime : Type} `{!ConstantsModule}.

(** The attributes [validate] checks with [isinstance] have their types:
    four strings, a list of strings, and string exploration ids. *)
Definition well_typed (c : Collection datetime) : bool :=
  is_basestring (title c) && is_basestring (category c)
  && is_basestring (objective c) && is_basestring (language_code c)
  && match tags c with
     | PList l => forallb is_basestring l
     | _ => false
     end
  && forallb (fun n => is_basestring (exploration_id n)) (nodes c).

(** Two nodes at different positions have the same exploration id. *)
Definition duplicate_exploration_id (c : Collection datetime) : Prop :=
  exists (i j : nat) (e : pyval),
    i <> j /\ nodes c !! i = Some (mkCollectionNode e)
    /\ nodes c !! j = Some (mkCollectionNode e).

(** A tag that passes every check of the loop over [self.tags]. *)
Definition valid_tag_text (s : string) : bool :=
  negb (String.eqb s "") && TAG_REGEX_match s
  && starts_and_ends_lowercase s && negb (has_adjacent_whitespace s).

End ValidCollections.

(** ** Outcomes of validation *)

Definition raises_validation_error {A} (r : result A) : Prop :=
  exists msg, r = Raise (ValidationError msg).

Definition only_validation_error {A} (r : result A) : Prop :=
  forall e, r = Raise e -> exists msg, e = ValidationError msg.

(** ** Sample data

    The fixtures of [collection_domain_test.py], and stand-ins for the
    modules outside this file, on which the statements below are run. *)

Definition yaml_node_v1 (exp_id : string) (acquired prerequisite : list string)
  : pyval :=
  PDict [ ("acquired_skills", PList (map PStr acquired));
          ("exploration_id", PStr exp_id);
          ("prerequisite_skills", PList (map PStr prerequisite)) ].

(** [YAML_CONTENT_V1] as a dict. *)
Definition yaml_content_v1 : pydict :=
  [ ("category", PStr "A category");
    ("nodes", PList [ yaml_node_v1 "Exp1" ["Skill1"; "Skill2"] [];
                      yaml_node_v1 "Exp2" [] ["Skill1"] ]);
    ("objective", PStr "");
    ("schema_version", PInt 1);
    ("title", PStr "A title") ].

Definition yaml_node_v4 (exp_id : string) (acquired prerequisite : list string)
  : pyval :=
  PDict [ ("acquired_skill_ids", PList (map PStr acquired));
          ("exploration_id", PStr exp_id);
          ("prerequisite_skill_ids", PList (map PStr prerequisite)) ].

Definition yaml_skill (name : string) : pyval :=
  PDict [("name", PStr name); ("question_ids", PList [])].

(** [YAML_CONTENT_V4] as a dict. *)
Definition yaml_content_v4 : pydict :=
  [ ("category", PStr "A category");
    ("language_code", PStr "en");
    ("next_skill_id", PInt 2);
    ("nodes", PList [ yaml_node_v4 "Exp1" ["skill0"; "skill1"] [];
                      yaml_node_v4 "Exp2" [] ["skill0"] ]);
    ("objective", PStr "");
    ("schema_version", PInt 4);
    ("skills", PDict [ ("skill0", yaml_skill "Skill1");
                       ("skill1", yaml_skill "Skill2") ]);
    ("tags", PList []);
    ("title", PStr "A title") ].

(** A document that only states its version. *)
Definition yaml_only_version_5 : pydict := [("schema_version", PInt 5)].

(** The YAML reader on three documents, named rather than spelled out. *)
Definition sample_dict_from_yaml (yaml_content : string) : result pydict :=
  if String.eqb yaml_content "YAML_CONTENT_V1" then Ok yaml_content_v1
  else if String.eqb yaml_content "YAML_CONTENT_V4" then Ok yaml_content_v4
  else if String.eqb yaml_content "schema_version: 5"
       then Ok yaml_only_version_5
       else Raise (InvalidInputException "not a YAML dict").

(** The versioned contents of [test_update_collection_contents_from_model]. *)
Definition versioned_contents_v1 : pydict :=
  [("schema_version", PInt 1); ("collection_contents", PDict [])].

(** Datetimes stand as their own text. *)
Definition sample_utils : UtilsModule string := {|
  dict_from_yaml := sample_dict_from_yaml;
  require_valid_name := fun _ _ _ => None;
  is_valid_language_code := fun s => String.eqb s "en";
  convert_naive_datetime_to_string := fun dt => dt;
  convert_string_to_naive_datetime_object := fun s => Ok s
|}.

Definition sample_constants : ConstantsModule := {|
  DEFAULT_LANGUAGE_CODE := "en";
  TAG_REGEX_match := fun _ => true;
  SYSTEM_USER_IDS := ["admin"; "OppiaMigrationBot"]
|}.

(** A collection with two nodes. *)
Definition sample_collection : Collection string :=
  mkCollection (PStr "collection_id") (PStr "Title") (PStr "Category")
    (PStr "Objective") (PStr "en") (PList [PStr "algebra"]) (PInt 6)
    [mkCollectionNode (PStr "test_exp"); mkCollectionNode (PStr "another_exp")]
    (PInt 1) (Some "11/04/2020, 10:30:00:000000") None.

(** The JSON codec on the one text the sample needs. *)
Definition sample_json : JsonModule := {|
  json_dumps := fun _ => "sample_collection.json";
  json_loads := fun s =>
    if String.eqb s "sample_collection.json"
    then Ok (PDict (@serialize_dict string sample_utils sample_collection))
    else Raise (ValueError "No JSON object could be decoded")
|}.

(** The summary of the test suite: community owned, no contributions. *)
Definition sample_summary : CollectionSummaryM.CollectionSummary string :=
  CollectionSummaryM.mkCollectionSummary "col_id" "title" "category"
    "objective" "en" [] "private" true ["owner_id"] ["editor_id"]
    ["viewer_id"] ["contributor_id"] [] 1 1
    "11/04/2020, 10:30:00:000000" "11/04/2020, 10:30:00:000000".

(** A summary in which two users have contributed before. *)
Definition sample_summary_with_contributions
  : CollectionSummaryM.CollectionSummary string :=
  CollectionSummaryM.mkCollectionSummary "col_id" "title" "category"
    "objective" "en" [] "private" false ["owner_id"] ["editor_id"]
    ["viewer_id"] ["other_id"; "user_id"]
    [("other_id", 2); ("user_id", 5)] 1 1
    "11/04/2020, 10:30:00:000000" "11/04/2020, 10:30:00:000000".

(** Two features, both registered; a flag is the truth value of its
    parameter whatever the context. *)
Definition sample_platform : PlatformFeatureServices.PlatformModules bool unit := {|
  PlatformFeatureServices.DEV_FEATURES_LIST := ["dummy_feature"];
  PlatformFeatureServices.TEST_FEATURES_LIST := [];
  PlatformFeatureServices.PROD_FEATURES_LIST := ["android_beta_landing_page"];
  PlatformFeatureServices.get_platform_parameter := fun name =>
    if String.eqb name "dummy_feature" then Ok false
    else if String.eqb name "android_beta_landing_page" then Ok true
    else Raise (PyException "Platform parameter not found: %s.");
  PlatformFeatureServices.evaluate := fun p _ => p
|}.

(** ** The rest of the Collection class *)

(** [python_utils.yaml_from_dict] *)
Class PythonUtilsModule := {
  yaml_from_dict : pydict -> string
}.

Section MoreCollectionMethods.
Context {datetime : Type} `{!UtilsModule datetime} `{!ConstantsModule}
        `{!PythonUtilsModule}.

(** [create_default_collection], given the title, category, objective and
    language code (their defaults are constants of [feconf]). *)
Definition create_default_collection
  (collection_id title category objective language_code : pyval)
  : Collection datetime :=
  mkCollection collection_id title category objective language_code
    (PList []) (PInt CURRENT_COLLECTION_SCHEMA_VERSION) [] (PInt 0)
    None None.

(** [to_yaml]: the dict of [to_dict] always has the key 'id'. *)
Definition to_yaml (c : Collection datetime) : string :=
  yaml_from_dict (dict_remove "id" (to_dict c)).

(** [from_yaml]: [from_dict] is called with its default version 0 and no
    dates. *)
Definition from_yaml (collection_id : pyval) (yaml_content : string)
  : result (Collection datetime) :=
  collection_dict ← _migrate_to_latest_yaml_version yaml_content;
  from_dict (PDict (dict_set "id" collection_id collection_dict))
            (PInt 0) None None.

(** The [first_exploration_id] property. *)
Definition first_exploration_id (c : Collection datetime) : option pyval :=
  match nodes c with
  | n :: _ => Some (exploration_id n)
  | [] => None
  end.

(** The loop of [get_next_exploration_id_in_sequence] over the indices 0 to
    [len(self.nodes) - 2]. *)
Fixpoint next_in_sequence (ns : list CollectionNode)
  (current_exploration_id : pyval) : option pyval :=
  match ns with
  | n :: ((m :: _) as rest) =>
      if py_eqb (exploration_id n) current_exploration_id
      then Some (exploration_id m)
      else next_in_sequence rest current_exploration_id
  | _ => None
  end.

Definition get_next_exploration_id_in_sequence (c : Collection datetime)
  (current_exploration_id : pyval) : option pyval :=
  next_in_sequence (nodes c) current_exploration_id.

(** The loop of [_find_node] over [enumerate(self.nodes)], counting from
    [ind]. *)
Fixpoint find_node_from (ind : nat) (ns : list CollectionNode) (e : pyval)
  : option nat :=
  match ns with
  | [] => None
  | n :: rest =>
      if py_eqb (exploration_id n) e then Some ind
      else find_node_from (S ind) rest e
  end.

Definition _find_node (c : Collection datetime) (e : pyval) : option nat :=
  find_node_from 0 (nodes c) e.

(** The loop of [get_node]. *)
Fixpoint get_node_in (ns : list CollectionNode) (e : pyval)
  : option CollectionNode :=
  match ns with
  | [] => None
  | n :: rest =>
      if py_eqb (exploration_id n) e then Some n else get_node_in rest e
  end.

Definition get_node (c : Collection datetime) (e : pyval)
  : option CollectionNode :=
  get_node_in (nodes c) e.

Definition add_node (c : Collection datetime) (e : pyval)
  : inplace (Collection datetime) :=
  match get_node c e with
  | Some _ =>
      (c, Some (ValueError
                  "Exploration is already part of this collection: %s"))
  | None =>
      (set_nodes c (nodes c ++ [CollectionNodeM.create_default_node e]),
       None)
  end.

Definition delete_node (c : Collection datetime) (e : pyval)
  : inplace (Collection datetime) :=
  match _find_node c e with
  | None =>
      (c, Some (ValueError "Exploration is not part of this collection: %s"))
  | Some node_index => (set_nodes c (delete node_index (nodes c)), None)
  end.

End MoreCollectionMethods.

(** The exploration ids of the nodes of a collection dict, read the way
    [from_dict] reads them. *)
Definition node_exploration_ids (d : pydict) : result (list pyval) :=
  nds ← dict_getitem "nodes" d;
  node_dicts ← py_iter nds;
  map_result (fun n => getitem n "exploration_id") node_dicts.

(** ** The rest of the CollectionSummary class *)

Section MoreSummaryMethods.
Context {datetime : Type}.

Definition is_solely_owned_by_user
  (s : CollectionSummaryM.CollectionSummary datetime) (user_id : string)
  : bool :=
  CollectionSummaryM.str_in user_id (CollectionSummaryM.owner_ids s)
  && (length (CollectionSummaryM.owner_ids s) =? 1)%nat.

Definition does_user_have_any_role
  (s : CollectionSummaryM.CollectionSummary datetime) (user_id : string)
  : bool :=
  CollectionSummaryM.str_in user_id (CollectionSummaryM.owner_ids s)
  || CollectionSummaryM.str_in user_id (CollectionSummaryM.editor_ids s)
  || CollectionSummaryM.str_in user_id (CollectionSummaryM.viewer_ids s).

End MoreSummaryMethods.

(** ** Feature flags for clients and for the server *)

(** [platform_parameter_domain.SERVER_MODES] *)
Inductive SERVER_MODES : Type := dev | test | prod.

(** [constants.DEV_MODE] and [EvaluationContext.from_dict], which builds a
    context from the client's dict and the server mode. *)
Class ServerModules (context : Type) := {
  DEV_MODE : bool;
  evaluation_context_from_dict : pydict -> SERVER_MODES -> context
}.

Section ServerFlags.
Import PlatformFeatureServices.
Context {param context : Type} `{!PlatformModules param context}
        `{!ServerModules context}.

Definition _get_server_mode : SERVER_MODES :=
  if DEV_MODE then dev else prod.

Definition create_evaluation_context_for_client
  (client_context_dict : pydict) : context :=
  evaluation_context_from_dict client_context_dict _get_server_mode.

Definition _create_evaluation_context_for_server : context :=
  evaluation_context_from_dict
    [("platform_type", PStr "Backend"); ("app_version", PNone)]
    _get_server_mode.

Definition evaluate_all_feature_flag_values_for_client (ctx : context)
  : result (gmap string bool) :=
  _evaluate_feature_flag_values_for_context ALL_FEATURES_NAMES_SET ctx.

Definition _evaluate_feature_flag_value_for_server (feature_name : string)
  : result bool :=
  values_dict ←
    _evaluate_feature_flag_values_for_context
      {[feature_name]} _create_evaluation_context_for_server;
  match values_dict !! feature_name with
  | Some b => Ok b
  | None => Raise (KeyError feature_name)
  end.

Definition is_feature_enabled (feature_name : string) : result bool :=
  _evaluate_feature_flag_value_for_server feature_name.

End ServerFlags.

(** A list of skill ids, each of them one of [keys]. *)
Definition skill_ids_in (keys : list string) (v : pyval) : Prop :=
  exists l, v = PList l
            /\ Forall (fun x => exists i, x = PStr i /\ In i keys) l.

(** ** More sample data *)

Definition sample_python_utils : PythonUtilsModule := {|
  yaml_from_dict := fun _ => "sample_collection.yaml"
|}.

(** The YAML reader on the one text [sample_python_utils] writes. *)
Definition sample_utils_yaml : UtilsModule string := {|
  dict_from_yaml := fun s =>
    if String.eqb s "sample_collection.yaml"
    then Ok (dict_remove "id" (@to_dict string sample_collection))
    else Raise (InvalidInputException "not a YAML dict");
  require_valid_name := fun _ _ _ => None;
  is_valid_language_code := fun s => String.eqb s "en";
  convert_naive_datetime_to_string := fun dt => dt;
  convert_string_to_naive_datetime_object := fun s => Ok s
|}.

Definition sample_server : ServerModules unit := {|
  DEV_MODE := true;
  evaluation_context_from_dict := fun _ _ => tt
|}.

(** * Properties *)

(** ** The model on the cases of the test suite *)

(** [test_load_from_v1]: the version 1 fixture migrates to a version 6 dict
    with the nodes of [Exp1] and [Exp2]. *)
Example migrate_yaml_content_v1 :
  match @_migrate_to_latest_yaml_version string sample_utils sample_constants
          "YAML_CONTENT_V1" with
  | Ok d =>
      dict_get "schema_version" d = Some (PInt 6)
      /\ (nds ← dict_getitem "nodes" d;
          l ← py_iter nds;
          map_result (fun n => getitem n "exploration_id") l)
         = Ok [PStr "Exp1"; PStr "Exp2"]
  | Raise _ => False
  end.
Proof. vm_compute. split; reflexivity. Qed.

(** Converted up to version 4, the version 1 fixture is the version 4
    fixture (as dicts, whatever the order of the keys). *)
Example convert_yaml_content_v1_to_v4 :
  match @apply_conversions sample_constants [1; 2; 3] yaml_content_v1 with
  | Ok d => py_eqb (PDict d) (PDict yaml_content_v4)
  | Raise _ => false
  end = true.
Proof. vm_compute. reflexivity. Qed.

(** [test_add_delete_swap_nodes] *)
Example swap_nodes_0_1 :
  exploration_ids (swap_nodes sample_collection 0 1).1
  = [PStr "another_exp"; PStr "test_exp"]
  /\ (swap_nodes sample_collection 0 0).2
     = Some (ValueError "Both indices point to the same collection node.").
Proof. split; reflexivity. Qed.

(** An index past the end raises [IndexError] and changes nothing. *)
Example swap_nodes_0_2 :
  swap_nodes sample_collection 0 2 = (sample_collection, Some IndexError).
Proof. reflexivity. Qed.

(** [test_next_explorations] *)
Example next_exploration_of_sample :
  get_next_exploration_id sample_collection [] = Some (PStr "test_exp")
  /\ get_next_exploration_id sample_collection [PStr "test_exp"]
     = Some (PStr "another_exp")
  /\ get_next_exploration_id sample_collection
       [PStr "test_exp"; PStr "another_exp"] = None
  /\ get_next_exploration_id sample_collection [PStr "fake_exp_id"]
     = Some (PStr "test_exp").
Proof. repeat split; reflexivity. Qed.

(** [test_update_collection_contents_from_model_with_invalid_schema_version] *)
Example update_contents_at_current_version :
  let vcc := [("schema_version", PInt 6); ("collection_contents", PDict [])] in
  update_collection_contents_from_model vcc 6
  = (vcc, Some (PyException
       "Collection is version %d but current collection schema version is %d")).
Proof. reflexivity. Qed.

(** [test_schema_version_validation] *)
Example validate_schema_version_100 :
  @validate string sample_utils sample_constants
    (mkCollection (PStr "collection_id") (PStr "Title") (PStr "Category")
       (PStr "Objective") (PStr "en") (PList []) (PInt 100)
       [mkCollectionNode (PStr "exp_id_0")] (PInt 1) None None) true
  = Raise (ValidationError "Expected schema version to be %s, received %s").
Proof. reflexivity. Qed.

(** [test_add_new_contribution_for_user_does_not_add_system_user] *)
Example add_contribution_by_system_user :
  let s' := @CollectionSummaryM.add_contribution_by_user string
              sample_constants sample_summary "admin" in
  CollectionSummaryM.contributors_summary s' = []
  /\ CollectionSummaryM.contributor_ids s' = [].
Proof. split; reflexivity. Qed.

(** ** Lemmas on dicts *)

Section DictFacts.
Context {V : Type}.
Implicit Types (k : string) (v : V) (d : list (string * V)).

Lemma dict_get_set_eq k v d : dict_get k (dict_set k v d) = Some v.
Proof.
  induction d as [|[k' v'] d IH]; simpl.
  - by rewrite String.eqb_refl.
  - destruct (String.eqb k k') eqn:E; simpl; rewrite E; [done | exact IH].
Qed.

Lemma dict_get_set_ne k k' v d :
  k <> k' -> dict_get k' (dict_set k v d) = dict_get k' d.
Proof.
  intros Hne. induction d as [|[k0 v0] d IH]; simpl.
  - destruct (String.eqb k' k) eqn:E; [|done].
    apply String.eqb_eq in E. congruence.
  - destruct (String.eqb k k0) eqn:E; simpl.
    + apply String.eqb_eq in E. subst k0.
      destruct (String.eqb k' k) eqn:E'; [|done].
      apply String.eqb_eq in E'. congruence.
    + by rewrite IH.
Qed.

Lemma dict_get_remove_ne k k' d :
  k <> k' -> dict_get k' (dict_remove k d) = dict_get k' d.
Proof.
  intros Hne. induction d as [|[k0 v0] d IH]; simpl; [done|].
  destruct (String.eqb k k0) eqn:E; simpl.
  - apply String.eqb_eq in E. subst k0.
    destruct (String.eqb k' k) eqn:E'; [|done].
    apply String.eqb_eq in E'. congruence.
  - by rewrite IH.
Qed.

Lemma dict_get_set k k' v d :
  dict_get k' (dict_set k v d)
  = if String.eqb k' k then Some v else dict_get k' d.
Proof.
  destruct (String.eqb_spec k' k) as [->|Hne].
  - apply dict_get_set_eq.
  - by apply dict_get_set_ne.
Qed.

Lemma dict_mem_set k k' v d :
  dict_mem k' (dict_set k v d) = String.eqb k' k || dict_mem k' d.
Proof.
  unfold dict_mem. rewrite dict_get_set. by destruct (String.eqb k' k).
Qed.

Lemma dict_mem_remove_ne k k' d :
  k <> k' -> dict_mem k' (dict_remove k d) = dict_mem k' d.
Proof. intros. unfold dict_mem. by rewrite dict_get_remove_ne. Qed.

End DictFacts.

(** ** Next exploration *)

Section NextExploration.
Context {datetime : Type}.

Lemma first_not_in_some ids completed e :
  first_not_in ids completed = Some e ->
  exists pre post,
    ids = (pre ++ e :: post)%list /\
    py_in e completed = false /\
    Forall (fun x => py_in x completed = true) pre.
Proof.
  induction ids as [|x ids IH]; simpl; [done|].
  destruct (py_in x completed) eqn:E; simpl.
  - intros H. destruct (IH H) as (pre & post & -> & Hn & Hall).
    exists (x :: pre), post. repeat split; [done|]. by constructor.
  - intros [= <-]. exists [], ids. repeat split; [done|]. constructor.
Qed.

Lemma first_not_in_none ids completed :
  first_not_in ids completed = None ->
  Forall (fun x => py_in x completed = true) ids.
Proof.
  induction ids as [|x ids IH]; simpl; [constructor|].
  destruct (py_in x completed) eqn:E; simpl; [|done].
  intros H. constructor; [done | by apply IH].
Qed.

Lemma first_not_in_nodes (ns : list CollectionNode)
  (completed : list pyval) :
  match first_not_in (map exploration_id ns) completed with
  | Some e =>
      exists pre n post,
        ns = (pre ++ n :: post)%list /\
        e = exploration_id n /\
        py_in (exploration_id n) completed = false /\
        Forall (fun x => py_in (exploration_id x) completed = true) pre
  | None =>
      Forall (fun x => py_in (exploration_id x) completed = true) ns
  end.
Proof.
  induction ns as [|n ns IH]; simpl; [constructor|].
  destruct (py_in (exploration_id n) completed) eqn:E; simpl.
  - destruct (first_not_in (map exploration_id ns) completed) as [e|].
    + destruct IH as (pre & m & post & -> & -> & Hm & Hall).
      exists (n :: pre), m, post. repeat split; [done|]. by constructor.
    + by constructor.
  - exists [], n, ns. repeat split; [done|]. constructor.
Qed.

(** C6: [get_next_exploration_id] returns the exploration id of the earliest
    node, in the order of [nodes], whose id is not in [completed_exp_ids]
    (the id of every node before it is in the list); it returns [None]
    exactly when the id of every node is in the list, in particular on a
    collection without nodes. *)
Theorem get_next_exploration_id_earliest_uncompleted
  (c : Collection datetime) (completed_exp_ids : list pyval) :
  match get_next_exploration_id c completed_exp_ids with
  | Some e =>
      exists pre n post,
        nodes c = (pre ++ n :: post)%list /\
        e = exploration_id n /\
        py_in (exploration_id n) completed_exp_ids = false /\
        Forall (fun x => py_in (exploration_id x) completed_exp_ids = true)
               pre
  | None =>
      Forall (fun x => py_in (exploration_id x) completed_exp_ids = true)
             (nodes c)
  end
  /\ (Forall (fun x => py_in (exploration_id x) completed_exp_ids = true)
             (nodes c) ->
      get_next_exploration_id c completed_exp_ids = None)
  /\ (nodes c = [] -> get_next_exploration_id c completed_exp_ids = None).
Proof.
  unfold get_next_exploration_id, exploration_ids.
  pose proof (first_not_in_nodes (nodes c) completed_exp_ids) as Hn.
  split; [exact Hn|]. split.
  - intros Hall.
    destruct (first_not_in (map exploration_id (nodes c)) completed_exp_ids)
      as [e|]; [|reflexivity].
    destruct Hn as (pre & n & post & Hc & _ & Hm & _).
    rewrite Hc in Hall. apply Forall_app in Hall as [_ Hall].
    apply Forall_cons in Hall as [Hall _]. rewrite Hall in Hm.
    discriminate Hm.
  - intros Hc. by rewrite Hc.
Qed.

End NextExploration.

(** ** Swapping nodes *)

Section SwapNodes.
Context {datetime : Type}.

Lemma py_index_lt len i n : py_index len i = Some n -> (n < len)%nat.
Proof.
  unfold py_index.
  destruct ((0 <=? i) && (i <? Z.of_nat len)) eqn:E1.
  - intros [= <-]. apply andb_true_iff in E1 as [? ?]. lia.
  - destruct ((- Z.of_nat len <=? i) && (i <? 0)) eqn:E2; [|done].
    intros [= <-]. apply andb_true_iff in E2 as [? ?]. lia.
Qed.

Lemma list_getitem_raises {A} (l : list A) i e :
  list_getitem l i = Raise e -> e = IndexError.
Proof.
  unfold list_getitem. destruct (py_index _ _); [|by intros [= <-]].
  destruct (l !! n); [done | by intros [= <-]].
Qed.

Lemma list_setitem_raises {A} (l : list A) i x e :
  list_setitem l i x = Raise e -> e = IndexError.
Proof.
  unfold list_setitem. destruct (py_index _ _); [done | by intros [= <-]].
Qed.

Lemma list_getitem_at {A} (l : list A) i n :
  py_index (length l) i = Some n ->
  exists x, l !! n = Some x /\ list_getitem l i = Ok x.
Proof.
  intros H. unfold list_getitem. rewrite H.
  destruct (lookup_lt_is_Some_2 l n (py_index_lt _ _ _ H)) as [x Hx].
  exists x. by rewrite Hx.
Qed.

Lemma swap_nodes_value_error (c : Collection datetime) i j :
  (exists m, (swap_nodes c i j).2 = Some (ValueError m)) <-> i = j.
Proof.
  unfold swap_nodes. destruct (Z.eqb_spec i j) as [->|Hne]; simpl.
  - split; [done | eauto].
  - split; [|done]. intros [m H]. exfalso.
    destruct (list_getitem (nodes c) i) as [t|e] eqn:E1; simpl in H.
    2:{ apply list_getitem_raises in E1. congruence. }
    destruct (list_getitem (nodes c) j) as [s|e] eqn:E2; simpl in H.
    2:{ apply list_getitem_raises in E2. congruence. }
    destruct (list_setitem (nodes c) i s) as [n1|e] eqn:E3; simpl in H.
    2:{ apply list_setitem_raises in E3. congruence. }
    destruct (list_setitem n1 j t) as [n2|e] eqn:E4; simpl in H; [done|].
    apply list_setitem_raises in E4. congruence.
Qed.

(** C7: [swap_nodes] raises [ValueError] if and only if the two indices are
    equal.  For distinct indices that are in range, at positions [a] and
    [b] of the list, it returns normally, the node at [a] is the old node at
    [b] and conversely, the node at every other position is unchanged, and
    so are the length of the list and every other attribute. *)
Theorem swap_nodes_exchanges_and_frames (c : Collection datetime) (i j : Z) :
  ((exists m, (swap_nodes c i j).2 = Some (ValueError m)) <-> i = j)
  /\ (i <> j ->
      forall a b,
        py_index (length (nodes c)) i = Some a ->
        py_index (length (nodes c)) j = Some b ->
        exists c',
          swap_nodes c i j = (c', None) /\
          nodes c' !! a = nodes c !! b /\
          nodes c' !! b = nodes c !! a /\
          (forall k, k <> a -> k <> b -> nodes c' !! k = nodes c !! k) /\
          length (nodes c') = length (nodes c) /\
          c_id c' = c_id c /\ title c' = title c /\
          category c' = category c /\ objective c' = objective c /\
          language_code c' = language_code c /\ tags c' = tags c /\
          schema_version c' = schema_version c /\ version c' = version c /\
          created_on c' = created_on c /\ last_updated c' = last_updated c).
Proof.
  split; [apply swap_nodes_value_error|].
  intros Hne a b Ha Hb.
  destruct (list_getitem_at _ _ _ Ha) as (t & Hta & Gt).
  destruct (list_getitem_at _ _ _ Hb) as (s & Hsb & Gs).
  pose proof (py_index_lt _ _ _ Ha) as La.
  pose proof (py_index_lt _ _ _ Hb) as Lb.
  unfold swap_nodes. rewrite (proj2 (Z.eqb_neq i j) Hne), Gt, Gs.
  unfold list_setitem. rewrite Ha, length_insert, Hb.
  eexists. split; [reflexivity|]. simpl.
  repeat split.
  - destruct (decide (a = b)) as [->|Hab].
    + rewrite list_lookup_insert_eq; [congruence|]. by rewrite length_insert.
    + rewrite list_lookup_insert_ne by done.
      rewrite list_lookup_insert_eq by done. done.
  - rewrite list_lookup_insert_eq; [done|]. by rewrite length_insert.
  - intros k Hka Hkb.
    rewrite list_lookup_insert_ne by done.
    by rewrite list_lookup_insert_ne.
  - by rewrite !length_insert.
Qed.

End SwapNodes.

(** C7 on the two-node sample: positions 0 and 1 are exchanged. *)
Lemma swap_nodes_exchanges_and_frames_witness :
  exists c',
    swap_nodes sample_collection 0 1 = (c', None) /\
    nodes c' !! 0%nat = nodes sample_collection !! 1%nat /\
    nodes c' !! 1%nat = nodes sample_collection !! 0%nat.
Proof.
  destruct (proj2 (swap_nodes_exchanges_and_frames sample_collection 0 1)
              ltac:(lia) 0%nat 1%nat eq_refl eq_refl)
    as (c' & H1 & H2 & H3 & _).
  exists c'. repeat split; assumption.
Defined.

(** ** Collection summaries *)

Section SummaryFacts.
Import CollectionSummaryM.
Context {datetime : Type} `{!ConstantsModule}.

Lemma str_in_In (x : string) (l : list string) :
  str_in x l = true <-> In x l.
Proof.
  unfold str_in. rewrite existsb_exists. split.
  - intros (y & Hy & E). apply String.eqb_eq in E. by subst.
  - intros Hin. exists x. split; [done | apply String.eqb_refl].
Qed.

(** C9: [is_editable_by] answers [False] for the user id [None], also on a
    community-owned collection; for a user id that is not [None] it answers
    [True] exactly when the user is an editor, is an owner, or the collection
    is community owned. *)
Theorem is_editable_by_none_and_roles (s : CollectionSummary datetime) :
  is_editable_by s None = false
  /\ forall u : string,
       is_editable_by s (Some u) = true <->
       (In u (editor_ids s) \/ In u (owner_ids s) \/ community_owned s = true).
Proof.
  split; [reflexivity|]. intros u. simpl.
  rewrite !orb_true_iff, !str_in_In. tauto.
Qed.

(** C10: for a contributor that is not a system user,
    [add_contribution_by_user] turns an entry [n] of the contributor into
    [n + 1] and an absent entry into 1, and leaves the entry of every other
    user as it was; for a system user [contributors_summary] is unchanged.
    In both cases [contributor_ids] is the list of keys of
    [contributors_summary] afterwards, and no other attribute changes. *)
Theorem add_contribution_by_user_counts
  (s : CollectionSummary datetime) (contributor_id : string) :
  let s' := add_contribution_by_user s contributor_id in
  (str_in contributor_id SYSTEM_USER_IDS = false ->
     (forall n : Z,
        dict_get contributor_id (contributors_summary s) = Some n ->
        dict_get contributor_id (contributors_summary s') = Some (n + 1))
     /\ (dict_get contributor_id (contributors_summary s) = None ->
         dict_get contributor_id (contributors_summary s') = Some 1)
     /\ forall k, k <> contributor_id ->
          dict_get k (contributors_summary s')
            = dict_get k (contributors_summary s))
  /\ (str_in contributor_id SYSTEM_USER_IDS = true ->
        contributors_summary s' = contributors_summary s)
  /\ contributor_ids s' = dict_keys (contributors_summary s')
  /\ (id s' = id s /\ title s' = title s /\ category s' = category s
      /\ objective s' = objective s /\ language_code s' = language_code s
      /\ tags s' = tags s /\ status s' = status s
      /\ community_owned s' = community_owned s
      /\ owner_ids s' = owner_ids s /\ editor_ids s' = editor_ids s
      /\ viewer_ids s' = viewer_ids s /\ version s' = version s
      /\ node_count s' = node_count s
      /\ collection_model_created_on s' = collection_model_created_on s
      /\ collection_model_last_updated s' = collection_model_last_updated s).
Proof.
  unfold add_contribution_by_user. simpl.
  split; [|split; [|split]].
  - intros Hsys. rewrite Hsys. simpl. split; [|split].
    + intros n Hn. rewrite dict_get_set_eq. unfold get_or_zero.
      by rewrite Hn.
    + intros Hn. rewrite dict_get_set_eq. unfold get_or_zero.
      by rewrite Hn.
    + intros k Hk. by apply dict_get_set_ne.
  - intros Hsys. by rewrite Hsys.
  - reflexivity.
  - repeat split.
Qed.

End SummaryFacts.

(** C10 on the summary of the test suite, where [user_id] has no entry
    yet, and on a summary in which [user_id] has five contributions and
    [other_id] has two: the first contribution is counted as 1, the sixth
    as 6, and the entry of [other_id] stays 2. *)
Lemma add_contribution_by_user_counts_witness :
  (let s' := @CollectionSummaryM.add_contribution_by_user string
               sample_constants sample_summary "user_id" in
   dict_get "user_id" (CollectionSummaryM.contributors_summary s') = Some 1
   /\ CollectionSummaryM.contributor_ids s' = ["user_id"])
  /\ (let s' := @CollectionSummaryM.add_contribution_by_user string
                  sample_constants sample_summary_with_contributions
                  "user_id" in
      dict_get "user_id" (CollectionSummaryM.contributors_summary s')
      = Some 6
      /\ dict_get "other_id" (CollectionSummaryM.contributors_summary s')
         = Some 2
      /\ CollectionSummaryM.contributor_ids s' = ["other_id"; "user_id"]).
Proof.
  split.
  - pose proof (@add_contribution_by_user_counts string sample_constants
                  sample_summary "user_id") as H.
    simpl in H. destruct H as (H1 & _ & H3 & _).
    destruct (H1 eq_refl) as (_ & H1b & _).
    split; [exact (H1b eq_refl) | exact H3].
  - pose proof (@add_contribution_by_user_counts string sample_constants
                  sample_summary_with_contributions "user_id") as H.
    simpl in H. destruct H as (H1 & _ & H3 & _).
    destruct (H1 eq_refl) as (H1a & _ & H1c).
    split; [exact (H1a 5 eq_refl)|].
    split; [exact (H1c "other_id" ltac:(discriminate)) | exact H3].
Defined.

(** ** Schema migration of YAML dicts *)

Ltac bind_inv H :=
  repeat match type of H with
  | mbind _ ?m = _ =>
      let E := fresh "E" in
      destruct m eqn:E; unfold mbind at 1, result_bind at 1 in H; cbv beta iota in H
  | mret _ = _ => unfold mret, result_ret in H
  end.

Create HintDb lookup_err discriminated.

Ltac raise_inv H :=
  bind_inv H; try discriminate H;
  try (injection H as <-); eauto with lookup_err.

Lemma dict_getitem_raises {V} k (d : list (string * V)) e :
  dict_getitem k d = Raise e -> is_lookup_error e = true.
Proof. unfold dict_getitem. destruct (dict_get k d); [done|]. by intros [= <-]. Qed.

Lemma dict_delitem_raises {V} k (d : list (string * V)) e :
  dict_delitem k d = Raise e -> is_lookup_error e = true.
Proof. unfold dict_delitem. destruct (dict_mem k d); [done|]. by intros [= <-]. Qed.

Lemma getitem_raises v k e : getitem v k = Raise e -> is_lookup_error e = true.
Proof. destruct v; simpl; try by intros [= <-]. apply dict_getitem_raises. Qed.

Lemma py_iter_raises v e : py_iter v = Raise e -> is_lookup_error e = true.
Proof. destruct v; simpl; try done; by intros [= <-]. Qed.

Lemma set_add_all_raises l acc e :
  set_add_all l acc = Raise e -> is_lookup_error e = true.
Proof.
  revert acc. induction l as [|x l IH]; simpl; intros acc; [done|].
  destruct (hashable x); [apply IH | by intros [= <-]].
Qed.

#[local] Hint Resolve dict_getitem_raises dict_delitem_raises getitem_raises
  py_iter_raises set_add_all_raises : lookup_err.

Lemma map_result_raises {A B} (f : A -> result B) l e :
  (forall x e', f x = Raise e' -> is_lookup_error e' = true) ->
  map_result f l = Raise e -> is_lookup_error e = true.
Proof.
  intros Hf. induction l as [|x l IH]; simpl; [done|].
  intros H. raise_inv H.
Qed.

Lemma update_skill_names_raises node key s e :
  update_skill_names node key s = Raise e -> is_lookup_error e = true.
Proof. unfold update_skill_names. intros H. raise_inv H. Qed.
#[local] Hint Resolve update_skill_names_raises : lookup_err.

Lemma collect_skill_names_raises l s e :
  collect_skill_names l s = Raise e -> is_lookup_error e = true.
Proof.
  revert s. induction l as [|x l IH]; simpl; intros s H; [done|]. raise_inv H.
Qed.

Lemma skill_id_of_raises n t e :
  skill_id_of n t = Raise e -> is_lookup_error e = true.
Proof.
  induction t as [|[a b] t IH]; simpl; [by intros [= <-]|].
  destruct (py_eqb n a); [done | exact IH].
Qed.
#[local] Hint Resolve collect_skill_names_raises skill_id_of_raises : lookup_err.

Lemma skill_ids_of_raises node key t e :
  skill_ids_of node key t = Raise e -> is_lookup_error e = true.
Proof.
  unfold skill_ids_of. intros H. raise_inv H.
  eapply map_result_raises; [|eassumption].
  cbv beta. eauto with lookup_err.
Qed.
#[local] Hint Resolve skill_ids_of_raises : lookup_err.

Lemma convert_node_v3_to_v4_raises t node e :
  convert_node_v3_to_v4 t node = Raise e -> is_lookup_error e = true.
Proof. unfold convert_node_v3_to_v4. intros H. raise_inv H. Qed.
#[local] Hint Resolve convert_node_v3_to_v4_raises : lookup_err.

Lemma contents_v3_to_v4_raises d e :
  contents_v3_to_v4 d = Raise e -> is_lookup_error e = true.
Proof.
  unfold contents_v3_to_v4. intros H. raise_inv H.
  eapply map_result_raises; [|eassumption].
  cbv beta. eauto with lookup_err.
Qed.

Lemma delete_node_skill_ids_raises l l' e :
  delete_node_skill_ids l = (l', Some e) -> is_lookup_error e = true.
Proof.
  revert l'. induction l as [|x l IH]; simpl; intros l'; [done|].
  destruct x; try by intros [= _ <-].
  destruct (dict_delitem "prerequisite_skill_ids" d) eqn:E1.
  2:{ intros [= _ <-]. eauto with lookup_err. }
  destruct (dict_delitem "acquired_skill_ids" a) eqn:E2.
  2:{ intros [= _ <-]. eauto with lookup_err. }
  destruct (delete_node_skill_ids l) as [r o] eqn:E3.
  intros [= _ ->]. eauto.
Qed.

Lemma convert_contents_raises v f c c' e :
  getattr_convert_contents v = Ok f -> f c = (c', Some e) ->
  is_lookup_error e = true.
Proof.
  unfold getattr_convert_contents.
  repeat (destruct (_ =? _); [intros [= <-]|]); try done.
  - unfold _convert_collection_contents_v3_dict_to_v4_dict.
    destruct c; try by intros [= _ <-].
    destruct (contents_v3_to_v4 d) eqn:E; [done|].
    intros [= _ <-]. by eapply contents_v3_to_v4_raises.
  - unfold _convert_collection_contents_v4_dict_to_v5_dict.
    destruct c; try by intros [= _ <-].
    destruct (dict_getitem _ d) eqn:E; [done|].
    intros [= _ <-]. eauto with lookup_err.
  - unfold _convert_collection_contents_v5_dict_to_v6_dict.
    destruct c; try by intros [= _ <-].
    destruct (dict_getitem _ d) as [n|e0] eqn:E.
    2:{ intros [= _ <-]. eauto with lookup_err. }
    destruct n; simpl; try by intros [= _ <-].
    + destruct (list_ascii_of_string s); simpl; [done | by intros [= _ <-]].
    + destruct (delete_node_skill_ids l) as [r o] eqn:E3.
      intros [= _ ->]. by eapply delete_node_skill_ids_raises.
    + destruct d0; simpl; [done | by intros [= _ <-]].
Qed.

Section Chain.
Context {datetime : Type} {utils : UtilsModule datetime}
        {consts : ConstantsModule}.

Lemma call_on_dict_raises f d e :
  (forall c c' e', f c = (c', Some e') -> is_lookup_error e' = true) ->
  call_on_dict f d = Raise e -> is_lookup_error e = true.
Proof.
  intros Hf. unfold call_on_dict.
  destruct (f (PDict d)) as [c' o] eqn:E.
  destruct c', o; try done; intros [= <-]; eauto.
Qed.

Lemma convert_contents_v3_raises c c' e :
  _convert_collection_contents_v3_dict_to_v4_dict c = (c', Some e) ->
  is_lookup_error e = true.
Proof. by apply (convert_contents_raises 3). Qed.

Lemma convert_contents_v4_raises c c' e :
  _convert_collection_contents_v4_dict_to_v5_dict c = (c', Some e) ->
  is_lookup_error e = true.
Proof. by apply (convert_contents_raises 4). Qed.

Lemma getattr_convert_dict_raises v e :
  getattr_convert_dict v = Raise e -> is_lookup_error e = true.
Proof.
  unfold getattr_convert_dict.
  repeat (destruct (_ =? _); [done|]). by intros [= <-].
Qed.

Lemma convert_dict_raises v f d e :
  getattr_convert_dict v = Ok f -> f d = Raise e -> is_lookup_error e = true.
Proof.
  unfold getattr_convert_dict.
  repeat (destruct (_ =? _); [intros [= <-]|]); try done.
  - unfold _convert_v3_dict_to_v4_dict. intros H. raise_inv H.
    eapply call_on_dict_raises; [|eassumption].
    apply convert_contents_v3_raises.
  - unfold _convert_v4_dict_to_v5_dict. intros H. raise_inv H.
    eapply call_on_dict_raises; [|eassumption].
    apply convert_contents_v4_raises.
  - unfold _convert_v5_dict_to_v6_dict. intros H. raise_inv H.
Qed.

Lemma apply_conversions_raises versions d e :
  apply_conversions versions d = Raise e -> is_lookup_error e = true.
Proof.
  revert d. induction versions as [|k ks IH]; simpl; intros d H; [done|].
  raise_inv H.
  - eauto using convert_dict_raises.
  - eauto using getattr_convert_dict_raises.
Qed.

Lemma versions_to_convert_done v :
  CURRENT_COLLECTION_SCHEMA_VERSION <= v -> versions_to_convert v = [].
Proof.
  intros Hv. unfold versions_to_convert.
  by replace (Z.to_nat (CURRENT_COLLECTION_SCHEMA_VERSION - v)) with 0%nat by lia.
Qed.

Lemma versions_to_convert_step v :
  v < CURRENT_COLLECTION_SCHEMA_VERSION ->
  versions_to_convert v = v :: versions_to_convert (v + 1).
Proof.
  intros Hv. unfold versions_to_convert.
  replace (Z.to_nat (CURRENT_COLLECTION_SCHEMA_VERSION - v))
    with (S (Z.to_nat (CURRENT_COLLECTION_SCHEMA_VERSION - (v + 1)))) by lia.
  simpl. f_equal; [lia|].
  rewrite <- seq_shift, map_map. apply map_ext. intros i. lia.
Qed.

Lemma migrate_loop_step v d :
  migrate_loop v d =
  if v <? CURRENT_COLLECTION_SCHEMA_VERSION
  then f ← getattr_convert_dict v; d' ← f d; migrate_loop (v + 1) d'
  else Ok d.
Proof.
  funelim (migrate_loop v d);
    destruct (Z.ltb_spec v CURRENT_COLLECTION_SCHEMA_VERSION); try lia.
  - reflexivity.
  - by rewrite Heq.
  - rewrite Heq0. simpl. by rewrite Heq.
  - rewrite Heq0. simpl. by rewrite Heq.
Qed.

Lemma migrate_loop_is_chain v d :
  migrate_loop v d = apply_conversions (versions_to_convert v) d.
Proof.
  remember (Z.to_nat (CURRENT_COLLECTION_SCHEMA_VERSION - v)) as n eqn:Hn.
  revert v d Hn. induction n as [|n IH]; intros v d Hn.
  - rewrite migrate_loop_step, versions_to_convert_done by lia.
    destruct (Z.ltb_spec v CURRENT_COLLECTION_SCHEMA_VERSION); [lia | done].
  - rewrite migrate_loop_step, versions_to_convert_step by lia.
    destruct (Z.ltb_spec v CURRENT_COLLECTION_SCHEMA_VERSION); [|lia].
    simpl. destruct (getattr_convert_dict v) as [f|e]; simpl; [|done].
    destruct (f d) as [d'|e]; simpl; [|done].
    apply IH. lia.
Qed.


Lemma py_eqb_refl_hashable x : hashable x = true -> py_eqb x x = true.
Proof.
  destruct x; simpl; try done; intros _.
  - by destruct b.
  - apply Z.eqb_refl.
  - apply String.eqb_refl.
Qed.

Lemma py_in_app x l1 l2 : py_in x (l1 ++ l2) = py_in x l1 || py_in x l2.
Proof. apply existsb_app. Qed.

Lemma set_add_all_ok l acc :
  forallb hashable l = true ->
  exists s, set_add_all l acc = Ok s
    /\ (forall x, py_in x acc = true -> py_in x s = true)
    /\ (forall x, In x l -> py_in x s = true).
Proof.
  revert acc. induction l as [|y l IH]; simpl; intros acc Hl.
  - exists acc. repeat split; [auto | intros x []].
  - apply andb_true_iff in Hl as [Hy Hl]. rewrite Hy.
    destruct (IH (if py_in y acc then acc else (acc ++ [y])%list) Hl)
      as (s & Hs & Hacc & Hin).
    exists s. split; [exact Hs|]. split.
    + intros x Hx. apply Hacc. destruct (py_in y acc); [done|].
      rewrite py_in_app, Hx. done.
    + intros x [<-|Hx]; [|by apply Hin].
      apply Hacc. destruct (py_in y acc) eqn:E; [done|].
      rewrite py_in_app. simpl. rewrite (py_eqb_refl_hashable _ Hy).
      by rewrite orb_true_r.
Qed.


Lemma collect_skill_names_ok node_list acc :
  forallb is_skill_node node_list = true ->
  exists s, collect_skill_names node_list acc = Ok s
    /\ (forall x, py_in x acc = true -> py_in x s = true)
    /\ Forall (skills_known s) node_list.
Proof.
  revert acc. induction node_list as [|node rest IH]; simpl; intros acc Hl.
  - exists acc. repeat split; [auto | constructor].
  - apply andb_true_iff in Hl as [Hn Hl].
    destruct node as [| | | | |nd]; try done. simpl in Hn.
    destruct (dict_get "acquired_skills" nd) as [[| | | |a|]|] eqn:Ea; try done.
    destruct (dict_get "prerequisite_skills" nd) as [[| | | |p|]|] eqn:Ep;
      try done.
    apply andb_true_iff in Hn as [Hn _].
    apply andb_true_iff in Hn as [Ha Hp].
    destruct (set_add_all_ok a acc Ha) as (s1 & Hs1 & Hacc1 & Hin1).
    destruct (set_add_all_ok p s1 Hp) as (s2 & Hs2 & Hacc2 & Hin2).
    destruct (IH s2 Hl) as (s & Hs & Hacc & Hall).
    exists s. split.
    + unfold update_skill_names, getitem, dict_getitem.
      rewrite Ea, Ep. simpl. rewrite Hs1. simpl. rewrite Hs2. exact Hs.
    + split; [auto|].
      constructor; [|exact Hall].
      intros nd' a' p' [= <-] Ha' Hp' x Hx.
      rewrite Ea in Ha'. rewrite Ep in Hp'.
      injection Ha' as <-. injection Hp' as <-.
      apply Hacc. destruct Hx as [Hx|Hx]; auto.
Qed.

Lemma py_in_sorted_insert x y l :
  py_in x (sorted_insert y l) = py_eqb x y || py_in x l.
Proof.
  induction l as [|z l IH]; simpl; [done|].
  destruct (py_ltb y z); simpl; [done|].
  rewrite IH. by destruct (py_eqb x y), (py_eqb x z).
Qed.

Lemma py_in_sorted x l : py_in x (py_sorted l) = py_in x l.
Proof.
  unfold py_sorted.
  assert (G : forall acc,
             py_in x (fold_left (fun acc y => sorted_insert y acc) l acc)
             = py_in x l || py_in x acc).
  { induction l as [|y l IH]; simpl; intros acc; [done|].
    rewrite IH, py_in_sorted_insert.
    by destruct (py_eqb x y), (py_in x l), (py_in x acc). }
  rewrite G. simpl. apply orb_false_r.
Qed.

Lemma skill_id_of_ok x names index :
  py_in x names = true ->
  exists i, skill_id_of x (enumerate_skill_ids index names) = Ok (PStr i).
Proof.
  revert index. induction names as [|n names IH]; simpl; intros index; [done|].
  destruct (py_eqb x n); simpl; eauto.
Qed.

Lemma map_result_ok {A B} (f : A -> result B) l :
  Forall (fun x => exists y, f x = Ok y) l ->
  exists ys, map_result f l = Ok ys.
Proof.
  induction 1 as [|x l [y Hy] _ [ys Hys]]; simpl; [eauto|].
  rewrite Hy. simpl. rewrite Hys. simpl. eauto.
Qed.

Lemma skill_ids_of_ok nd key a names index :
  dict_get key nd = Some (PList a) ->
  (forall x, In x a -> py_in x names = true) ->
  exists v, skill_ids_of (PDict nd) key (enumerate_skill_ids index names)
            = Ok v.
Proof.
  intros Hk Ha. unfold skill_ids_of, getitem, dict_getitem.
  rewrite Hk. simpl.
  destruct (map_result_ok
              (fun n => skill_id_of n (enumerate_skill_ids index names)) a)
    as [ys Hys].
  { apply List.Forall_forall. intros x Hx.
    destruct (skill_id_of_ok x names index (Ha x Hx)) as [i Hi]. eauto. }
  rewrite Hys. simpl. eauto.
Qed.

Lemma convert_node_v3_to_v4_ok names node :
  is_skill_node node = true ->
  skills_known names node ->
  exists node',
    convert_node_v3_to_v4 (enumerate_skill_ids 0 (py_sorted names)) node
    = Ok node'.
Proof.
  intros Hn Hk.
  destruct node as [| | | | |nd]; try done. simpl in Hn.
  destruct (dict_get "acquired_skills" nd) as [[| | | |a|]|] eqn:Ea; try done.
  destruct (dict_get "prerequisite_skills" nd) as [[| | | |p|]|] eqn:Ep;
    try done.
  apply andb_true_iff in Hn as [_ He]. unfold dict_mem in He.
  destruct (dict_get "exploration_id" nd) as [e|] eqn:Ee; [|done].
  destruct (skill_ids_of_ok nd "prerequisite_skills" p (py_sorted names) 0 Ep)
    as [vp Hvp].
  { intros x Hx. rewrite py_in_sorted. eapply Hk; eauto. }
  destruct (skill_ids_of_ok nd "acquired_skills" a (py_sorted names) 0 Ea)
    as [va Hva].
  { intros x Hx. rewrite py_in_sorted. eapply Hk; eauto. }
  unfold convert_node_v3_to_v4.
  unfold getitem at 1. unfold dict_getitem. rewrite Ee. simpl.
  rewrite Hvp. simpl. rewrite Hva. simpl. eauto.
Qed.

Lemma contents_v3_to_v4_ok d node_list :
  dict_get "nodes" d = Some (PList node_list) ->
  forallb is_skill_node node_list = true ->
  exists new_nodes skills n,
    contents_v3_to_v4 d
    = Ok (dict_set "next_skill_id" n
            (dict_set "skills" skills (dict_set "nodes" new_nodes d))).
Proof.
  intros Hd Hl. unfold contents_v3_to_v4, dict_getitem. rewrite Hd. simpl.
  destruct (collect_skill_names_ok node_list [] Hl) as (s & Hs & _ & Hall).
  rewrite Hs. simpl.
  destruct (map_result_ok
              (convert_node_v3_to_v4 (enumerate_skill_ids 0 (py_sorted s)))
              node_list) as [ys Hys].
  { apply List.Forall_forall. intros node Hnode.
    apply convert_node_v3_to_v4_ok.
    - rewrite forallb_forall in Hl. by apply Hl.
    - rewrite List.Forall_forall in Hall. by apply Hall. }
  rewrite Hys. simpl. eauto.
Qed.


Lemma call_on_dict_v3_ok d d' :
  contents_v3_to_v4 d = Ok d' ->
  call_on_dict _convert_collection_contents_v3_dict_to_v4_dict d = Ok d'.
Proof. intros Hd. unfold call_on_dict. simpl. by rewrite Hd. Qed.

Lemma convert_step_ok v d :
  1 <= v < CURRENT_COLLECTION_SCHEMA_VERSION ->
  has_keys_of_version v d = true ->
  exists f d',
    getattr_convert_dict v = Ok f /\ f d = Ok d'
    /\ has_keys_of_version (v + 1) d' = true.
Proof.
  intros Hv Hk. unfold CURRENT_COLLECTION_SCHEMA_VERSION in Hv.
  assert (Hcases : v = 1 \/ v = 2 \/ v = 3 \/ v = 4 \/ v = 5) by lia.
  destruct Hcases as [->|[->|[->|[->| ->]]]]; simpl in Hk.
  - eexists _, _. split; [reflexivity|]. split; [reflexivity|].
    unfold has_keys_of_version. simpl.
    by rewrite !dict_get_set_ne.
  - eexists _, _. split; [reflexivity|]. split; [reflexivity|].
    unfold has_keys_of_version. simpl.
    by rewrite !dict_get_set_ne.
  - unfold has_keys_of_version in Hk. simpl in Hk.
    destruct (dict_get "nodes" d) as [[| | | |node_list|]|] eqn:En; try done.
    destruct (contents_v3_to_v4_ok d node_list En Hk) as (nn & sk & n & Hc).
    eexists _, _. split; [reflexivity|].
    unfold _convert_v3_dict_to_v4_dict.
    rewrite (call_on_dict_v3_ok _ _ Hc). simpl.
    unfold dict_getitem.
    rewrite dict_get_set_ne, dict_get_set_eq by done. simpl.
    rewrite dict_get_set_ne, dict_get_set_eq by done. simpl.
    split; [reflexivity|].
    unfold has_keys_of_version. simpl.
    by rewrite !dict_mem_set.
  - unfold has_keys_of_version in Hk. simpl in Hk.
    apply andb_true_iff in Hk as [Hs Hn].
    unfold dict_mem in Hn.
    destruct (dict_get "next_skill_id" d) as [n|] eqn:En; [|done].
    eexists _, _. split; [reflexivity|].
    unfold _convert_v4_dict_to_v5_dict, call_on_dict. simpl.
    unfold dict_getitem. rewrite En. simpl.
    split; [reflexivity|].
    unfold has_keys_of_version. simpl.
    rewrite !dict_mem_set. simpl.
    rewrite !dict_mem_remove_ne by done.
    rewrite !dict_mem_set. simpl.
    by rewrite Hs.
  - unfold has_keys_of_version in Hk. simpl in Hk.
    apply andb_true_iff in Hk as [Hs Hn].
    eexists _, _. split; [reflexivity|].
    unfold _convert_v5_dict_to_v6_dict, dict_delitem. rewrite Hs. simpl.
    rewrite dict_mem_remove_ne by done. rewrite Hn. simpl.
    split; [reflexivity|]. done.
Qed.

Lemma apply_conversions_ok v d :
  1 <= v ->
  has_keys_of_version v d = true ->
  exists d', apply_conversions (versions_to_convert v) d = Ok d'.
Proof.
  remember (Z.to_nat (CURRENT_COLLECTION_SCHEMA_VERSION - v)) as n eqn:Hn.
  revert v d Hn. induction n as [|n IH]; intros v d Hn Hv Hk.
  - rewrite versions_to_convert_done by lia. simpl. eauto.
  - rewrite versions_to_convert_step by lia. simpl.
    destruct (convert_step_ok v d) as (f & d1 & Hf & Hd1 & Hk1); [lia|done|].
    rewrite Hf. simpl. rewrite Hd1. simpl.
    apply IH; [lia | lia | done].
Qed.

Lemma convert_dict_sets_version v f d d' :
  getattr_convert_dict v = Ok f -> f d = Ok d' ->
  dict_get "schema_version" d' = Some (PInt (v + 1)).
Proof.
  unfold getattr_convert_dict.
  destruct (Z.eqb_spec v 1) as [->|_]; [intros [= <-]|].
  { intros [= <-]. rewrite !dict_get_set_ne by done. apply dict_get_set_eq. }
  destruct (Z.eqb_spec v 2) as [->|_]; [intros [= <-]|].
  { intros [= <-]. apply dict_get_set_eq. }
  destruct (Z.eqb_spec v 3) as [->|_]; [intros [= <-]|].
  { unfold _convert_v3_dict_to_v4_dict. intros H. bind_inv H; try done.
    injection H as <-. apply dict_get_set_eq. }
  destruct (Z.eqb_spec v 4) as [->|_]; [intros [= <-]|].
  { unfold _convert_v4_dict_to_v5_dict. intros H. bind_inv H; try done.
    injection H as <-. apply dict_get_set_eq. }
  destruct (Z.eqb_spec v 5) as [->|_]; [intros [= <-]|done].
  unfold _convert_v5_dict_to_v6_dict. intros H. bind_inv H; try done.
  injection H as <-. apply dict_get_set_eq.
Qed.

Lemma apply_conversions_version v d d' :
  v <= CURRENT_COLLECTION_SCHEMA_VERSION ->
  dict_get "schema_version" d = Some (PInt v) ->
  apply_conversions (versions_to_convert v) d = Ok d' ->
  dict_get "schema_version" d'
  = Some (PInt CURRENT_COLLECTION_SCHEMA_VERSION).
Proof.
  remember (Z.to_nat (CURRENT_COLLECTION_SCHEMA_VERSION - v)) as n eqn:Hn.
  revert v d Hn. induction n as [|n IH]; intros v d Hn Hv Hd.
  - rewrite versions_to_convert_done by lia. simpl. intros [= <-].
    rewrite Hd. do 2 f_equal. lia.
  - rewrite versions_to_convert_step by lia. simpl. intros H.
    bind_inv H; try done.
    eapply (IH (v + 1)); [lia | lia | | exact H].
    eapply convert_dict_sets_version; eassumption.
Qed.
Lemma migrate_of_int yaml d v :
  dict_from_yaml yaml = Ok d ->
  dict_get "schema_version" d = Some (PInt v) ->
  _migrate_to_latest_yaml_version yaml =
  if (1 <=? v) && (v <=? CURRENT_COLLECTION_SCHEMA_VERSION)
  then migrate_loop v d
  else Raise (PyException
    "Sorry, we can only process v1 to v6 collection YAML files at present.").
Proof.
  intros Hd Hv. unfold _migrate_to_latest_yaml_version.
  rewrite Hd, Hv. unfold version_in_range. simpl.
  by destruct ((1 <=? v) && (v <=? CURRENT_COLLECTION_SCHEMA_VERSION)).
Qed.

(** C2: on a parsed YAML dict without a 'schema_version' key
    [_migrate_to_latest_yaml_version] raises [utils.InvalidInputException];
    on an integer schema version below 1 or above
    [CURRENT_COLLECTION_SCHEMA_VERSION] it raises [Exception]; on an integer
    schema version inside that range it raises neither of the two. *)
Theorem migrate_error_cases (yaml_content : string) (d : pydict) :
  dict_from_yaml yaml_content = Ok d ->
  (dict_get "schema_version" d = None ->
     _migrate_to_latest_yaml_version yaml_content
     = Raise (InvalidInputException
                "Invalid YAML file: no schema version specified."))
  /\ (forall v, dict_get "schema_version" d = Some (PInt v) ->
        v < 1 \/ CURRENT_COLLECTION_SCHEMA_VERSION < v ->
        _migrate_to_latest_yaml_version yaml_content
        = Raise (PyException
            "Sorry, we can only process v1 to v6 collection YAML files at present."))
  /\ (forall v, dict_get "schema_version" d = Some (PInt v) ->
        1 <= v <= CURRENT_COLLECTION_SCHEMA_VERSION ->
        forall msg,
          _migrate_to_latest_yaml_version yaml_content
            <> Raise (InvalidInputException msg)
          /\ _migrate_to_latest_yaml_version yaml_content
            <> Raise (PyException msg)).
Proof.
  intros Hd. split; [|split].
  - intros Hv. unfold _migrate_to_latest_yaml_version. by rewrite Hd, Hv.
  - intros v Hv Hr. rewrite (migrate_of_int _ _ _ Hd Hv).
    destruct (Z.leb_spec 1 v);
      destruct (Z.leb_spec v CURRENT_COLLECTION_SCHEMA_VERSION);
      simpl; try done; lia.
  - intros v Hv Hr msg. rewrite (migrate_of_int _ _ _ Hd Hv).
    destruct (Z.leb_spec 1 v); [|lia].
    destruct (Z.leb_spec v CURRENT_COLLECTION_SCHEMA_VERSION); [|lia].
    simpl. rewrite migrate_loop_is_chain.
    split; intros H1; by apply apply_conversions_raises in H1.
Qed.

(** C1, as the code has it: for a parsed YAML dict whose schema version is
    an integer [v] with [1 <= v <= CURRENT_COLLECTION_SCHEMA_VERSION], the
    outcome of [_migrate_to_latest_yaml_version] is that of applying the
    conversion functions of the versions [v], [v+1], ..., [CURRENT-1], each
    once and in ascending order, up to the first one that raises; whenever a
    dict is returned its schema_version is
    [CURRENT_COLLECTION_SCHEMA_VERSION]; and a dict is returned when the
    input has the keys the conversions of its version read. *)
Theorem migrate_applies_each_conversion_once
  (yaml_content : string) (d : pydict) (v : Z) :
  dict_from_yaml yaml_content = Ok d ->
  dict_get "schema_version" d = Some (PInt v) ->
  1 <= v <= CURRENT_COLLECTION_SCHEMA_VERSION ->
  _migrate_to_latest_yaml_version yaml_content
    = apply_conversions (versions_to_convert v) d
  /\ (forall d', _migrate_to_latest_yaml_version yaml_content = Ok d' ->
        dict_get "schema_version" d'
        = Some (PInt CURRENT_COLLECTION_SCHEMA_VERSION))
  /\ (has_keys_of_version v d = true ->
        exists d', _migrate_to_latest_yaml_version yaml_content = Ok d').
Proof.
  intros Hd Hv Hr. rewrite (migrate_of_int _ _ _ Hd Hv).
  destruct (Z.leb_spec 1 v); [|lia].
  destruct (Z.leb_spec v CURRENT_COLLECTION_SCHEMA_VERSION); [|lia].
  simpl. rewrite migrate_loop_is_chain.
  split; [reflexivity|]. split.
  - intros d'. apply apply_conversions_version; [lia | done].
  - intros Hk. apply apply_conversions_ok; [lia | done].
Qed.

End Chain.

(** C2 on the version 1 fixture: its version is in range, and neither of
    the two errors is raised. *)
Lemma migrate_error_cases_witness :
  @_migrate_to_latest_yaml_version string sample_utils sample_constants
      "YAML_CONTENT_V1"
    <> Raise (InvalidInputException
                "Invalid YAML file: no schema version specified.")
  /\ @_migrate_to_latest_yaml_version string sample_utils sample_constants
       "YAML_CONTENT_V1"
    <> Raise (PyException
                "Sorry, we can only process v1 to v6 collection YAML files at present.").
Proof.
  pose proof (proj2 (proj2 (@migrate_error_cases string sample_utils
                              sample_constants "YAML_CONTENT_V1"
                              yaml_content_v1 eq_refl))
                    1 eq_refl
                    ltac:(unfold CURRENT_COLLECTION_SCHEMA_VERSION; lia))
    as H.
  split; [exact (proj1 (H _)) | exact (proj2 (H _))].
Defined.

(** C1 on the version 1 fixture: the five conversions are chained in
    ascending order and a dict is returned. *)
Lemma migrate_applies_each_conversion_once_witness :
  @_migrate_to_latest_yaml_version string sample_utils sample_constants
      "YAML_CONTENT_V1"
    = @apply_conversions sample_constants [1; 2; 3; 4; 5] yaml_content_v1
  /\ exists d',
       @_migrate_to_latest_yaml_version string sample_utils sample_constants
         "YAML_CONTENT_V1" = Ok d'.
Proof.
  destruct (@migrate_applies_each_conversion_once string sample_utils
              sample_constants "YAML_CONTENT_V1" yaml_content_v1 1
              eq_refl eq_refl
              ltac:(unfold CURRENT_COLLECTION_SCHEMA_VERSION; lia))
    as (H1 & _ & H3).
  split; [exact H1 | exact (H3 eq_refl)].
Defined.

(** C1 as stated fails on a document that declares version 5 and nothing
    else: the version is in range, yet the conversion to version 6 raises
    [KeyError] and no dict is returned. *)
Lemma migrate_raises_key_error_on_bare_version_5 :
  @dict_from_yaml string sample_utils "schema_version: 5"
    = Ok yaml_only_version_5
  /\ dict_get "schema_version" yaml_only_version_5 = Some (PInt 5)
  /\ 1 <= 5 <= CURRENT_COLLECTION_SCHEMA_VERSION
  /\ @_migrate_to_latest_yaml_version string sample_utils sample_constants
       "schema_version: 5" = Raise (KeyError "skills").
Proof. repeat split; try reflexivity; vm_compute; discriminate. Qed.

(** ** One step of the migration of stored contents *)

Section UpdateContents.

Lemma update_of_int vcc current_version z :
  dict_get "schema_version" vcc = Some (PInt z) ->
  update_collection_contents_from_model vcc current_version
  = if z + 1 >? CURRENT_COLLECTION_SCHEMA_VERSION
    then (vcc, Some (PyException
            "Collection is version %d but current collection schema version is %d"))
    else
      let vcc1 := dict_set "schema_version" (PInt (current_version + 1)) vcc in
      match getattr_convert_contents current_version with
      | Raise e => (vcc1, Some e)
      | Ok conversion_fn =>
          match dict_getitem "collection_contents" vcc1 with
          | Raise e => (vcc1, Some e)
          | Ok contents =>
              (dict_set "collection_contents" (conversion_fn contents).1 vcc1,
               (conversion_fn contents).2)
          end
      end.
Proof.
  intros Hz. unfold update_collection_contents_from_model, dict_getitem.
  rewrite Hz. simpl.
  destruct (z + 1 >? CURRENT_COLLECTION_SCHEMA_VERSION); [done|].
  destruct (getattr_convert_contents current_version) as [f|e]; [|done].
  destruct (dict_get "collection_contents" _) as [c|]; [|done].
  by destruct (f c) as [c' [e|]].
Qed.

Lemma getattr_convert_contents_raises v e :
  getattr_convert_contents v = Raise e -> is_lookup_error e = true.
Proof.
  unfold getattr_convert_contents.
  repeat (destruct (_ =? _); [done|]). by intros [= <-].
Qed.

(** C8, as the code has it: with an integer 'schema_version' [z] in the
    dict, [update_collection_contents_from_model] raises [Exception] exactly
    when [z >= CURRENT_COLLECTION_SCHEMA_VERSION], and the dict is then
    unchanged.  Otherwise 'schema_version' becomes [current_version + 1],
    and when a conversion function for [current_version] exists and returns
    on the stored contents, 'collection_contents' is replaced by what it
    returned and the call returns normally. *)
Theorem update_collection_contents_from_model_steps
  (vcc : pydict) (current_version z : Z) :
  dict_get "schema_version" vcc = Some (PInt z) ->
  let r := update_collection_contents_from_model vcc current_version in
  ((exists msg, r.2 = Some (PyException msg))
     <-> CURRENT_COLLECTION_SCHEMA_VERSION <= z)
  /\ (CURRENT_COLLECTION_SCHEMA_VERSION <= z -> r.1 = vcc)
  /\ (z < CURRENT_COLLECTION_SCHEMA_VERSION ->
        dict_get "schema_version" r.1 = Some (PInt (current_version + 1))
        /\ forall conversion_fn contents contents',
             getattr_convert_contents current_version = Ok conversion_fn ->
             dict_get "collection_contents" vcc = Some contents ->
             conversion_fn contents = (contents', None) ->
             r = (dict_set "collection_contents" contents'
                    (dict_set "schema_version" (PInt (current_version + 1))
                              vcc),
                  None)).
Proof.
  intros Hz r. subst r. rewrite (update_of_int _ _ _ Hz).
  unfold CURRENT_COLLECTION_SCHEMA_VERSION.
  destruct (Z.gtb_spec (z + 1) 6) as [Hgt|Hle].
  - split; [|split]; [|done|lia].
    split; [lia | eauto].
  - split; [|split]; [|lia|].
    + split; [|lia]. intros [msg Hm]. exfalso. revert Hm. simpl.
      destruct (getattr_convert_contents current_version) as [f|e] eqn:Ef.
      2:{ simpl. intros [= ->].
          by apply getattr_convert_contents_raises in Ef. }
      destruct (dict_getitem _ _) as [c|e] eqn:Ec.
      2:{ simpl. intros [= ->]. by apply dict_getitem_raises in Ec. }
      simpl. destruct (f c) as [c' o] eqn:Efc. simpl. intros ->.
      by apply (convert_contents_raises _ _ _ _ _ Ef) in Efc.
    + intros _. simpl. split.
      * destruct (getattr_convert_contents current_version) as [f|e];
          [|apply dict_get_set_eq].
        destruct (dict_getitem _ _) as [c|e]; [|apply dict_get_set_eq].
        simpl. rewrite dict_get_set. simpl. apply dict_get_set_eq.
      * intros f c c' Hf Hc Hfc. rewrite Hf. unfold dict_getitem.
        rewrite dict_get_set. simpl. rewrite Hc. by rewrite Hfc.
Qed.

End UpdateContents.

(** C8 on the contents of the test suite: version 1 becomes version 2 and
    the (empty) contents are what the conversion returned. *)
Lemma update_collection_contents_from_model_steps_witness :
  update_collection_contents_from_model versioned_contents_v1 1
  = ([("schema_version", PInt 2); ("collection_contents", PDict [])], None).
Proof.
  destruct (update_collection_contents_from_model_steps
              versioned_contents_v1 1 1 eq_refl) as (_ & _ & H3).
  destruct (H3 ltac:(unfold CURRENT_COLLECTION_SCHEMA_VERSION; lia))
    as [_ H4].
  exact (H4 _ (PDict []) (PDict []) eq_refl eq_refl eq_refl).
Defined.

(** C8 as stated fails when 'schema_version' is 1 and [current_version] is
    6: the version is below the current one, no [Exception] is raised, yet
    there is no conversion function for version 6, so the call raises
    [AttributeError] after it has set 'schema_version' to 7, and
    'collection_contents' is untouched.  It also fails when both versions
    are 3 and the contents have no 'nodes': the conversion raises
    [KeyError] after 'schema_version' has become 4. *)
Lemma update_raises_attribute_error_without_conversion :
  dict_get "schema_version" versioned_contents_v1 = Some (PInt 1)
  /\ 1 < CURRENT_COLLECTION_SCHEMA_VERSION
  /\ update_collection_contents_from_model versioned_contents_v1 6
     = ([("schema_version", PInt 7); ("collection_contents", PDict [])],
        Some (AttributeError
                "_convert_collection_contents_v6_dict_to_v7_dict"))
  /\ update_collection_contents_from_model
       [("schema_version", PInt 3); ("collection_contents", PDict [])] 3
     = ([("schema_version", PInt 4); ("collection_contents", PDict [])],
        Some (KeyError "nodes")).
Proof. repeat split; reflexivity. Qed.

(** ** Serialization round trip *)

Section RoundTrip.
Context {datetime : Type} {utils : UtilsModule datetime} {json : JsonModule}.

Lemma node_from_dict_to_dict (ns : list CollectionNode) :
  map_result CollectionNodeM.from_dict (map CollectionNodeM.to_dict ns)
  = Ok ns.
Proof.
  induction ns as [|[e] ns IH]; simpl; [done|].
  rewrite IH. reflexivity.
Qed.

Lemma from_dict_serialize_dict (c : Collection datetime)
  (co lu : option datetime) :
  from_dict (PDict (serialize_dict c)) (version c) co lu
  = Ok (mkCollection (c_id c) (title c) (category c) (objective c)
          (language_code c) (tags c) (schema_version c) (nodes c)
          (version c) co lu).
Proof.
  destruct c as [i t ca o lc tg sv ns v cr lup].
  unfold from_dict, serialize_dict, to_dict; simpl.
  destruct cr, lup; simpl; by rewrite node_from_dict_to_dict.
Qed.

(** C4: when the JSON codec gives back the dict that [serialize] encoded,
    and the datetime converters give back the datetimes of the collection,
    [deserialize (serialize c)] is a collection equal to [c]: the same id,
    title, category, objective, language code, tags, schema version,
    version, created_on, last_updated and nodes, hence the same list of
    exploration ids. *)
Theorem deserialize_serialize_identity (c : Collection datetime) :
  json_loads (json_dumps (PDict (serialize_dict c)))
    = Ok (PDict (serialize_dict c)) ->
  (forall dt, created_on c = Some dt ->
     convert_string_to_naive_datetime_object
       (convert_naive_datetime_to_string dt) = Ok dt) ->
  (forall dt, last_updated c = Some dt ->
     convert_string_to_naive_datetime_object
       (convert_naive_datetime_to_string dt) = Ok dt) ->
  deserialize (serialize c) = Ok c
  /\ (forall c', deserialize (serialize c) = Ok c' ->
        exploration_ids c' = exploration_ids c).
Proof.
  intros Hjson Hco Hlu.
  assert (Hd : deserialize (serialize c) = Ok c).
  { unfold deserialize, serialize. rewrite Hjson. simpl.
    assert (Hv : dict_getitem "version" (serialize_dict c) = Ok (version c)).
    { destruct c as [i t ca o lc tg sv ns v [cr|] [lup|]]; reflexivity. }
    assert (Hrc : read_datetime "created_on" (serialize_dict c)
                  = Ok (created_on c)).
    { destruct c as [i t ca o lc tg sv ns v [cr|] [lup|]];
        unfold read_datetime; simpl; try reflexivity;
        by rewrite (Hco cr eq_refl). }
    assert (Hrl : read_datetime "last_updated" (serialize_dict c)
                  = Ok (last_updated c)).
    { destruct c as [i t ca o lc tg sv ns v [cr|] [lup|]];
        unfold read_datetime; simpl; try reflexivity;
        by rewrite (Hlu lup eq_refl). }
    rewrite Hrc, Hrl, Hv. simpl.
    rewrite from_dict_serialize_dict. by destruct c. }
  split; [exact Hd|].
  intros c' Hc'. rewrite Hd in Hc'. by injection Hc' as <-.
Qed.

End RoundTrip.

(** C4 on the sample collection, which has a creation date and no update
    date. *)
Lemma deserialize_serialize_identity_witness :
  @deserialize string sample_utils sample_json
    (@serialize string sample_utils sample_json sample_collection)
  = Ok sample_collection.
Proof.
  refine (proj1 (@deserialize_serialize_identity string sample_utils
                   sample_json sample_collection eq_refl _ _)).
  - intros dt _. reflexivity.
  - intros dt _. reflexivity.
Defined.

(** ** Validation *)

Section Validation.
Context {datetime : Type} {utils : UtilsModule datetime}
        {consts : ConstantsModule}.

Lemma set_add_all_bound l acc :
  forallb hashable l = true ->
  exists s, set_add_all l acc = Ok s
            /\ (length s <= length acc + length l)%nat.
Proof.
  revert acc. induction l as [|x l IH]; simpl; intros acc Hl.
  - exists acc. split; [done | lia].
  - apply andb_true_iff in Hl as [Hx Hl]. rewrite Hx.
    destruct (IH (if py_in x acc then acc else (acc ++ [x])%list) Hl)
      as (s & Hs & Hlen).
    exists s. split; [done|].
    destruct (py_in x acc); [lia|]. rewrite length_app in Hlen. simpl in Hlen. lia.
Qed.

Lemma set_add_all_short l acc :
  forallb hashable l = true ->
  (exists x, In x l /\ py_in x acc = true)
  \/ (exists (i j : nat) x, i <> j /\ l !! i = Some x /\ l !! j = Some x) ->
  exists s, set_add_all l acc = Ok s
            /\ (length s < length acc + length l)%nat.
Proof.
  revert acc. induction l as [|x l IH]; simpl; intros acc Hl Hdup.
  - destruct Hdup as [(y & [] & _)|(i & j & y & _ & Hi & _)]; done.
  - apply andb_true_iff in Hl as [Hx Hl]. rewrite Hx.
    destruct (py_in x acc) eqn:Ein.
    + destruct (set_add_all_bound l acc Hl) as (s & Hs & Hlen).
      exists s. split; [done | lia].
    + assert (Hx' : py_in x (acc ++ [x]) = true).
      { rewrite py_in_app. simpl. rewrite (py_eqb_refl_hashable _ Hx).
        by rewrite orb_true_r. }
      assert (Hdup' :
        (exists y, In y l /\ py_in y (acc ++ [x]) = true)
        \/ (exists (i j : nat) y, i <> j /\ l !! i = Some y /\ l !! j = Some y)).
      { destruct Hdup as [(y & [<-|Hy] & Hyacc)|(i & j & y & Hij & Hi & Hj)].
        - congruence.
        - left. exists y. split; [done|]. rewrite py_in_app, Hyacc. done.
        - destruct i as [|i], j as [|j]; simpl in Hi, Hj.
          + done.
          + injection Hi as ->. left. exists y. split; [|done].
            apply list_elem_of_In. by eapply list_elem_of_lookup_2.
          + injection Hj as ->. left. exists y. split; [|done].
            apply list_elem_of_In. by eapply list_elem_of_lookup_2.
          + right. exists i, j, y. repeat split; [lia|done|done]. }
      destruct (IH (acc ++ [x])%list Hl Hdup') as (s & Hs & Hlen).
      exists s. split; [done|]. rewrite length_app in Hlen. simpl in Hlen. lia.
Qed.

Lemma py_in_str_false x acc :
  ~ In (PStr x) acc -> py_in (PStr x) acc = false.
Proof.
  intros Hn. unfold py_in. apply not_true_is_false. intros H.
  apply existsb_exists in H as (y & Hy & E).
  destruct y; simpl in E; try done.
  apply String.eqb_eq in E. by subst.
Qed.

Lemma set_add_all_full (strs : list string) acc :
  List.NoDup strs ->
  (forall x, In x strs -> ~ In (PStr x) acc) ->
  exists s, set_add_all (map PStr strs) acc = Ok s
            /\ length s = (length acc + length strs)%nat.
Proof.
  revert acc. induction strs as [|x strs IH]; simpl; intros acc Hnd Hacc.
  - exists acc. split; [done | lia].
  - inversion Hnd as [|? ? Hx Hnd']; subst.
    rewrite py_in_str_false by (apply Hacc; by left).
    destruct (IH (acc ++ [PStr x])%list Hnd') as (s & Hs & Hlen).
    { intros y Hy Hin. apply in_app_iff in Hin as [Hin|[[= ->]|[]]].
      - by apply (Hacc y); [right|].
      - done. }
    exists s. split; [done|]. rewrite length_app in Hlen. simpl in Hlen. lia.
Qed.

Lemma raise_if_only b msg : only_validation_error (raise_if b (ValidationError msg)).
Proof. intros e. destruct b; simpl; [|done]. intros [= <-]. eauto. Qed.

Lemma bind_only {A B} (m : result A) (f : A -> result B) :
  only_validation_error m -> (forall a, only_validation_error (f a)) ->
  only_validation_error (m ≫= f).
Proof.
  intros Hm Hf e. destruct m as [a|e']; simpl.
  - apply Hf.
  - intros [= <-]. by apply Hm.
Qed.

Lemma validate_name_only v te nt : only_validation_error (validate_name v te nt).
Proof.
  intros e. destruct v; simpl; try (intros [= <-]; eauto).
  destruct (require_valid_name s nt true); [|done]. intros [= <-]. eauto.
Qed.

Lemma validate_language_code_only v :
  only_validation_error (validate_language_code v).
Proof.
  destruct v; try (intros e [= <-]; eauto).
  unfold validate_language_code.
  apply bind_only; [apply raise_if_only | intros _; apply raise_if_only].
Qed.

Lemma validate_tag_only tag : only_validation_error (validate_tag tag).
Proof.
  destruct tag; try (intros e [= <-]; eauto).
  unfold validate_tag.
  repeat (apply bind_only; [apply raise_if_only | intros _]).
  apply raise_if_only.
Qed.

Lemma for_each_only {A} (f : A -> result unit) l :
  (forall x, only_validation_error (f x)) ->
  only_validation_error (for_each f l).
Proof.
  intros Hf. induction l as [|x l IH]; simpl; [done|].
  apply bind_only; [apply Hf | intros _; apply IH].
Qed.

Lemma validate_tags_only v :
  match v with PList l => forallb is_basestring l = true | _ => True end ->
  only_validation_error (validate_tags v).
Proof.
  destruct v; try (intros _ e [= <-]; eauto). intros Hl.
  unfold validate_tags, py_set.
  destruct (set_add_all_bound l []) as (s & Hs & _).
  { rewrite forallb_forall in *. intros x Hx. specialize (Hl x Hx).
    by destruct x. }
  rewrite Hs. simpl.
  apply bind_only; [apply raise_if_only | intros _].
  apply for_each_only, validate_tag_only.
Qed.

Lemma bind_raises {A B} (m : result A) (f : A -> result B) :
  only_validation_error m ->
  (forall a, raises_validation_error (f a)) ->
  raises_validation_error (m ≫= f).
Proof.
  intros Hm Hf. destruct m as [a|e]; simpl; [apply Hf|].
  destruct (Hm e eq_refl) as [msg ->]. by exists msg.
Qed.

Lemma well_typed_ids_hashable (c : Collection datetime) :
  well_typed c = true -> forallb hashable (exploration_ids c) = true.
Proof.
  unfold well_typed. rewrite !andb_true_iff. intros (_ & Hn).
  unfold exploration_ids. rewrite forallb_forall in *.
  intros x Hx. apply in_map_iff in Hx as (n & <- & Hin).
  specialize (Hn n Hin). by destruct (exploration_id n).
Qed.

Lemma well_typed_tags (c : Collection datetime) :
  well_typed c = true ->
  match tags c with PList l => forallb is_basestring l = true | _ => True end.
Proof.
  unfold well_typed. rewrite !andb_true_iff. intros ((_ & Ht) & _).
  by destruct (tags c).
Qed.

Lemma exploration_ids_lookup (c : Collection datetime) i e :
  nodes c !! i = Some (mkCollectionNode e) -> exploration_ids c !! i = Some e.
Proof.
  unfold exploration_ids. generalize (nodes c). intros l. revert i.
  induction l as [|n l IH]; intros [|i]; simpl; try done.
  - by intros [= ->].
  - apply IH.
Qed.

Lemma for_each_validate_tag_ok ts :
  forallb valid_tag_text ts = true ->
  for_each validate_tag (map PStr ts) = Ok tt.
Proof.
  induction ts as [|s ts IH]; simpl; [done|].
  intros Hts. apply andb_true_iff in Hts as [Hs Hts].
  unfold valid_tag_text in Hs. rewrite !andb_true_iff in Hs.
  destruct Hs as (((Hne & Hre) & Hlow) & Hws).
  rewrite Hne, Hre, Hlow. apply negb_true_iff in Hws. rewrite Hws. simpl.
  by apply IH.
Qed.

Lemma for_each_node_validate_ok (ns : list CollectionNode) ids :
  map exploration_id ns = map PStr ids ->
  for_each CollectionNodeM.validate ns = Ok tt.
Proof.
  revert ids. induction ns as [|[e] ns IH]; intros [|x ids]; simpl;
    try done.
  intros [= -> Hrest]. unfold CollectionNodeM.validate. simpl. eauto.
Qed.

(** C5: on a collection whose attributes have their types, [validate]
    raises [utils.ValidationError] whenever two nodes hold the same
    exploration id, and whenever schema_version is not
    [CURRENT_COLLECTION_SCHEMA_VERSION], strict or not.  With strict=False
    it returns without error on a collection with pairwise distinct
    exploration ids, the current schema version, a title and a category
    that [require_valid_name] accepts, a string objective, a language code
    that is not empty and that [is_valid_language_code] accepts, and
    distinct tags that each pass the tag checks. *)
Theorem validate_rejects_and_accepts (c : Collection datetime) :
  (well_typed c = true -> duplicate_exploration_id c ->
     forall strict, raises_validation_error (validate c strict))
  /\ (well_typed c = true ->
      schema_version c <> PInt CURRENT_COLLECTION_SCHEMA_VERSION ->
      forall strict, raises_validation_error (validate c strict))
  /\ (forall t ca o lc ts ids,
        title c = PStr t -> category c = PStr ca -> objective c = PStr o ->
        language_code c = PStr lc -> tags c = PList (map PStr ts) ->
        exploration_ids c = map PStr ids ->
        schema_version c = PInt CURRENT_COLLECTION_SCHEMA_VERSION ->
        require_valid_name t "the collection title" true = None ->
        require_valid_name ca "the collection category" true = None ->
        lc <> "" -> is_valid_language_code lc = true ->
        List.NoDup ts -> forallb valid_tag_text ts = true ->
        List.NoDup ids ->
        validate c false = Ok tt).
Proof.
  split; [|split].
  - intros Hwt Hdup strict. unfold validate.
    apply bind_raises; [apply validate_name_only | intros _].
    apply bind_raises; [apply validate_name_only | intros _].
    apply bind_raises; [apply raise_if_only | intros _].
    apply bind_raises; [apply validate_language_code_only | intros _].
    apply bind_raises;
      [apply validate_tags_only, well_typed_tags, Hwt | intros _].
    apply bind_raises; [apply raise_if_only | intros _].
    apply bind_raises; [apply raise_if_only | intros _].
    destruct (set_add_all_short (exploration_ids c) []
                (well_typed_ids_hashable c Hwt)) as (s & Hs & Hlen).
    { right. destruct Hdup as (i & j & e & Hij & Hi & Hj).
      exists i, j, e. eauto using exploration_ids_lookup. }
    unfold py_set. rewrite Hs. simpl in *.
    destruct (Nat.eqb_spec (length s) (length (exploration_ids c)));
      [lia|]. simpl. eexists. reflexivity.
  - intros Hwt Hsv strict. unfold validate.
    apply bind_raises; [apply validate_name_only | intros _].
    apply bind_raises; [apply validate_name_only | intros _].
    apply bind_raises; [apply raise_if_only | intros _].
    apply bind_raises; [apply validate_language_code_only | intros _].
    apply bind_raises;
      [apply validate_tags_only, well_typed_tags, Hwt | intros _].
    apply bind_raises; [apply raise_if_only | intros _].
    assert (Hne : py_eqb (schema_version c)
                    (PInt CURRENT_COLLECTION_SCHEMA_VERSION) = false).
    { destruct (schema_version c) as [| b | z | | |]; simpl; try done.
      - by destruct b.
      - apply Z.eqb_neq. congruence. }
    rewrite Hne. simpl. eexists. reflexivity.
  - intros t ca o lc ts ids Ht Hca Ho Hlc Htg Hids Hsv Hrt Hrc Hlne Hlv
           Hnd Hvt Hndi.
    unfold validate. rewrite Ht, Hca, Ho, Hlc, Htg, Hsv. simpl.
    rewrite Hrt, Hrc. simpl.
    rewrite (proj2 (String.eqb_neq lc "") Hlne), Hlv. simpl.
    unfold py_set.
    destruct (set_add_all_full ts [] Hnd) as (s & Hs & Hlen); [intros x _ []|].
    rewrite Hs. simpl. rewrite length_map.
    simpl in Hlen. rewrite Hlen, Nat.ltb_irrefl. simpl.
    rewrite (for_each_validate_tag_ok _ Hvt). simpl.
    rewrite Hids.
    destruct (set_add_all_full ids [] Hndi) as (s' & Hs' & Hlen');
      [intros x _ []|].
    rewrite Hs'. simpl. rewrite length_map.
    simpl in Hlen'. rewrite Hlen', Nat.eqb_refl. simpl.
    by rewrite (for_each_node_validate_ok _ _ Hids).
Qed.
End Validation.


(** C5 on the sample collection: non-strict validation passes. *)
Lemma validate_rejects_and_accepts_witness :
  @validate string sample_utils sample_constants sample_collection false
  = Ok tt.
Proof.
  refine (proj2 (proj2 (@validate_rejects_and_accepts string sample_utils
                          sample_constants sample_collection))
                "Title" "Category" "Objective" "en" ["algebra"]
                ["test_exp"; "another_exp"]
                eq_refl eq_refl eq_refl eq_refl eq_refl eq_refl eq_refl
                eq_refl eq_refl _ eq_refl _ eq_refl _).
  - discriminate.
  - repeat constructor. intros [].
  - repeat constructor.
    + intros [H|[]]. discriminate H.
    + intros [].
Defined.

(** ** Feature flags *)

Section FeatureFlags.
Import PlatformFeatureServices.
Context {param context : Type} {platform : PlatformModules param context}.

Lemma evaluate_each_ok (l : list string) (ctx : context)
  (acc : gmap string bool) :
  (forall name, name ∈ l -> is_ok (get_platform_parameter name) = true) ->
  exists r, evaluate_each l ctx acc = Ok r
    /\ dom r = list_to_set l ∪ dom acc
    /\ (forall name, name ∈ l ->
          exists p, get_platform_parameter name = Ok p
                    /\ r !! name = Some (evaluate p ctx))
    /\ (forall name, name ∉ l -> r !! name = acc !! name).
Proof.
  revert acc. induction l as [|x l IH]; intros acc Hreg; simpl.
  - exists acc. repeat split; [set_solver | intros n Hn; by inversion Hn].
  - destruct (get_platform_parameter x) as [p|e] eqn:Ep.
    2:{ specialize (Hreg x ltac:(left)). by rewrite Ep in Hreg. }
    simpl.
    destruct (IH (<[x := evaluate p ctx]> acc)) as (r & Hr & Hdom & Hin & Hout).
    { intros n Hn. apply Hreg. by right. }
    exists r. split; [exact Hr|]. split; [|split].
    + rewrite Hdom, dom_insert_L. set_solver.
    + intros n Hn. destruct (decide (n ∈ l)) as [Hl|Hl]; [by apply Hin|].
      apply elem_of_cons in Hn as [->|Hn]; [|done].
      exists p. split; [done|]. rewrite (Hout x Hl). apply lookup_insert_eq.
    + intros n Hn. apply not_elem_of_cons in Hn as [Hne Hn].
      rewrite (Hout n Hn). by apply lookup_insert_ne.
Qed.

(** C3: provided the registry holds a parameter for every name of
    [ALL_FEATURES_NAMES_SET], [_evaluate_feature_flag_values_for_context]
    raises [FeatureFlagNotFoundException] if and only if the requested set
    has a name outside [ALL_FEATURES_NAMES_SET]; when it has none, the call
    returns a dict whose key set is the requested set and whose value at
    each name is the evaluation of the registered parameter in the
    context. *)
Theorem evaluate_feature_flag_values_unknown_or_all
  (feature_names_set : gset string) (ctx : context) :
  (forall name, name ∈ ALL_FEATURES_NAMES_SET ->
     is_ok (get_platform_parameter name) = true) ->
  ((exists names,
      _evaluate_feature_flag_values_for_context feature_names_set ctx
      = Raise (FeatureFlagNotFoundException names))
   <-> exists name, name ∈ feature_names_set /\ name ∉ ALL_FEATURES_NAMES_SET)
  /\ ((forall name, name ∈ feature_names_set -> name ∈ ALL_FEATURES_NAMES_SET) ->
      exists result_dict,
        _evaluate_feature_flag_values_for_context feature_names_set ctx
        = Ok result_dict
        /\ dom result_dict = feature_names_set
        /\ forall name, name ∈ feature_names_set ->
             exists p, get_platform_parameter name = Ok p
                       /\ result_dict !! name = Some (evaluate p ctx)).
Proof.
  intros Hreg.
  assert (Hknown :
    (forall name, name ∈ feature_names_set -> name ∈ ALL_FEATURES_NAMES_SET) ->
    exists result_dict,
      _evaluate_feature_flag_values_for_context feature_names_set ctx
      = Ok result_dict
      /\ dom result_dict = feature_names_set
      /\ forall name, name ∈ feature_names_set ->
           exists p, get_platform_parameter name = Ok p
                     /\ result_dict !! name = Some (evaluate p ctx)).
  { intros Hall. unfold _evaluate_feature_flag_values_for_context.
    assert (Hempty : feature_names_set ∖ ALL_FEATURES_NAMES_SET = ∅)
      by set_solver.
    rewrite Hempty, elements_empty. simpl.
    destruct (evaluate_each_ok (elements feature_names_set) ctx ∅)
      as (r & Hr & Hdom & Hin & _).
    { intros n Hn. apply Hreg, Hall. set_solver. }
    exists r. split; [exact Hr|]. split.
    - rewrite Hdom, list_to_set_elements_L. set_solver.
    - intros n Hn. apply Hin. set_solver. }
  split; [|exact Hknown].
  split.
  - intros [names Hraise].
    destruct (elements (feature_names_set ∖ ALL_FEATURES_NAMES_SET))
      as [|u us] eqn:Eu.
    + apply elements_empty_inv in Eu.
      destruct Hknown as (r & Hr & _).
      { intros n Hn.
        destruct (decide (n ∈ ALL_FEATURES_NAMES_SET)) as [|Hn']; [done|].
        exfalso. apply (not_elem_of_empty (C := gset string) n).
        rewrite <- Eu. by apply elem_of_difference. }
      rewrite Hr in Hraise. discriminate Hraise.
    + assert (Hu : u ∈ feature_names_set ∖ ALL_FEATURES_NAMES_SET).
      { apply elem_of_elements. rewrite Eu. by left. }
      exists u. set_solver.
  - intros (n & Hn & Hn').
    unfold _evaluate_feature_flag_values_for_context.
    destruct (elements (feature_names_set ∖ ALL_FEATURES_NAMES_SET))
      as [|u us] eqn:Eu.
    + apply elements_empty_inv in Eu. set_solver.
    + simpl. eauto.
Qed.
End FeatureFlags.

(** C3 on a registry of two features: the flag of [dummy_feature] alone is
    evaluated, and it is off. *)
Lemma evaluate_feature_flag_values_unknown_or_all_witness :
  exists result_dict,
    @PlatformFeatureServices._evaluate_feature_flag_values_for_context
      bool unit sample_platform {["dummy_feature"]} tt = Ok result_dict
    /\ dom result_dict = {["dummy_feature"]}
    /\ result_dict !! "dummy_feature" = Some false.
Proof.
  assert (Hreg : forall name,
    name ∈ @PlatformFeatureServices.ALL_FEATURES_NAMES_SET bool unit
             sample_platform ->
    is_ok (@PlatformFeatureServices.get_platform_parameter bool unit
             sample_platform name) = true).
  { intros name Hname.
    unfold PlatformFeatureServices.ALL_FEATURES_NAMES_SET,
      PlatformFeatureServices.ALL_FEATURES_LIST in Hname.
    apply elem_of_list_to_set in Hname. simpl in Hname.
    apply elem_of_cons in Hname as [->|Hname]; [reflexivity|].
    apply elem_of_cons in Hname as [->|Hname]; [reflexivity|].
    by apply elem_of_nil in Hname. }
  destruct (proj2 (@evaluate_feature_flag_values_unknown_or_all bool unit
                     sample_platform {["dummy_feature"]} tt Hreg))
    as (r & Hr & Hdom & Hval).
  { intros name Hname. apply elem_of_singleton in Hname as ->.
    unfold PlatformFeatureServices.ALL_FEATURES_NAMES_SET,
      PlatformFeatureServices.ALL_FEATURES_LIST.
    apply elem_of_list_to_set. simpl. by left. }
  exists r. split; [exact Hr|]. split; [exact Hdom|].
  destruct (Hval "dummy_feature") as (p & Hp & Hrp).
  { by apply elem_of_singleton. }
  injection Hp as <-. exact Hrp.
Defined.

(** * Further properties *)

(** ** Walking through the nodes *)

Section NodeList.
Context {datetime : Type}.
Implicit Types (c : Collection datetime) (e : pyval)
  (ns : list CollectionNode).

(** X1: [first_exploration_id] is what [get_next_exploration_id] returns
    for a learner who has completed nothing. *)
Theorem first_exploration_id_is_next_of_nothing c :
  first_exploration_id c = get_next_exploration_id c [].
Proof.
  unfold first_exploration_id, get_next_exploration_id, exploration_ids.
  by destruct (nodes c).
Qed.

Lemma next_in_sequence_some ns cur x :
  next_in_sequence ns cur = Some x ->
  exists pre n m post,
    ns = (pre ++ n :: m :: post)%list
    /\ py_eqb (exploration_id n) cur = true
    /\ x = exploration_id m
    /\ Forall (fun y => py_eqb (exploration_id y) cur = false) pre.
Proof.
  induction ns as [|n ns IH]; simpl; [done|].
  destruct ns as [|m rest]; [done|].
  destruct (py_eqb (exploration_id n) cur) eqn:E.
  - intros [= <-]. exists [], n, m, rest. repeat split; [done | constructor].
  - intros Hx. destruct (IH Hx) as (pre & n' & m' & post & -> & Hn & -> & Hpre).
    exists (n :: pre), n', m', post. simpl. repeat split; [done|].
    by constructor.
Qed.

Lemma next_in_sequence_none ns cur :
  next_in_sequence ns cur = None ->
  Forall (fun y => py_eqb (exploration_id y) cur = false) (removelast ns).
Proof.
  induction ns as [|n ns IH]; simpl; [constructor|].
  destruct ns as [|m rest]; [constructor|].
  destruct (py_eqb (exploration_id n) cur) eqn:E; [done|].
  intros Hx. constructor; [done | by apply IH].
Qed.

(** X2: when [get_next_exploration_id_in_sequence] returns an id, it is the
    id of the node right after the first node whose id equals the given one;
    when it returns [None], no node but possibly the last one has that
    id. *)
Theorem get_next_exploration_id_in_sequence_follows_first_match c cur :
  match get_next_exploration_id_in_sequence c cur with
  | Some x =>
      exists pre n m post,
        nodes c = (pre ++ n :: m :: post)%list
        /\ py_eqb (exploration_id n) cur = true
        /\ x = exploration_id m
        /\ Forall (fun y => py_eqb (exploration_id y) cur = false) pre
  | None =>
      Forall (fun y => py_eqb (exploration_id y) cur = false)
             (removelast (nodes c))
  end.
Proof.
  unfold get_next_exploration_id_in_sequence.
  destruct (next_in_sequence _ _) eqn:E.
  - by apply next_in_sequence_some.
  - by apply next_in_sequence_none.
Qed.

Lemma py_in_map_PStr x (l : list string) :
  py_in (PStr x) (map PStr l) = true <-> In x l.
Proof.
  unfold py_in. rewrite existsb_exists. split.
  - intros (y & Hy & E). apply in_map_iff in Hy as (z & <- & Hz).
    simpl in E. apply String.eqb_eq in E. by subst.
  - intros Hx. exists (PStr x). split; [by apply in_map|].
    simpl. apply String.eqb_refl.
Qed.

Lemma next_in_sequence_strings ns (strs : list string) i x :
  map exploration_id ns = map PStr strs ->
  List.NoDup strs ->
  strs !! i = Some x ->
  next_in_sequence ns (PStr x) = PStr <$> strs !! S i.
Proof.
  revert strs i. induction ns as [|n ns IH]; intros [|s strs] i; simpl;
    try done.
  intros [= Hn Hrest] Hnd Hi. inversion Hnd as [|? ? Hs Hnd']; subst.
  destruct ns as [|m rest].
  - destruct strs; [|done]. destruct i; simpl in *; [done|].
    by destruct i.
  - destruct strs as [|s' strs]; [done|].
    rewrite Hn. simpl. destruct i as [|i]; simpl in Hi.
    + injection Hi as ->. rewrite String.eqb_refl. simpl.
      simpl in Hrest. by injection Hrest as -> _.
    + destruct (String.eqb_spec s x) as [->|Hne].
      * exfalso. apply Hs. apply list_elem_of_In.
        by eapply list_elem_of_lookup_2.
      * by apply (IH (s' :: strs) i).
Qed.

Lemma first_not_in_prefix (strs : list string) i :
  List.NoDup strs ->
  first_not_in (map PStr strs) (map PStr (take i strs))
  = PStr <$> strs !! i.
Proof.
  intros Hnd.
  assert (G : forall seen rest k,
    List.NoDup (seen ++ rest)%list ->
    first_not_in (map PStr rest) (map PStr (seen ++ take k rest)%list)
    = PStr <$> rest !! k).
  { intros seen rest. revert seen.
    induction rest as [|s rest IH]; intros seen k Hn; simpl.
    - by destruct k.
    - destruct k as [|k]; simpl.
      + rewrite app_nil_r.
        destruct (py_in (PStr s) (map PStr seen)) eqn:E; [|done].
        apply py_in_map_PStr in E. exfalso.
        apply (NoDup_remove_2 _ _ _ Hn), in_app_iff. by left.
      + assert (E : py_in (PStr s) (map PStr (seen ++ s :: take k rest)) = true).
        { apply py_in_map_PStr, in_app_iff. right. by left. }
        rewrite E. simpl.
        replace (seen ++ s :: take k rest)%list
          with ((seen ++ [s]) ++ take k rest)%list
          by (by rewrite <- app_assoc).
        apply IH. by rewrite <- app_assoc. }
  apply (G [] strs i Hnd).
Qed.

(** X3: in a collection whose exploration ids are distinct strings, the
    exploration after the one at position [i] is the one at position [i + 1]
    ([None] at the end), and it is also what [get_next_exploration_id]
    returns once the first [i + 1] explorations are completed. *)
Theorem next_in_sequence_is_next_after_prefix c (strs : list string) i x :
  exploration_ids c = map PStr strs ->
  List.NoDup strs ->
  strs !! i = Some x ->
  get_next_exploration_id_in_sequence c (PStr x)
  = get_next_exploration_id c (map PStr (take (S i) strs))
  /\ get_next_exploration_id_in_sequence c (PStr x) = PStr <$> strs !! S i.
Proof.
  intros Hids Hnd Hi.
  unfold get_next_exploration_id_in_sequence, get_next_exploration_id.
  rewrite Hids, first_not_in_prefix by done.
  split; by eapply next_in_sequence_strings.
Qed.
End NodeList.

(** X3 on the sample collection, from its first exploration. *)
Lemma next_in_sequence_is_next_after_prefix_witness :
  get_next_exploration_id_in_sequence sample_collection (PStr "test_exp")
  = get_next_exploration_id sample_collection [PStr "test_exp"]
  /\ get_next_exploration_id_in_sequence sample_collection (PStr "test_exp")
     = Some (PStr "another_exp").
Proof.
  refine (next_in_sequence_is_next_after_prefix sample_collection
            ["test_exp"; "another_exp"] 0%nat "test_exp" eq_refl _ eq_refl).
  repeat constructor.
  - intros [H|[]]. discriminate H.
  - intros [].
Defined.

(** ** Finding, adding and deleting nodes *)

Section AddDelete.
Context {datetime : Type}.
Implicit Types (c : Collection datetime) (e : pyval)
  (ns : list CollectionNode).

Lemma set_nodes_same c : set_nodes c (nodes c) = c.
Proof. by destruct c. Qed.

Lemma set_nodes_twice c ns ns' : set_nodes (set_nodes c ns) ns' = set_nodes c ns'.
Proof. reflexivity. Qed.

Lemma find_node_from_spec ns e k :
  match find_node_from k ns e with
  | Some i =>
      exists j n, i = (k + j)%nat /\ ns !! j = Some n
        /\ get_node_in ns e = Some n
        /\ py_eqb (exploration_id n) e = true
        /\ Forall (fun y => py_eqb (exploration_id y) e = false) (take j ns)
  | None =>
      get_node_in ns e = None
      /\ Forall (fun y => py_eqb (exploration_id y) e = false) ns
  end.
Proof.
  revert k. induction ns as [|n ns IH]; intros k; simpl.
  - split; [done | constructor].
  - destruct (py_eqb (exploration_id n) e) eqn:E.
    + exists 0%nat, n. repeat split; [lia | done | constructor].
    + specialize (IH (S k)). destruct (find_node_from (S k) ns e) as [i|].
      * destruct IH as (j & m & -> & Hj & Hg & Hm & Hpre).
        exists (S j), m. repeat split; [lia | done | done | done |].
        simpl. by constructor.
      * destruct IH as [Hg Hall]. split; [done | by constructor].
Qed.

Lemma find_node_get_node c e :
  match _find_node c e with
  | Some i =>
      exists n, nodes c !! i = Some n /\ get_node c e = Some n
                /\ py_eqb (exploration_id n) e = true
                /\ Forall (fun y => py_eqb (exploration_id y) e = false)
                          (take i (nodes c))
  | None =>
      get_node c e = None
      /\ Forall (fun y => py_eqb (exploration_id y) e = false) (nodes c)
  end.
Proof.
  unfold _find_node, get_node.
  pose proof (find_node_from_spec (nodes c) e 0) as H.
  destruct (find_node_from 0 (nodes c) e) as [i|]; [|done].
  destruct H as (j & n & -> & H). exists n. exact H.
Qed.

(** X4: [get_node] returns the node at the index [_find_node] returns, and
    [None] when that is [None]; the index is that of the first node with the
    given id, and it is [None] exactly when no node has it. *)
Theorem find_node_agrees_with_get_node c e :
  get_node c e
  = match _find_node c e with Some i => nodes c !! i | None => None end
  /\ (forall i, _find_node c e = Some i ->
        (exists n, nodes c !! i = Some n
                   /\ py_eqb (exploration_id n) e = true)
        /\ Forall (fun y => py_eqb (exploration_id y) e = false)
                  (take i (nodes c)))
  /\ (_find_node c e = None <->
      Forall (fun y => py_eqb (exploration_id y) e = false) (nodes c)).
Proof.
  pose proof (find_node_get_node c e) as H.
  destruct (_find_node c e) as [i|].
  - destruct H as (n & Hn & Hg & He & Hpre). split; [by rewrite Hg, Hn|].
    split.
    + intros i' [= <-]. split; [by exists n | done].
    + split; [done|]. intros Hall.
      rewrite List.Forall_forall in Hall.
      apply list_elem_of_lookup_2, list_elem_of_In, Hall in Hn. congruence.
  - destruct H as [Hg Hall]. split; [done|]. split; [done|]. by split.
Qed.

(** X5: for any collection and id, exactly one of [add_node] and
    [delete_node] raises; the one that raises leaves the collection as it
    was. *)
Theorem add_node_fails_exactly_when_delete_node_succeeds c e :
  ((add_node c e).2 = None <-> (delete_node c e).2 <> None)
  /\ ((add_node c e).2 <> None -> (add_node c e).1 = c)
  /\ ((delete_node c e).2 <> None -> (delete_node c e).1 = c).
Proof.
  unfold add_node, delete_node.
  pose proof (find_node_get_node c e) as H.
  destruct (_find_node c e) as [i|].
  - destruct H as (n & _ & -> & _). simpl. repeat split; done.
  - destruct H as [-> _]. simpl. repeat split; done.
Qed.

Lemma find_node_from_app_miss ns e x k :
  Forall (fun y => py_eqb (exploration_id y) e = false) ns ->
  py_eqb (exploration_id x) e = true ->
  find_node_from k (ns ++ [x]) e = Some (k + length ns)%nat.
Proof.
  intros Hall Hx. revert k.
  induction Hall as [|n ns Hn _ IH]; intros k; simpl.
  - rewrite Hx. f_equal. lia.
  - rewrite Hn, IH. f_equal. lia.
Qed.

(** X6: [add_node] appends the default node of the exploration, [get_node]
    then finds it, and a [delete_node] of the same id gives the original
    collection back. *)
Theorem add_node_then_delete_node_restores c e c' :
  hashable e = true ->
  add_node c e = (c', None) ->
  delete_node c' e = (c, None)
  /\ nodes c' = (nodes c ++ [mkCollectionNode e])%list
  /\ get_node c' e = Some (mkCollectionNode e).
Proof.
  intros He. unfold add_node, CollectionNodeM.create_default_node.
  pose proof (find_node_get_node c e) as H.
  destruct (get_node c e) as [n|] eqn:Eg; [done|].
  intros [= <-].
  destruct (_find_node c e) as [i|]; [by destruct H as (n & _ & ? & _)|].
  destruct H as [_ Hall].
  assert (Hf : _find_node (set_nodes c (nodes c ++ [mkCollectionNode e])) e
               = Some (length (nodes c))).
  { unfold _find_node. simpl.
    apply (find_node_from_app_miss _ _ _ 0 Hall).
    by apply py_eqb_refl_hashable. }
  split; [|split; [done|]].
  - assert (Hl : delete (length (nodes c))
                   (nodes c ++ [mkCollectionNode e])%list = nodes c).
    { rewrite delete_take_drop, take_app_length.
      rewrite drop_ge by (rewrite length_app; simpl; lia).
      by rewrite app_nil_r. }
    unfold delete_node. rewrite Hf. simpl. rewrite Hl. by destruct c.
  - pose proof (find_node_get_node
                  (set_nodes c (nodes c ++ [mkCollectionNode e])) e) as H'.
    rewrite Hf in H'. destruct H' as (n & Hn & -> & _).
    simpl in Hn. rewrite lookup_app_r in Hn by lia.
    rewrite Nat.sub_diag in Hn. simpl in Hn. by injection Hn as <-.
Qed.

Lemma exploration_ids_fmap c : exploration_ids c = exploration_id <$> nodes c.
Proof. reflexivity. Qed.

Lemma miss_not_in ns e :
  hashable e = true ->
  Forall (fun y => py_eqb (exploration_id y) e = false) ns ->
  ~ In e (map exploration_id ns).
Proof.
  intros He Hall Hin. apply in_map_iff in Hin as (n & Hn & Hin).
  rewrite List.Forall_forall in Hall. specialize (Hall n Hin).
  rewrite Hn, py_eqb_refl_hashable in Hall; done.
Qed.

(** X7: [add_node] keeps the exploration ids free of duplicates, and the
    new id comes last. *)
Theorem add_node_keeps_exploration_ids_distinct c e c' :
  hashable e = true ->
  List.NoDup (exploration_ids c) ->
  add_node c e = (c', None) ->
  List.NoDup (exploration_ids c')
  /\ exploration_ids c' = (exploration_ids c ++ [e])%list.
Proof.
  intros He Hnd. unfold add_node, CollectionNodeM.create_default_node.
  pose proof (find_node_get_node c e) as H.
  destruct (get_node c e) as [n|] eqn:Eg; [done|].
  intros [= <-].
  destruct (_find_node c e) as [i|]; [by destruct H as (n & _ & ? & _)|].
  destruct H as [_ Hall].
  assert (Hids : exploration_ids
                   (set_nodes c (nodes c ++ [mkCollectionNode e]))
                 = (exploration_ids c ++ [e])%list).
  { unfold exploration_ids. simpl. by rewrite map_app. }
  split; [|exact Hids]. rewrite Hids.
  apply NoDup_ListNoDup, NoDup_app. split; [by apply NoDup_ListNoDup|].
  split; [|apply NoDup_singleton].
  intros x Hx Hx'. apply list_elem_of_singleton in Hx' as ->.
  apply (miss_not_in (nodes c) e He Hall). by apply list_elem_of_In.
Qed.

Lemma strings_py_eqb_false (ids : list pyval) x y :
  forallb is_basestring ids = true ->
  In x ids -> In y ids -> x <> y -> py_eqb x y = false.
Proof.
  intros Hs Hx Hy Hne. rewrite forallb_forall in Hs.
  pose proof (Hs x Hx) as Sx. pose proof (Hs y Hy) as Sy.
  destruct x, y; try done. simpl. apply String.eqb_neq. congruence.
Qed.

(** X8: in a collection whose exploration ids are distinct strings,
    [delete_node] removes one node, after which the id is no longer found,
    the ids are still distinct, and the exploration can be added again. *)
Theorem delete_node_removes_the_exploration c e c' :
  forallb is_basestring (exploration_ids c) = true ->
  List.NoDup (exploration_ids c) ->
  delete_node c e = (c', None) ->
  get_node c' e = None
  /\ List.NoDup (exploration_ids c')
  /\ S (length (nodes c')) = length (nodes c)
  /\ (add_node c' e).2 = None.
Proof.
  intros Hs Hnd. unfold delete_node.
  pose proof (find_node_get_node c e) as H.
  destruct (_find_node c e) as [i|]; [|done].
  destruct H as (n & Hi & _ & Hn & _). intros [= <-].
  assert (Hlt : (i < length (nodes c))%nat) by by eapply lookup_lt_Some.
  assert (Hnd' : NoDup (exploration_id <$> nodes c))
    by by apply NoDup_ListNoDup.
  assert (Hmiss : Forall (fun y => py_eqb (exploration_id y) e = false)
                         (delete i (nodes c))).
  { apply Forall_lookup. intros j m Hj.
    assert (Hm : exists j', j' <> i /\ nodes c !! j' = Some m).
    { destruct (decide (j < i)%nat).
      - exists j. rewrite list_lookup_delete_lt in Hj by done.
        split; [lia | done].
      - exists (S j). rewrite list_lookup_delete_ge in Hj by lia.
        split; [lia | done]. }
    destruct Hm as (j' & Hne & Hj').
    assert (Hdiff : exploration_id m <> exploration_id n).
    { intros Heq. apply Hne.
      eapply (NoDup_lookup _ j' i _ Hnd').
      - rewrite list_lookup_fmap, Hj'. reflexivity.
      - rewrite list_lookup_fmap, Hi. simpl. by rewrite Heq. }
    assert (Hmn : py_eqb (exploration_id m) (exploration_id n) = false).
    { apply (strings_py_eqb_false (exploration_ids c)); [done| | |done].
      - apply in_map, list_elem_of_In. by eapply list_elem_of_lookup_2.
      - apply in_map, list_elem_of_In. by eapply list_elem_of_lookup_2. }
    assert (Sn : is_basestring (exploration_id n) = true).
    { rewrite forallb_forall in Hs. apply Hs.
      apply in_map, list_elem_of_In. by eapply list_elem_of_lookup_2. }
    assert (Sm : is_basestring (exploration_id m) = true).
    { rewrite forallb_forall in Hs. apply Hs.
      apply in_map, list_elem_of_In. by eapply list_elem_of_lookup_2. }
    destruct (exploration_id n) as [| | |sn| |]; try done.
    destruct (exploration_id m) as [| | |sm| |]; try done.
    destruct e; simpl in *; try done.
    apply String.eqb_eq in Hn as <-. done. }
  assert (Hget : get_node (set_nodes c (delete i (nodes c))) e = None).
  { unfold get_node. simpl.
    clear -Hmiss. induction Hmiss as [|m l Hm _ IH]; simpl; [done|].
    by rewrite Hm. }
  split; [exact Hget|]. split; [|split].
  - apply NoDup_ListNoDup. rewrite exploration_ids_fmap. simpl.
    rewrite list_fmap_delete.
    eapply sublist_NoDup; [exact Hnd' | apply sublist_delete].
  - simpl. rewrite length_delete by (by eexists). lia.
  - unfold add_node. by rewrite Hget.
Qed.
End AddDelete.

(** X6 on the sample collection and a new exploration. *)
Lemma add_node_then_delete_node_restores_witness :
  delete_node (add_node sample_collection (PStr "new_exp")).1 (PStr "new_exp")
  = (sample_collection, None)
  /\ nodes (add_node sample_collection (PStr "new_exp")).1
     = (nodes sample_collection ++ [mkCollectionNode (PStr "new_exp")])%list
  /\ get_node (add_node sample_collection (PStr "new_exp")).1 (PStr "new_exp")
     = Some (mkCollectionNode (PStr "new_exp")).
Proof.
  exact (add_node_then_delete_node_restores sample_collection
           (PStr "new_exp") _ eq_refl eq_refl).
Defined.

(** X7 on the sample collection and a new exploration. *)
Lemma add_node_keeps_exploration_ids_distinct_witness :
  List.NoDup
    (exploration_ids (add_node sample_collection (PStr "new_exp")).1)
  /\ exploration_ids (add_node sample_collection (PStr "new_exp")).1
     = [PStr "test_exp"; PStr "another_exp"; PStr "new_exp"].
Proof.
  refine (add_node_keeps_exploration_ids_distinct sample_collection
            (PStr "new_exp") _ eq_refl _ eq_refl).
  repeat constructor.
  - intros [H|[]]. discriminate H.
  - intros [].
Defined.

(** X8 on the sample collection and its first exploration. *)
Lemma delete_node_removes_the_exploration_witness :
  get_node (delete_node sample_collection (PStr "test_exp")).1
           (PStr "test_exp") = None
  /\ List.NoDup
       (exploration_ids (delete_node sample_collection (PStr "test_exp")).1)
  /\ S (length (nodes (delete_node sample_collection (PStr "test_exp")).1))
     = length (nodes sample_collection)
  /\ (add_node (delete_node sample_collection (PStr "test_exp")).1
               (PStr "test_exp")).2 = None.
Proof.
  refine (delete_node_removes_the_exploration sample_collection
            (PStr "test_exp") _ eq_refl _ eq_refl).
  repeat constructor.
  - intros [H|[]]. discriminate H.
  - intros [].
Defined.

(** ** Swapping twice *)

Section SwapTwice.
Context {datetime : Type}.
Implicit Types (c : Collection datetime).

Lemma swap_nodes_result c i j a b t s :
  i <> j ->
  py_index (length (nodes c)) i = Some a ->
  py_index (length (nodes c)) j = Some b ->
  nodes c !! a = Some t -> nodes c !! b = Some s ->
  swap_nodes c i j = (set_nodes c (<[b := t]> (<[a := s]> (nodes c))), None).
Proof.
  intros Hne Ha Hb Ht Hs. unfold swap_nodes, list_getitem, list_setitem.
  rewrite (proj2 (Z.eqb_neq i j) Hne), Ha, Hb, Ht, Hs.
  by rewrite length_insert, Hb.
Qed.

Lemma swapped_lookup {A} (l : list A) a b t s k :
  l !! a = Some t -> l !! b = Some s ->
  <[b := t]> (<[a := s]> l) !! k
  = if decide (k = b) then Some t
    else if decide (k = a) then Some s else l !! k.
Proof.
  intros Ht Hs.
  assert (a < length l)%nat by by eapply lookup_lt_Some.
  assert (b < length l)%nat by by eapply lookup_lt_Some.
  destruct (decide (k = b)) as [->|Hkb].
  - apply list_lookup_insert_eq. by rewrite length_insert.
  - rewrite list_lookup_insert_ne by done.
    destruct (decide (k = a)) as [->|Hka].
    + by apply list_lookup_insert_eq.
    + by rewrite list_lookup_insert_ne.
Qed.

(** X9: for two different valid indices, [swap_nodes] succeeds, the nodes
    after it are a permutation of the nodes before, and swapping the same
    indices again restores the collection. *)
Theorem swap_nodes_twice_restores c i j a b :
  i <> j ->
  py_index (length (nodes c)) i = Some a ->
  py_index (length (nodes c)) j = Some b ->
  exists c',
    swap_nodes c i j = (c', None)
    /\ swap_nodes c' i j = (c, None)
    /\ nodes c ≡ₚ nodes c'.
Proof.
  intros Hne Ha Hb.
  destruct (list_getitem_at _ _ _ Ha) as (t & Ht & _).
  destruct (list_getitem_at _ _ _ Hb) as (s & Hs & _).
  set (l' := <[b := t]> (<[a := s]> (nodes c))).
  assert (Hlen : length l' = length (nodes c))
    by (unfold l'; by rewrite !length_insert).
  assert (Hl' : forall k, l' !! k
            = if decide (k = b) then Some t
              else if decide (k = a) then Some s else nodes c !! k)
    by (intros k; by apply swapped_lookup).
  exists (set_nodes c l'). split; [by apply swap_nodes_result|]. split.
  - erewrite (swap_nodes_result (set_nodes c l') i j a b); try done.
    + instantiate (1 := t). instantiate (1 := if decide (a = b) then t else s).
      simpl. f_equal.
      replace (<[b := if decide (a = b) then t else s]> (<[a := t]> l'))
        with (nodes c); [by destruct c|].
      apply list_eq. intros k.
      assert (Ha' : l' !! a = Some (if decide (a = b) then t else s)).
      { rewrite Hl'. destruct (decide (a = b)); [done|].
        by rewrite decide_True. }
      assert (Hb' : l' !! b = Some t) by (rewrite Hl'; by rewrite decide_True).
      rewrite (swapped_lookup l' a b _ _ k Ha' Hb').
      destruct (decide (k = b)) as [->|Hkb].
      * destruct (decide (a = b)) as [->|]; [exact Ht | exact Hs].
      * destruct (decide (k = a)) as [->|]; [done|].
        rewrite Hl'. by rewrite !decide_False.
    + simpl. by rewrite Hlen.
    + simpl. by rewrite Hlen.
    + simpl. rewrite Hl'. destruct (decide (a = b)); [done|].
      by rewrite decide_True.
    + simpl. rewrite Hl'. by rewrite decide_True.
  - simpl. apply Permutation_inj. split; [done|].
    exists (fun k => if decide (k = a) then b
                     else if decide (k = b) then a else k).
    split.
    + intros x y. repeat case_decide; lia.
    + intros k. rewrite Hl'.
      destruct (decide (k = a)) as [->|Hka].
      * by rewrite decide_True.
      * destruct (decide (k = b)) as [->|Hkb].
        -- destruct (decide (a = b)); [lia|]. by rewrite decide_True.
        -- by rewrite !decide_False.
Qed.
End SwapTwice.

(** X9 on the sample collection, with the indices 0 and -1. *)
Lemma swap_nodes_twice_restores_witness :
  exists c',
    swap_nodes sample_collection 0 (-1) = (c', None)
    /\ swap_nodes c' 0 (-1) = (sample_collection, None)
    /\ nodes sample_collection ≡ₚ nodes c'.
Proof.
  exact (swap_nodes_twice_restores sample_collection 0 (-1) 0%nat 1%nat
           ltac:(lia) eq_refl eq_refl).
Defined.

(** ** Collections and their dicts *)

Section DictRoundTrip.
Context {datetime : Type} {utils : UtilsModule datetime}
        {consts : ConstantsModule} {pyutils : PythonUtilsModule}.
Implicit Types (c : Collection datetime) (d : pydict).

(** X10: [from_dict] on the dict of [to_dict] never raises; the collection
    it builds has the same dict and nodes, and the version and dates passed
    to [from_dict]. *)
Theorem from_dict_to_dict_round_trip c (v : pyval)
  (co lu : option datetime) :
  exists c',
    from_dict (PDict (to_dict c)) v co lu = Ok c'
    /\ to_dict c' = to_dict c
    /\ nodes c' = nodes c
    /\ version c' = v /\ created_on c' = co /\ last_updated c' = lu.
Proof.
  destruct c as [i t ca o lc tg sv ns ver cr lup].
  unfold from_dict, to_dict. simpl.
  rewrite node_from_dict_to_dict. simpl.
  eexists. split; [reflexivity|]. simpl. repeat split.
Qed.

Lemma node_from_dict_ids (l : list pyval) :
  map_result CollectionNodeM.from_dict l
  = match map_result (fun n => getitem n "exploration_id") l with
    | Ok ids => Ok (map mkCollectionNode ids)
    | Raise e => Raise e
    end.
Proof.
  induction l as [|n l IH]; [reflexivity|].
  cbn [map_result]. rewrite IH.
  unfold CollectionNodeM.from_dict.
  destruct (getitem n "exploration_id") as [e|e]; [|reflexivity].
  by destruct (map_result (fun n0 => getitem n0 "exploration_id") l).
Qed.

(** X11: [from_dict] succeeds on every dict that has the eight keys and
    whose nodes all have an 'exploration_id'; each attribute of the
    collection is the dict's value under its key, the version and dates are
    the arguments. *)
Theorem from_dict_reads_eight_keys d (v : pyval) (co lu : option datetime) :
  (forall k, In k ["id"; "title"; "category"; "objective"; "language_code";
                   "tags"; "schema_version"; "nodes"] ->
             dict_mem k d = true) ->
  forall ids, node_exploration_ids d = Ok ids ->
  exists c,
    from_dict (PDict d) v co lu = Ok c
    /\ exploration_ids c = ids
    /\ dict_get "id" d = Some (c_id c)
    /\ dict_get "title" d = Some (title c)
    /\ dict_get "category" d = Some (category c)
    /\ dict_get "objective" d = Some (objective c)
    /\ dict_get "language_code" d = Some (language_code c)
    /\ dict_get "tags" d = Some (tags c)
    /\ dict_get "schema_version" d = Some (schema_version c)
    /\ version c = v /\ created_on c = co /\ last_updated c = lu.
Proof.
  intros Hkeys ids Hids.
  assert (Hk : forall k, In k ["id"; "title"; "category"; "objective";
                               "language_code"; "tags"; "schema_version";
                               "nodes"] ->
                         exists x, dict_get k d = Some x).
  { intros k Hin. specialize (Hkeys k Hin). unfold dict_mem in Hkeys.
    destruct (dict_get k d); [eauto | done]. }
  destruct (Hk "id") as [x1 H1]; [simpl; tauto|].
  destruct (Hk "title") as [x2 H2]; [simpl; tauto|].
  destruct (Hk "category") as [x3 H3]; [simpl; tauto|].
  destruct (Hk "objective") as [x4 H4]; [simpl; tauto|].
  destruct (Hk "language_code") as [x5 H5]; [simpl; tauto|].
  destruct (Hk "tags") as [x6 H6]; [simpl; tauto|].
  destruct (Hk "schema_version") as [x7 H7]; [simpl; tauto|].
  destruct (Hk "nodes") as [x8 H8]; [simpl; tauto|].
  unfold node_exploration_ids, dict_getitem in Hids. rewrite H8 in Hids.
  simpl in Hids.
  destruct (py_iter x8) as [l|] eqn:El; [|done]. simpl in Hids.
  unfold from_dict, getitem, dict_getitem.
  rewrite H1, H2, H3, H4, H5, H6, H7, H8. simpl. rewrite El. simpl.
  rewrite node_from_dict_ids, Hids. simpl.
  eexists. split; [reflexivity|]. simpl.
  unfold exploration_ids. simpl. rewrite map_map. simpl.
  rewrite map_id. repeat split.
Qed.

(** X12: when one of the eight keys is absent, [from_dict] raises
    [KeyError] for a key the dict does not have. *)
Theorem from_dict_missing_key d (v : pyval) (co lu : option datetime) k :
  In k ["id"; "title"; "category"; "objective"; "language_code";
        "tags"; "schema_version"; "nodes"] ->
  dict_get k d = None ->
  exists k', from_dict (PDict d) v co lu = Raise (KeyError k')
             /\ dict_get k' d = None.
Proof.
  intros Hin Hk. unfold from_dict, getitem, dict_getitem.
  destruct (dict_get "id" d) eqn:E1; [simpl|by eexists].
  destruct (dict_get "title" d) eqn:E2; [simpl|by eexists].
  destruct (dict_get "category" d) eqn:E3; [simpl|by eexists].
  destruct (dict_get "objective" d) eqn:E4; [simpl|by eexists].
  destruct (dict_get "language_code" d) eqn:E5; [simpl|by eexists].
  destruct (dict_get "tags" d) eqn:E6; [simpl|by eexists].
  destruct (dict_get "schema_version" d) eqn:E7; [simpl|by eexists].
  destruct (dict_get "nodes" d) eqn:E8; [simpl|by eexists].
  exfalso. simpl in Hin.
  destruct Hin as [<-|[<-|[<-|[<-|[<-|[<-|[<-|[<-|[]]]]]]]]]; congruence.
Qed.
End DictRoundTrip.

(** X11 on the dict of the sample collection. *)
Lemma from_dict_reads_eight_keys_witness :
  exists c,
    @from_dict string (PDict (to_dict sample_collection)) (PInt 3) None None
    = Ok c
    /\ exploration_ids c = [PStr "test_exp"; PStr "another_exp"]
    /\ title c = PStr "Title"
    /\ version c = PInt 3.
Proof.
  destruct (@from_dict_reads_eight_keys string (to_dict sample_collection)
              (PInt 3) None None) with
    (ids := [PStr "test_exp"; PStr "another_exp"])
    as (c & H1 & H2 & _ & H4 & _ & _ & _ & _ & _ & H10 & _).
  - intros k Hk. simpl in Hk.
    repeat (destruct Hk as [<-|Hk]; [reflexivity|]). destruct Hk.
  - reflexivity.
  - exists c. repeat split; try assumption.
    simpl in H4. by injection H4 as <-.
Defined.

(** X12 on a dict that only has a schema version. *)
Lemma from_dict_missing_key_witness :
  exists k',
    @from_dict string (PDict yaml_only_version_5) (PInt 0) None None
    = Raise (KeyError k')
    /\ dict_get k' yaml_only_version_5 = None.
Proof.
  exact (@from_dict_missing_key string yaml_only_version_5 (PInt 0) None None
           "title" ltac:(simpl; tauto) eq_refl).
Defined.

(** ** Collections and YAML *)

Section Yaml.
Context {datetime : Type} {utils : UtilsModule datetime}
        {consts : ConstantsModule} {pyutils : PythonUtilsModule}.
Implicit Types (c : Collection datetime) (d : pydict).

Lemma migrate_current_is_identity yaml_content d :
  dict_from_yaml yaml_content = Ok d ->
  dict_get "schema_version" d
    = Some (PInt CURRENT_COLLECTION_SCHEMA_VERSION) ->
  _migrate_to_latest_yaml_version yaml_content = Ok d.
Proof.
  intros Hd Hv. rewrite (migrate_of_int _ _ _ Hd Hv). simpl.
  by rewrite migrate_loop_step.
Qed.

Lemma migrate_ok_version yaml_content d' :
  _migrate_to_latest_yaml_version yaml_content = Ok d' ->
  dict_get "schema_version" d'
  = Some (PInt CURRENT_COLLECTION_SCHEMA_VERSION).
Proof.
  unfold _migrate_to_latest_yaml_version.
  destruct (dict_from_yaml yaml_content) as [d|e] eqn:Ed.
  2:{ by destruct e. }
  destruct (dict_get "schema_version" d) as [sv|] eqn:Ev; [|done].
  destruct sv as [| b | v | | |]; try done;
    destruct (version_in_range _) eqn:Er; simpl; try done.
  unfold version_in_range in Er. simpl in Er.
  apply andb_true_iff in Er as [H1 H2].
  rewrite migrate_loop_is_chain.
  apply apply_conversions_version; [lia | done].
Qed.

(** X13: a YAML dict already at the current schema version is returned by
    [_migrate_to_latest_yaml_version] as it was read, and every dict that
    function returns is at the current schema version. *)
Theorem migrate_at_current_version_returns_the_dict yaml_content d :
  dict_from_yaml yaml_content = Ok d ->
  (dict_get "schema_version" d
     = Some (PInt CURRENT_COLLECTION_SCHEMA_VERSION) ->
   _migrate_to_latest_yaml_version yaml_content = Ok d)
  /\ (forall d', _migrate_to_latest_yaml_version yaml_content = Ok d' ->
        dict_get "schema_version" d'
        = Some (PInt CURRENT_COLLECTION_SCHEMA_VERSION)).
Proof.
  intros Hd. split.
  - by apply migrate_current_is_identity.
  - apply migrate_ok_version.
Qed.

(** X14: a collection built by [from_yaml] has the current schema version,
    the id passed in, version 0 and no dates. *)
Theorem from_yaml_yields_current_version (collection_id : pyval)
  yaml_content c :
  from_yaml collection_id yaml_content = Ok c ->
  schema_version c = PInt CURRENT_COLLECTION_SCHEMA_VERSION
  /\ c_id c = collection_id
  /\ version c = PInt 0 /\ created_on c = None /\ last_updated c = None.
Proof.
  unfold from_yaml.
  destruct (_migrate_to_latest_yaml_version yaml_content) as [d|e] eqn:Em;
    [|done].
  apply migrate_ok_version in Em. simpl.
  unfold from_dict, getitem, dict_getitem.
  rewrite dict_get_set_eq. simpl.
  intros H. bind_inv H; try done. injection H as <-. simpl.
  repeat split.
  match goal with
  | E : match dict_get "schema_version" _ with _ => _ end = Ok ?a |- ?a = _ =>
      rewrite dict_get_set_ne, Em in E by done; by injection E as <-
  end.
Qed.

(** X15: when the YAML reader gives back the dict the YAML writer was
    given, [from_yaml] of [to_yaml] of a collection at the current schema
    version is that collection with version 0 and without dates. *)
Theorem from_yaml_of_to_yaml c :
  dict_from_yaml (to_yaml c) = Ok (dict_remove "id" (to_dict c)) ->
  schema_version c = PInt CURRENT_COLLECTION_SCHEMA_VERSION ->
  from_yaml (c_id c) (to_yaml c)
  = Ok (mkCollection (c_id c) (title c) (category c) (objective c)
          (language_code c) (tags c) (schema_version c) (nodes c)
          (PInt 0) None None).
Proof.
  intros Hy Hv. unfold from_yaml.
  rewrite (migrate_current_is_identity _ _ Hy).
  2:{ destruct c; simpl in *. by rewrite Hv. }
  destruct c as [i t ca o lc tg sv ns ver cr lup].
  unfold from_dict, to_dict. simpl.
  by rewrite node_from_dict_to_dict.
Qed.
End Yaml.

(** X13 on the YAML of the sample collection. *)
Lemma migrate_at_current_version_returns_the_dict_witness :
  @_migrate_to_latest_yaml_version string sample_utils_yaml sample_constants
    "sample_collection.yaml"
  = Ok (dict_remove "id" (to_dict sample_collection)).
Proof.
  exact (proj1 (@migrate_at_current_version_returns_the_dict string
                  sample_utils_yaml sample_constants
                  "sample_collection.yaml" _ eq_refl) eq_refl).
Defined.

(** X14 on the version 1 fixture. *)
Lemma from_yaml_yields_current_version_witness :
  exists c,
    @from_yaml string sample_utils sample_constants (PStr "cid")
      "YAML_CONTENT_V1" = Ok c
    /\ schema_version c = PInt CURRENT_COLLECTION_SCHEMA_VERSION
    /\ c_id c = PStr "cid"
    /\ version c = PInt 0.
Proof.
  destruct (@from_yaml string sample_utils sample_constants (PStr "cid")
              "YAML_CONTENT_V1") as [c|e] eqn:E; [|discriminate E].
  destruct (@from_yaml_yields_current_version string sample_utils
              sample_constants (PStr "cid") "YAML_CONTENT_V1" c E)
    as (H1 & H2 & H3 & _).
  exists c. repeat split; assumption.
Defined.

(** X15 on the sample collection. *)
Lemma from_yaml_of_to_yaml_witness :
  @from_yaml string sample_utils_yaml sample_constants
    (PStr "collection_id")
    (@to_yaml string sample_python_utils sample_collection)
  = Ok (mkCollection (PStr "collection_id") (PStr "Title") (PStr "Category")
          (PStr "Objective") (PStr "en") (PList [PStr "algebra"]) (PInt 6)
          (nodes sample_collection) (PInt 0) None None).
Proof.
  exact (@from_yaml_of_to_yaml string sample_utils_yaml sample_constants
           sample_python_utils sample_collection eq_refl eq_refl).
Defined.

(** ** Migration keeps the explorations *)

Section KeepIds.
Context {datetime : Type} {utils : UtilsModule datetime}
        {consts : ConstantsModule} {pyutils : PythonUtilsModule}.
Implicit Types (c : Collection datetime) (d : pydict).

Lemma node_exploration_ids_same_nodes d d' :
  dict_get "nodes" d' = dict_get "nodes" d ->
  node_exploration_ids d' = node_exploration_ids d.
Proof.
  intros H. unfold node_exploration_ids, dict_getitem. by rewrite H.
Qed.

Lemma convert_nodes_keep_ids tbl (l l' : list pyval) :
  map_result (convert_node_v3_to_v4 tbl) l = Ok l' ->
  map_result (fun n => getitem n "exploration_id") l'
  = map_result (fun n => getitem n "exploration_id") l.
Proof.
  revert l'. induction l as [|n l IH]; intros l' H.
  - by injection H as <-.
  - cbn [map_result] in H. bind_inv H; try done. injection H as <-.
    cbn [map_result]. rewrite (IH _ eq_refl).
    unfold convert_node_v3_to_v4 in E. bind_inv E; try done.
    injection E as <-.
    reflexivity.
Qed.

Lemma contents_v3_to_v4_keeps_ids d d' :
  contents_v3_to_v4 d = Ok d' ->
  node_exploration_ids d' = node_exploration_ids d.
Proof.
  unfold contents_v3_to_v4. intros H. bind_inv H; try done.
  injection H as <-.
  unfold node_exploration_ids, dict_getitem in *.
  rewrite !dict_get_set_ne by done. rewrite dict_get_set_eq.
  destruct (dict_get "nodes" d) as [nv|]; [|done].
  match goal with G : Ok nv = Ok _ |- _ => injection G as <- end.
  cbn [mbind result_bind py_iter].
  match goal with G : py_iter nv = Ok _ |- _ => rewrite G end.
  cbn [mbind result_bind]. by eapply convert_nodes_keep_ids.
Qed.

Lemma convert_dict_keeps_ids k f d d' :
  getattr_convert_dict k = Ok f -> f d = Ok d' ->
  node_exploration_ids d' = node_exploration_ids d.
Proof.
  unfold getattr_convert_dict.
  destruct (Z.eqb_spec k 1) as [->|_]; [intros [= <-]|].
  { intros [= <-]. apply node_exploration_ids_same_nodes.
    by rewrite !dict_get_set_ne. }
  destruct (Z.eqb_spec k 2) as [->|_]; [intros [= <-]|].
  { intros [= <-]. apply node_exploration_ids_same_nodes.
    by rewrite !dict_get_set_ne. }
  destruct (Z.eqb_spec k 3) as [->|_]; [intros [= <-]|].
  { unfold _convert_v3_dict_to_v4_dict. intros H. bind_inv H; try done.
    injection H as <-.
    match goal with
    | G : call_on_dict _ d = Ok ?a |- _ =>
        unfold call_on_dict in G; simpl in G;
        destruct (contents_v3_to_v4 d) as [d1|] eqn:Ec; [|done];
        injection G as <-
    end.
    rewrite <- (contents_v3_to_v4_keeps_ids _ _ Ec).
    apply node_exploration_ids_same_nodes.
    by rewrite !dict_get_set_ne. }
  destruct (Z.eqb_spec k 4) as [->|_]; [intros [= <-]|].
  { unfold _convert_v4_dict_to_v5_dict. intros H. bind_inv H; try done.
    injection H as <-.
    match goal with
    | G : call_on_dict _ d = Ok ?a |- _ =>
        unfold call_on_dict in G; simpl in G;
        destruct (dict_getitem "next_skill_id" d) as [n|]; [|done];
        injection G as <-
    end.
    apply node_exploration_ids_same_nodes.
    rewrite dict_get_set_ne, dict_get_remove_ne by done.
    by rewrite dict_get_set_ne. }
  destruct (Z.eqb_spec k 5) as [->|_]; [intros [= <-]|done].
  unfold _convert_v5_dict_to_v6_dict, dict_delitem. intros H.
  destruct (dict_mem "skills" d); [|done]. simpl in H.
  destruct (dict_mem "next_skill_index" _); [|done]. simpl in H.
  injection H as <-.
  apply node_exploration_ids_same_nodes.
  rewrite dict_get_set_ne by done. by rewrite !dict_get_remove_ne.
Qed.

Lemma apply_conversions_keep_ids versions d d' :
  apply_conversions versions d = Ok d' ->
  node_exploration_ids d' = node_exploration_ids d.
Proof.
  revert d. induction versions as [|k ks IH]; simpl; intros d H.
  - by injection H as <-.
  - bind_inv H; try done. rewrite (IH _ H).
    eapply convert_dict_keeps_ids; eassumption.
Qed.

Lemma migrate_ok_is_chain yaml_content d' :
  _migrate_to_latest_yaml_version yaml_content = Ok d' ->
  exists d v, dict_from_yaml yaml_content = Ok d
              /\ apply_conversions (versions_to_convert v) d = Ok d'.
Proof.
  unfold _migrate_to_latest_yaml_version.
  destruct (dict_from_yaml yaml_content) as [d|e] eqn:Ed.
  2:{ by destruct e. }
  destruct (dict_get "schema_version" d) as [sv|] eqn:Ev; [|done].
  destruct sv as [| b | v | | |]; try done;
    destruct (version_in_range _) eqn:Er; simpl; try done.
  rewrite migrate_loop_is_chain. eauto.
Qed.

(** X16: migrating a YAML dict to the latest schema version keeps the
    exploration ids of its nodes, in order; they are the exploration ids of
    the collection [from_yaml] builds. *)
Theorem migration_keeps_the_exploration_ids yaml_content d ids :
  dict_from_yaml yaml_content = Ok d ->
  node_exploration_ids d = Ok ids ->
  (forall d', _migrate_to_latest_yaml_version yaml_content = Ok d' ->
     node_exploration_ids d' = Ok ids)
  /\ (forall collection_id c,
        from_yaml collection_id yaml_content = Ok c ->
        exploration_ids c = ids).
Proof.
  intros Hd Hids.
  assert (Hm : forall d', _migrate_to_latest_yaml_version yaml_content = Ok d'
                          -> node_exploration_ids d' = Ok ids).
  { intros d' Hm. destruct (migrate_ok_is_chain _ _ Hm) as (d0 & v & Hd0 & Hc).
    rewrite Hd in Hd0. injection Hd0 as <-.
    by rewrite (apply_conversions_keep_ids _ _ _ Hc). }
  split; [exact Hm|].
  intros collection_id c. unfold from_yaml.
  destruct (_migrate_to_latest_yaml_version yaml_content) as [d'|] eqn:Em;
    [|done].
  specialize (Hm d' eq_refl). simpl.
  assert (Hids' : node_exploration_ids (dict_set "id" collection_id d')
                  = Ok ids).
  { rewrite <- Hm. apply node_exploration_ids_same_nodes.
    by rewrite dict_get_set_ne. }
  unfold node_exploration_ids in Hids'.
  unfold from_dict, getitem. intros H. bind_inv H; try done.
  injection H as <-. unfold exploration_ids. simpl.
  match goal with
  | G2 : py_iter _ = Ok ?l,
    G3 : map_result CollectionNodeM.from_dict ?l = Ok ?ns |- _ =>
      simpl in Hids'; rewrite G2 in Hids'; simpl in Hids';
      rewrite node_from_dict_ids, Hids' in G3; injection G3 as <-
  end.
  rewrite map_map. simpl. by rewrite map_id.
Qed.
End KeepIds.

(** X16 on the version 1 fixture. *)
Lemma migration_keeps_the_exploration_ids_witness :
  exists c,
    @from_yaml string sample_utils sample_constants (PStr "cid")
      "YAML_CONTENT_V1" = Ok c
    /\ exploration_ids c = [PStr "Exp1"; PStr "Exp2"].
Proof.
  destruct (@from_yaml string sample_utils sample_constants (PStr "cid")
              "YAML_CONTENT_V1") as [c|e] eqn:E; [|discriminate E].
  exists c. split; [reflexivity|].
  exact (proj2 (@migration_keeps_the_exploration_ids string sample_utils
                  sample_constants "YAML_CONTENT_V1" yaml_content_v1
                  [PStr "Exp1"; PStr "Exp2"] eq_refl eq_refl)
               (PStr "cid") c E).
Defined.

(** ** Conversions of collection contents *)

Section Contents.

Lemma length_sorted_insert x l : length (sorted_insert x l) = S (length l).
Proof.
  induction l as [|y l IH]; simpl; [done|].
  destruct (py_ltb x y); simpl; [done | by rewrite IH].
Qed.

Lemma length_py_sorted l : length (py_sorted l) = length l.
Proof.
  unfold py_sorted.
  assert (G : forall acc,
    length (fold_left (fun acc x => sorted_insert x acc) l acc)
    = (length l + length acc)%nat).
  { induction l as [|x l IH]; intros acc; simpl; [done|].
    rewrite IH, length_sorted_insert. lia. }
  rewrite G. simpl. lia.
Qed.

Lemma enumerate_skill_ids_keys index names :
  map snd (enumerate_skill_ids index names)
  = map (fun i => _SKILL_ID_PREFIX ++ str_of_Z (Z.of_nat i))
        (seq index (length names)).
Proof.
  revert index. induction names as [|n names IH]; intros index; simpl;
    [done|].
  by rewrite IH.
Qed.

Lemma skills_dict_keys tbl :
  match skills_dict tbl with
  | PDict sk => dict_keys sk = map snd tbl
  | _ => False
  end.
Proof. unfold skills_dict, dict_keys. by rewrite map_map. Qed.

Lemma skill_id_of_in x tbl v :
  skill_id_of x tbl = Ok v -> exists i, v = PStr i /\ In i (map snd tbl).
Proof.
  induction tbl as [|[n i] tbl IH]; simpl; [done|].
  destruct (py_eqb x n).
  - intros [= <-]. eauto.
  - intros H. destruct (IH H) as (j & -> & Hj). eauto.
Qed.

Lemma map_result_Forall {A B} (f : A -> result B) (P : B -> Prop) l ys :
  (forall x y, f x = Ok y -> P y) ->
  map_result f l = Ok ys -> Forall P ys.
Proof.
  intros Hf. revert ys. induction l as [|x l IH]; intros ys H.
  - injection H as <-. constructor.
  - cbn [map_result] in H. bind_inv H; try done. injection H as <-.
    constructor; eauto.
Qed.

Lemma skill_ids_of_in node key tbl v :
  skill_ids_of node key tbl = Ok v -> skill_ids_in (map snd tbl) v.
Proof.
  unfold skill_ids_of. intros H. bind_inv H; try done. injection H as <-.
  eexists. split; [reflexivity|].
  eapply map_result_Forall; [|eassumption].
  intros x y. apply skill_id_of_in.
Qed.

(** X17: when the conversion of version 3 contents succeeds, the keys of
    'skills' are skill0 ... skill(n-1), each once and in no stated order,
    'next_skill_id' is n, and every node is a dict with exactly the keys
    'exploration_id', 'prerequisite_skill_ids' and 'acquired_skill_ids',
    the last two being lists of skill ids that are all keys of 'skills'. *)
Theorem convert_contents_v3_builds_the_skill_table c c' :
  _convert_collection_contents_v3_dict_to_v4_dict c = (c', None) ->
  exists d' sk new_nodes (n : nat),
    c' = PDict d'
    /\ dict_get "next_skill_id" d' = Some (PInt (Z.of_nat n))
    /\ dict_get "skills" d' = Some (PDict sk)
    /\ dict_keys sk
       ≡ₚ map (fun i => _SKILL_ID_PREFIX ++ str_of_Z (Z.of_nat i)) (seq 0 n)
    /\ dict_get "nodes" d' = Some (PList new_nodes)
    /\ Forall (fun node =>
         exists nd e p a,
           node = PDict nd
           /\ dict_keys nd ≡ₚ [ "exploration_id"; "prerequisite_skill_ids";
                                "acquired_skill_ids" ]
           /\ dict_get "exploration_id" nd = Some e
           /\ dict_get "prerequisite_skill_ids" nd = Some p
           /\ dict_get "acquired_skill_ids" nd = Some a
           /\ skill_ids_in (dict_keys sk) p
           /\ skill_ids_in (dict_keys sk) a) new_nodes.
Proof.
  unfold _convert_collection_contents_v3_dict_to_v4_dict.
  destruct c as [| | | | |d]; try done.
  destruct (contents_v3_to_v4 d) as [d'|] eqn:Ec; [|done].
  intros [= <-]. unfold contents_v3_to_v4 in Ec.
  bind_inv Ec; try done. injection Ec as <-.
  match goal with
  | G : collect_skill_names _ [] = Ok ?names,
    N : map_result (convert_node_v3_to_v4 ?tbl) _ = Ok ?nn |- _ =>
      pose proof (skills_dict_keys tbl) as Hk;
      destruct (skills_dict tbl) as [| | | | |sk] eqn:Esk; try done;
      exists (dict_set "next_skill_id" (PInt (Z.of_nat (length names)))
                (dict_set "skills" (PDict sk)
                   (dict_set "nodes" (PList nn) d))),
             sk, nn, (length names);
      assert (Hkeys : dict_keys sk
                ≡ₚ map (fun i => _SKILL_ID_PREFIX ++ str_of_Z (Z.of_nat i))
                       (seq 0 (length names)))
        by (by rewrite Hk, enumerate_skill_ids_keys, length_py_sorted);
      assert (Hnodes : Forall (fun node =>
         exists nd e p a,
           node = PDict nd
           /\ dict_keys nd ≡ₚ [ "exploration_id"; "prerequisite_skill_ids";
                                "acquired_skill_ids" ]
           /\ dict_get "exploration_id" nd = Some e
           /\ dict_get "prerequisite_skill_ids" nd = Some p
           /\ dict_get "acquired_skill_ids" nd = Some a
           /\ skill_ids_in (dict_keys sk) p
           /\ skill_ids_in (dict_keys sk) a) nn)
  end.
  { eapply map_result_Forall; [|eassumption].
    intros x y Hxy. unfold convert_node_v3_to_v4 in Hxy.
    bind_inv Hxy; try done. injection Hxy as <-.
    eexists _, _, _, _. split; [reflexivity|].
    split; [reflexivity|]. do 3 (split; [reflexivity|]). rewrite Hk.
    split; eapply skill_ids_of_in; eassumption. }
  repeat split; try done.
  - apply dict_get_set_eq.
  - rewrite dict_get_set_ne by done. apply dict_get_set_eq.
  - rewrite !dict_get_set_ne by done. apply dict_get_set_eq.
Qed.

Lemma delete_node_skill_ids_frame l :
  length (delete_node_skill_ids l).1 = length l
  /\ map (fun n => getitem n "exploration_id") (delete_node_skill_ids l).1
     = map (fun n => getitem n "exploration_id") l.
Proof.
  induction l as [|n l [IH1 IH2]]; simpl; [done|].
  destruct n as [| | | | |nd]; try done.
  unfold dict_delitem.
  destruct (dict_mem "prerequisite_skill_ids" nd); [|done].
  destruct (dict_mem "acquired_skill_ids" _).
  - destruct (delete_node_skill_ids l) as [l' r]. simpl in *.
    rewrite IH1, IH2. split; [done|]. f_equal.
    unfold dict_getitem. by rewrite !dict_get_remove_ne by done.
  - simpl. split; [done|]. f_equal.
    unfold dict_getitem. by rewrite !dict_get_remove_ne by done.
Qed.

Lemma map_result_ext_map {A B} (f : A -> result B) l l' :
  map f l' = map f l -> map_result f l' = map_result f l.
Proof.
  revert l'. induction l as [|x l IH]; intros [|x' l']; simpl; try done.
  intros [= Hx Hl]. by rewrite Hx, (IH _ Hl).
Qed.

Lemma dict_keys_set_existing {V} k (v : V) d :
  dict_mem k d = true -> dict_keys (dict_set k v d) = dict_keys d.
Proof.
  unfold dict_mem, dict_keys.
  induction d as [|[k' v'] d IH]; simpl; [done|].
  destruct (String.eqb k k') eqn:E; simpl; [done|].
  intros Hd. by rewrite IH.
Qed.

(** X18: whether or not it raises, the conversion of version 5 contents
    leaves a dict with the same keys in the same order and the same
    exploration ids of the nodes. *)
Theorem convert_contents_v5_keeps_keys_and_ids (d : pydict) :
  exists d',
    (_convert_collection_contents_v5_dict_to_v6_dict (PDict d)).1 = PDict d'
    /\ dict_keys d' = dict_keys d
    /\ node_exploration_ids d' = node_exploration_ids d.
Proof.
  unfold _convert_collection_contents_v5_dict_to_v6_dict, dict_getitem.
  destruct (dict_get "nodes" d) as [nv|] eqn:En; [|by exists d].
  destruct nv as [| | | |l|]; simpl;
    try (by exists d);
    try (match goal with
         | |- context [match ?x with [] => _ | _ :: _ => _ end] =>
             destruct x; by exists d
         end).
  pose proof (delete_node_skill_ids_frame l) as [Hlen Hids].
  destruct (delete_node_skill_ids l) as [l' r]. simpl in *.
  eexists. split; [reflexivity|]. split.
  - apply dict_keys_set_existing. unfold dict_mem. by rewrite En.
  - unfold node_exploration_ids, dict_getitem.
    rewrite dict_get_set_eq, En. simpl. by apply map_result_ext_map.
Qed.
End Contents.

(** X17 on version 3 contents with two nodes and two skill names. *)
Lemma convert_contents_v3_builds_the_skill_table_witness :
  exists d' sk,
    (_convert_collection_contents_v3_dict_to_v4_dict
       (PDict [("nodes", PList [ yaml_node_v1 "Exp1" ["Skill1"; "Skill2"] [];
                                 yaml_node_v1 "Exp2" [] ["Skill1"] ])])).1
    = PDict d'
    /\ dict_get "next_skill_id" d' = Some (PInt 2)
    /\ dict_get "skills" d' = Some (PDict sk)
    /\ dict_keys sk ≡ₚ ["skill0"; "skill1"].
Proof.
  destruct (convert_contents_v3_builds_the_skill_table
              (PDict [("nodes",
                       PList [ yaml_node_v1 "Exp1" ["Skill1"; "Skill2"] [];
                               yaml_node_v1 "Exp2" [] ["Skill1"] ])])
              _ eq_refl)
    as (d' & sk & new_nodes & n & H1 & H2 & H3 & H4 & _).
  exists d', sk. split; [exact H1|].
  injection H1 as <-. split; [reflexivity|]. split; [exact H3|].
  simpl in H2. injection H2 as H2.
  assert (n = 2%nat) as -> by lia. exact H4.
Defined.

(** ** More on validation *)

Section MoreValidation.
Context {datetime : Type} {utils : UtilsModule datetime}
        {consts : ConstantsModule} {pyutils : PythonUtilsModule}.
Implicit Types (c : Collection datetime).

Ltac strict_step :=
  match goal with
  | |- mbind _ ?m = mbind _ (mbind _ ?m) =>
      destruct m as [?|?]; [cbn [mbind result_bind] | reflexivity]
  end.

Lemma validate_strict_unfold c :
  validate c true
  = (validate c false ≫= fun _ =>
     _ ← raise_if (negb (truthy (title c)))
           (ValidationError "A title must be specified for the collection.");
     _ ← raise_if (negb (truthy (objective c)))
           (ValidationError
              "An objective must be specified for the collection.");
     _ ← raise_if (negb (truthy (category c)))
           (ValidationError
              "A category must be specified for the collection.");
     raise_if (match nodes c with [] => true | _ => false end)
       (ValidationError
          "Expected to have at least 1 exploration in the collection.")).
Proof.
  unfold validate. repeat strict_step. reflexivity.
Qed.

Lemma raise_if_ok b e u : raise_if b e = Ok u -> b = false.
Proof. by destruct b. Qed.

(** X19: strict validation passes exactly when non-strict validation
    passes, title, objective and category are non-empty and there is at
    least one node. *)
Theorem strict_validation_is_nonstrict_plus_four_checks c :
  validate c true = Ok tt
  <-> validate c false = Ok tt
      /\ truthy (title c) = true /\ truthy (objective c) = true
      /\ truthy (category c) = true /\ nodes c <> [].
Proof.
  rewrite validate_strict_unfold.
  destruct (validate c false) as [[]|e]; simpl.
  2:{ split; [done | by intros [? _]]. }
  destruct (truthy (title c)), (truthy (objective c)), (truthy (category c)),
    (nodes c); simpl; split; try done; intros (_ & ? & ? & ? & ?); done.
Qed.

Lemma set_add_all_le l acc s :
  set_add_all l acc = Ok s -> (length s <= length acc + length l)%nat.
Proof.
  revert acc. induction l as [|x l IH]; simpl; intros acc.
  - intros [= <-]. lia.
  - destruct (hashable x); [|done]. intros H. apply IH in H.
    destruct (py_in x acc); [lia|]. rewrite length_app in H. simpl in H. lia.
Qed.

Lemma set_add_all_full_inv l acc s :
  set_add_all l acc = Ok s ->
  length s = (length acc + length l)%nat ->
  List.NoDup l /\ forall y, In y l -> py_in y acc = false.
Proof.
  revert acc. induction l as [|x l IH]; simpl; intros acc.
  - intros _ _. split; [constructor | intros y []].
  - destruct (hashable x) eqn:Hx; [|done].
    destruct (py_in x acc) eqn:Ein.
    + intros H Hlen. apply set_add_all_le in H. lia.
    + intros H Hlen.
      destruct (IH _ H) as [Hnd Hout].
      { rewrite length_app. simpl. lia. }
      assert (Hxl : ~ In x l).
      { intros Hin. specialize (Hout x Hin).
        rewrite py_in_app in Hout. simpl in Hout.
        rewrite (py_eqb_refl_hashable _ Hx) in Hout.
        by rewrite orb_true_r in Hout. }
      split; [by constructor|].
      intros y [<-|Hy]; [done|].
      specialize (Hout y Hy). rewrite py_in_app in Hout.
      by apply orb_false_iff in Hout as [? _].
Qed.

Lemma validate_name_ok v te nt u :
  validate_name v te nt = Ok u -> is_basestring v = true.
Proof. by destruct v. Qed.

Lemma validate_language_code_ok v u :
  validate_language_code v = Ok u ->
  is_basestring v = true /\ truthy v = true.
Proof.
  destruct v; try done. unfold validate_language_code. intros H.
  bind_inv H; try done.
  apply raise_if_ok in E. split; [done|]. by apply negb_false_iff.
Qed.

Lemma for_each_ok {A} (f : A -> result unit) (P : A -> bool) l u :
  (forall x u', f x = Ok u' -> P x = true) ->
  for_each f l = Ok u -> forallb P l = true.
Proof.
  intros Hf. induction l as [|x l IH]; simpl; [done|].
  intros H. bind_inv H; try done.
  apply andb_true_iff. split; [eauto | by apply IH].
Qed.

Lemma validate_tag_ok tag u :
  validate_tag tag = Ok u -> is_basestring tag = true.
Proof. by destruct tag. Qed.

Lemma validate_tags_ok v u :
  validate_tags v = Ok u ->
  exists l, v = PList l /\ forallb is_basestring l = true /\ List.NoDup l.
Proof.
  destruct v as [| | | |l|]; try done. unfold validate_tags, py_set.
  intros H. bind_inv H; try done.
  exists l. split; [done|]. split.
  - eapply for_each_ok; [|eassumption]. intros x u'. apply validate_tag_ok.
  - match goal with
    | G : raise_if _ _ = Ok _, S : set_add_all l [] = Ok ?s |- _ =>
        apply raise_if_ok in G; apply Nat.ltb_ge in G;
        pose proof (set_add_all_le _ _ _ S) as Hle; simpl in Hle;
        apply (set_add_all_full_inv _ _ _ S); simpl; lia
    end.
Qed.

(** X20: a collection that passes validation has attributes of the
    expected types, a non-empty language code, tags and exploration ids
    without duplicates, and the current schema version. *)
Theorem validate_guarantees c :
  validate c false = Ok tt ->
  well_typed c = true
  /\ truthy (language_code c) = true
  /\ (exists l, tags c = PList l /\ List.NoDup l)
  /\ schema_version c = PInt CURRENT_COLLECTION_SCHEMA_VERSION
  /\ List.NoDup (exploration_ids c)
  /\ ~ duplicate_exploration_id c.
Proof.
  unfold validate. intros H. bind_inv H; try done.
  repeat match goal with
  | G : validate_name _ _ _ = Ok _ |- _ => apply validate_name_ok in G
  | G : validate_language_code _ = Ok _ |- _ =>
      apply validate_language_code_ok in G; destruct G as [? ?]
  | G : validate_tags _ = Ok _ |- _ =>
      apply validate_tags_ok in G; destruct G as (l & Htags & Hstr & Hnd)
  | G : for_each CollectionNodeM.validate _ = Ok _ |- _ =>
      apply (for_each_ok _ (fun n => is_basestring (exploration_id n))) in G;
      [|intros x u'; unfold CollectionNodeM.validate;
        by destruct (is_basestring (exploration_id x))]
  | G : raise_if _ _ = Ok _ |- _ => apply raise_if_ok in G
  end.
  assert (Hids : List.NoDup (exploration_ids c)).
  { match goal with
    | S : py_set (exploration_ids c) = Ok ?s,
      G : negb (length ?s =? _)%nat = false |- _ =>
        apply negb_false_iff, Nat.eqb_eq in G;
        apply (set_add_all_full_inv _ _ _ S); simpl; lia
    end. }
  split; [|split; [done|split; [by eauto|split; [|split; [done|]]]]].
  - unfold well_typed. rewrite Htags.
    repeat (apply andb_true_iff; split); try done.
    all: by match goal with G : negb ?b = false |- ?b = true =>
              apply negb_false_iff in G end.
  - match goal with
    | G1 : negb (is_int _) = false, G2 : negb (py_eqb _ _) = false |- _ =>
        apply negb_false_iff in G1, G2;
        destruct (schema_version c) as [| b | z | | |]; try done;
        [by destruct b | simpl in G2; apply Z.eqb_eq in G2; by subst]
    end.
  - intros (i & j & e & Hij & Hi & Hj). apply Hij.
    apply NoDup_ListNoDup in Hids.
    eapply (NoDup_lookup _ i j e Hids).
    + change (exploration_ids c) with (exploration_id <$> nodes c).
      by rewrite list_lookup_fmap, Hi.
    + change (exploration_ids c) with (exploration_id <$> nodes c).
      by rewrite list_lookup_fmap, Hj.
Qed.

(** X21: a default collection never passes strict validation, which raises
    a [ValidationError]; it passes non-strict validation exactly when title
    and category are valid names and the language code is non-empty and
    valid. *)
Theorem default_collection_validation (i t ca o lc : string) :
  let c : Collection datetime :=
    create_default_collection (PStr i) (PStr t) (PStr ca) (PStr o) (PStr lc) in
  raises_validation_error (validate c true)
  /\ (validate c false = Ok tt
      <-> require_valid_name t "the collection title" true = None
          /\ require_valid_name ca "the collection category" true = None
          /\ lc <> "" /\ is_valid_language_code lc = true).
Proof.
  intros c. split.
  - rewrite validate_strict_unfold. subst c.
    unfold validate, create_default_collection, raises_validation_error.
    simpl.
    destruct (require_valid_name t _ true); simpl; [by eexists|].
    destruct (require_valid_name ca _ true); simpl; [by eexists|].
    destruct (String.eqb lc ""); simpl; [by eexists|].
    destruct (is_valid_language_code lc); simpl; [|by eexists].
    destruct (String.eqb t ""); simpl; [by eexists|].
    destruct (String.eqb o ""); simpl; [by eexists|].
    destruct (String.eqb ca ""); simpl; by eexists.
  - subst c. unfold validate, create_default_collection. simpl.
    destruct (require_valid_name t _ true); simpl;
      [split; [done | by intros [? _]]|].
    destruct (require_valid_name ca _ true); simpl;
      [split; [done | by intros (_ & ? & _)]|].
    destruct (String.eqb_spec lc ""); simpl;
      [split; [done | by intros (_ & _ & ? & _)]|].
    destruct (is_valid_language_code lc); simpl;
      [done | split; [done | by intros (_ & _ & _ & ?)]].
Qed.
End MoreValidation.

(** X20 on the sample collection. *)
Lemma validate_guarantees_witness :
  @well_typed string sample_collection = true
  /\ truthy (language_code sample_collection) = true
  /\ (exists l, tags sample_collection = PList l /\ List.NoDup l)
  /\ schema_version sample_collection
     = PInt CURRENT_COLLECTION_SCHEMA_VERSION
  /\ List.NoDup (exploration_ids sample_collection)
  /\ ~ duplicate_exploration_id sample_collection.
Proof.
  exact (@validate_guarantees string sample_utils sample_constants
           sample_collection eq_refl).
Defined.

(** ** More on summaries and feature flags *)

Section Roles.
Import CollectionSummaryM.
Context {datetime : Type} {consts : ConstantsModule}.
Implicit Types (s : CollectionSummary datetime) (u : string).

(** X22: a user solely owns a collection exactly when the owners are that
    one user; a sole owner can edit and has a role; whoever can edit has a
    role unless the collection is community owned; having a role is being
    an owner, an editor or a viewer. *)
Theorem roles_of_a_user s u :
  (is_solely_owned_by_user s u = true <-> owner_ids s = [u])
  /\ (is_solely_owned_by_user s u = true ->
      is_editable_by s (Some u) = true
      /\ does_user_have_any_role s u = true)
  /\ (is_editable_by s (Some u) = true ->
      does_user_have_any_role s u = true \/ community_owned s = true)
  /\ (does_user_have_any_role s u = true <->
      In u (owner_ids s) \/ In u (editor_ids s) \/ In u (viewer_ids s)).
Proof.
  unfold is_solely_owned_by_user, does_user_have_any_role. simpl.
  split; [|split; [|split]].
  - rewrite andb_true_iff, str_in_In, Nat.eqb_eq. split.
    + intros [Hin Hlen]. destruct (owner_ids s) as [|x [|y l]]; try done.
      destruct Hin as [->|[]]. done.
    + intros ->. split; [by left | done].
  - rewrite andb_true_iff. intros [Hin _]. rewrite Hin. simpl.
    split; [apply orb_true_iff; left; apply orb_true_r | done].
  - rewrite !orb_true_iff. tauto.
  - rewrite !orb_true_iff, !str_in_In. tauto.
Qed.

Lemma dict_mem_In {V} k (d : list (string * V)) :
  dict_mem k d = true <-> In k (dict_keys d).
Proof.
  unfold dict_mem, dict_keys. induction d as [|[k' v] d IH]; simpl.
  - split; [done | intros []].
  - destruct (String.eqb_spec k k') as [->|Hne].
    + split; [by left | done].
    + rewrite IH. split; [by right | by intros [?|?]].
Qed.

Lemma dict_keys_set {V} k (v : V) d :
  dict_keys (dict_set k v d)
  = if dict_mem k d then dict_keys d else (dict_keys d ++ [k])%list.
Proof.
  unfold dict_mem, dict_keys. induction d as [|[k' v'] d IH]; simpl; [done|].
  destruct (String.eqb k k') eqn:E; simpl; [done|].
  rewrite IH. by destruct (dict_get k d).
Qed.

Lemma dict_set_keys_NoDup {V} k (v : V) d :
  List.NoDup (dict_keys d) -> List.NoDup (dict_keys (dict_set k v d)).
Proof.
  intros Hnd. rewrite dict_keys_set.
  destruct (dict_mem k d) eqn:E; [done|].
  apply NoDup_ListNoDup, NoDup_app.
  split; [by apply NoDup_ListNoDup|]. split; [|apply NoDup_singleton].
  intros x Hx Hx'. apply list_elem_of_singleton in Hx' as ->.
  apply list_elem_of_In, dict_mem_In in Hx. congruence.
Qed.

Lemma add_contribution_step s u :
  str_in u SYSTEM_USER_IDS = false ->
  contributors_summary (add_contribution_by_user s u)
  = dict_set u (get_or_zero u (contributors_summary s) + 1)
      (contributors_summary s)
  /\ contributor_ids (add_contribution_by_user s u)
     = dict_keys (contributors_summary (add_contribution_by_user s u)).
Proof.
  intros Hsys. unfold add_contribution_by_user. by rewrite Hsys.
Qed.

(** X23: after [n] contributions of a user who is not a system user, the
    user's count has grown by [n] and the other counts are as before; from
    the first contribution on, the user is among the contributor ids, which
    have no duplicates when the keys of the summary had none. *)
Theorem contributions_add_up s u (n : nat) :
  str_in u SYSTEM_USER_IDS = false ->
  let s' := Nat.iter n (fun x => add_contribution_by_user x u) s in
  get_or_zero u (contributors_summary s')
  = get_or_zero u (contributors_summary s) + Z.of_nat n
  /\ (forall k, k <> u ->
        dict_get k (contributors_summary s')
        = dict_get k (contributors_summary s))
  /\ ((0 < n)%nat ->
      In u (contributor_ids s')
      /\ (List.NoDup (dict_keys (contributors_summary s)) ->
          List.NoDup (contributor_ids s'))).
Proof.
  intros Hsys. cbv zeta.
  assert (G : forall m,
    get_or_zero u (contributors_summary
      (Nat.iter m (fun x => add_contribution_by_user x u) s))
    = get_or_zero u (contributors_summary s) + Z.of_nat m
    /\ (forall k, k <> u ->
          dict_get k (contributors_summary
            (Nat.iter m (fun x => add_contribution_by_user x u) s))
          = dict_get k (contributors_summary s))
    /\ (List.NoDup (dict_keys (contributors_summary s)) ->
        List.NoDup (dict_keys (contributors_summary
          (Nat.iter m (fun x => add_contribution_by_user x u) s))))).
  { induction m as [|m (IH1 & IH2 & IH3)].
    - simpl. split; [lia | done].
    - rewrite Nat.iter_succ.
      destruct (add_contribution_step
        (Nat.iter m (fun x => add_contribution_by_user x u) s) u Hsys)
        as [-> _].
      split; [|split].
      + unfold get_or_zero at 1. rewrite dict_get_set_eq. lia.
      + intros k Hk. rewrite dict_get_set_ne by done. by apply IH2.
      + intros Hnd. by apply dict_set_keys_NoDup, IH3. }
  destruct (G n) as (G1 & G2 & G3). split; [exact G1|]. split; [exact G2|].
  intros Hn. destruct n as [|n]; [lia|]. rewrite Nat.iter_succ.
  destruct (add_contribution_step
    (Nat.iter n (fun x => add_contribution_by_user x u) s) u Hsys)
    as [Es ->].
  split.
  - apply dict_mem_In. rewrite Es. unfold dict_mem.
    by rewrite dict_get_set_eq.
  - intros Hnd. by apply G3.
Qed.
End Roles.

Section Flags.
Import PlatformFeatureServices.
Context {param context : Type} {platform : PlatformModules param context}
        {server : ServerModules context}.

Lemma evaluate_each_inv (l : list string) (ctx : context)
  (acc r : gmap string bool) :
  evaluate_each l ctx acc = Ok r ->
  (forall name, name ∈ l ->
     exists p, get_platform_parameter name = Ok p
               /\ r !! name = Some (evaluate p ctx))
  /\ (forall name, name ∉ l -> r !! name = acc !! name).
Proof.
  revert acc. induction l as [|x l IH]; intros acc; simpl.
  - intros [= <-]. split; [intros n Hn; by inversion Hn | done].
  - destruct (get_platform_parameter x) as [p|e] eqn:Ep; [|done]. simpl.
    intros H. destruct (IH _ H) as [Hin Hout]. split.
    + intros n Hn. destruct (decide (n ∈ l)) as [Hl|Hl]; [by apply Hin|].
      apply elem_of_cons in Hn as [->|Hn]; [|done].
      exists p. split; [done|]. rewrite (Hout x Hl). apply lookup_insert_eq.
    + intros n Hn. apply not_elem_of_cons in Hn as [Hne Hn].
      rewrite (Hout n Hn). by apply lookup_insert_ne.
Qed.

Lemma evaluate_known_set (S : gset string) ctx :
  S ⊆ ALL_FEATURES_NAMES_SET ->
  _evaluate_feature_flag_values_for_context S ctx
  = evaluate_each (elements S) ctx ∅.
Proof.
  intros HS. unfold _evaluate_feature_flag_values_for_context.
  assert (Hempty : S ∖ ALL_FEATURES_NAMES_SET = ∅).
  { apply leibniz_equiv. set_solver. }
  by rewrite Hempty, elements_empty.
Qed.

(** X24: [is_feature_enabled] raises [FeatureFlagNotFoundException] naming
    the feature when it is not a known feature; for a known feature it is
    the registry's parameter evaluated in the server context, or the
    registry's exception. *)
Theorem is_feature_enabled_by_name (feature_name : string) :
  (feature_name ∉ ALL_FEATURES_NAMES_SET ->
   is_feature_enabled feature_name
   = Raise (FeatureFlagNotFoundException [feature_name]))
  /\ (feature_name ∈ ALL_FEATURES_NAMES_SET ->
      is_feature_enabled feature_name
      = (p ← get_platform_parameter feature_name;
         Ok (evaluate p _create_evaluation_context_for_server))).
Proof.
  unfold is_feature_enabled, _evaluate_feature_flag_value_for_server.
  split.
  - intros Hn. unfold _evaluate_feature_flag_values_for_context.
    assert (Hd : ({[feature_name]} : gset string) ∖ ALL_FEATURES_NAMES_SET
                 = {[feature_name]}).
    { apply leibniz_equiv. set_solver. }
    by rewrite Hd, elements_singleton.
  - intros Hn. rewrite evaluate_known_set.
    2:{ intros x Hx. by apply elem_of_singleton in Hx as ->. }
    rewrite elements_singleton. simpl.
    destruct (get_platform_parameter feature_name) as [p|e]; simpl; [|done].
    by rewrite lookup_insert_eq.
Qed.

(** X25: when a set of flags is evaluated successfully, each requested
    name is a known feature, its value is its parameter evaluated in the
    context, and evaluating that flag alone in the same context gives the
    same value. *)
Theorem flag_value_does_not_depend_on_the_request
  (S : gset string) (ctx : context) (r : gmap string bool)
  (feature_name : string) :
  _evaluate_feature_flag_values_for_context S ctx = Ok r ->
  feature_name ∈ S ->
  feature_name ∈ ALL_FEATURES_NAMES_SET
  /\ exists p,
       get_platform_parameter feature_name = Ok p
       /\ r !! feature_name = Some (evaluate p ctx)
       /\ _evaluate_feature_flag_values_for_context {[feature_name]} ctx
          = Ok {[feature_name := evaluate p ctx]}.
Proof.
  intros Hr Hn.
  assert (HS : S ⊆ ALL_FEATURES_NAMES_SET).
  { unfold _evaluate_feature_flag_values_for_context in Hr.
    destruct (elements (S ∖ ALL_FEATURES_NAMES_SET)) as [|u us] eqn:Eu;
      [|done].
    apply elements_empty_inv in Eu. intros x Hx.
    destruct (decide (x ∈ ALL_FEATURES_NAMES_SET)) as [|Hx']; [done|].
    exfalso. apply (not_elem_of_empty (C := gset string) x).
    rewrite <- Eu. by apply elem_of_difference. }
  split; [by apply HS|].
  rewrite evaluate_known_set in Hr by done.
  destruct (evaluate_each_inv _ _ _ _ Hr) as [Hin _].
  destruct (Hin feature_name) as (p & Hp & Hrp); [by apply elem_of_elements|].
  exists p. split; [done|]. split; [done|].
  rewrite evaluate_known_set.
  2:{ intros x Hx. apply elem_of_singleton in Hx as ->. by apply HS. }
  rewrite elements_singleton. simpl. rewrite Hp. simpl.
  by rewrite insert_empty.
Qed.
End Flags.

(** X23 on the sample summary, with three contributions of one user. *)
Lemma contributions_add_up_witness :
  CollectionSummaryM.get_or_zero "user_id"
    (CollectionSummaryM.contributors_summary
       (Nat.iter 3 (fun x => @CollectionSummaryM.add_contribution_by_user
                               string sample_constants x "user_id")
                 sample_summary))
  = 3
  /\ In "user_id"
       (CollectionSummaryM.contributor_ids
          (Nat.iter 3 (fun x => @CollectionSummaryM.add_contribution_by_user
                                  string sample_constants x "user_id")
                    sample_summary)).
Proof.
  destruct (@contributions_add_up string sample_constants sample_summary
              "user_id" 3%nat eq_refl) as (H1 & _ & H3).
  split; [exact H1 | exact (proj1 (H3 ltac:(lia)))].
Defined.

(** X25 on the two sample features. *)
Lemma flag_value_does_not_depend_on_the_request_witness :
  "dummy_feature"
    ∈ @PlatformFeatureServices.ALL_FEATURES_NAMES_SET bool unit sample_platform
  /\ exists p,
       @PlatformFeatureServices.get_platform_parameter bool unit
         sample_platform "dummy_feature" = Ok p
       /\ @PlatformFeatureServices._evaluate_feature_flag_values_for_context
            bool unit sample_platform {["dummy_feature"]} tt
          = Ok {["dummy_feature" := p]}.
Proof.
  destruct (@PlatformFeatureServices._evaluate_feature_flag_values_for_context
              bool unit sample_platform
              {["dummy_feature"; "android_beta_landing_page"]} tt)
    as [r|e] eqn:E; [|by vm_compute in E].
  destruct (@flag_value_does_not_depend_on_the_request bool unit
              sample_platform {["dummy_feature"; "android_beta_landing_page"]}
              tt r "dummy_feature" E ltac:(set_solver))
    as (H1 & p & H2 & _ & H4).
  split; [exact H1|]. exists p. split; [exact H2 | exact H4].
Defined.

Section Flags2.
Import PlatformFeatureServices.
Context {param context : Type} {platform : PlatformModules param context}
        {server : ServerModules context}.

(** X26: the dict of [evaluate_all_feature_flag_values_for_client] has
    exactly the known feature names as keys, each with its parameter
    evaluated in the context; in the server context its values are those
    [is_feature_enabled] returns. *)
Theorem client_values_cover_all_features (ctx : context)
  (r : gmap string bool) :
  evaluate_all_feature_flag_values_for_client ctx = Ok r ->
  dom r = ALL_FEATURES_NAMES_SET
  /\ (forall name, name ∈ ALL_FEATURES_NAMES_SET ->
        exists p, get_platform_parameter name = Ok p
                  /\ r !! name = Some (evaluate p ctx))
  /\ (ctx = _create_evaluation_context_for_server ->
      forall name b, r !! name = Some b -> is_feature_enabled name = Ok b).
Proof.
  unfold evaluate_all_feature_flag_values_for_client.
  rewrite evaluate_known_set by done. intros Hr.
  destruct (evaluate_each_inv _ _ _ _ Hr) as [Hin Hout].
  assert (Hdom : dom r = ALL_FEATURES_NAMES_SET).
  { apply leibniz_equiv. intros x. rewrite elem_of_dom. split.
    - intros [b Hb].
      destruct (decide (x ∈ ALL_FEATURES_NAMES_SET)) as [|Hx]; [done|].
      rewrite Hout in Hb by (by rewrite elem_of_elements).
      by rewrite lookup_empty in Hb.
    - intros Hx. destruct (Hin x) as (p & _ & Hp);
        [by apply elem_of_elements | by eexists]. }
  split; [exact Hdom|]. split.
  - intros name Hname. apply Hin. by apply elem_of_elements.
  - intros -> name b Hb.
    assert (Hname : name ∈ ALL_FEATURES_NAMES_SET).
    { rewrite <- Hdom. apply elem_of_dom. by eexists. }
    destruct (Hin name) as (p & Hp & Hrp); [by apply elem_of_elements|].
    rewrite Hb in Hrp. injection Hrp as ->.
    unfold is_feature_enabled, _evaluate_feature_flag_value_for_server.
    rewrite evaluate_known_set.
    2:{ intros x Hx. by apply elem_of_singleton in Hx as ->. }
    rewrite elements_singleton. simpl. rewrite Hp. simpl.
    by rewrite lookup_insert_eq.
Qed.
End Flags2.

(** X26 on the two sample features. *)
Lemma client_values_cover_all_features_witness :
  exists r,
    @evaluate_all_feature_flag_values_for_client bool unit sample_platform tt
    = Ok r
    /\ dom r = @PlatformFeatureServices.ALL_FEATURES_NAMES_SET bool unit
                 sample_platform
    /\ @is_feature_enabled bool unit sample_platform sample_server
         "android_beta_landing_page" = Ok true.
Proof.
  destruct (@evaluate_all_feature_flag_values_for_client bool unit
              sample_platform tt) as [r|e] eqn:E; [|by vm_compute in E].
  destruct (@client_values_cover_all_features bool unit sample_platform
              sample_server tt r E) as (H1 & H2 & H3).
  exists r. split; [reflexivity|]. split; [exact H1|].
  apply (H3 eq_refl).
  destruct (H2 "android_beta_landing_page") as (p & Hp & Hr).
  - unfold PlatformFeatureServices.ALL_FEATURES_NAMES_SET,
      PlatformFeatureServices.ALL_FEATURES_LIST.
    apply elem_of_list_to_set, list_elem_of_In. simpl. tauto.
  - simpl in Hp. injection Hp as <-. exact Hr.
Defined.
